(** * CHIP-8 interpreter: a shallow embedding of [CHIP-8.cpp]

    The interpreter keeps its machine in global arrays and scalars; here they
    are the fields of one record that every handler takes and returns.
    [BYTE] is [unsigned char] and [WORD] is [unsigned short int]: both are
    integers of [Z] with the truncation of every store written out.  A C++
    array is a list read with [!!] and written with [<[ _ := _ ]>]; an access
    whose index lies outside the declared bounds is undefined behaviour in
    C++ and ends the run of the model with a [fault].  The one input the
    handlers take from outside the machine, the value of [rand()], is a
    parameter. *)

From Stdlib Require Import ZArith List Lia Bool String Ascii.
From stdpp Require Import base numbers list.
Import ListNotations.
Local Open Scope Z_scope.

(** ** Machine integers *)

Definition BYTE (z : Z) : Z := z mod 256.
Definition WORD (z : Z) : Z := z mod 65536.

Definition is_byte (z : Z) : bool := (0 <=? z) && (z <? 256).

(** ** Outcome of code that indexes arrays

    The program checks no index.  Where C++ leaves the behaviour undefined
    the model stops with the [fault] that names the access; a [fault] is a
    verdict on the code, not an error that the code detects or reports. *)

Inductive fault : Set :=
| MemoryOutOfBounds    (* m_GameMemory[a] with a outside 0 .. 0xFFF-1 *)
| ScreenOutOfBounds    (* m_ScreenData[x][y] with x >= 64 or y >= 32   *)
| EmptyStackRead.      (* m_Stack.back() on an empty vector            *)

Inductive result (A : Type) : Type :=
| Ok (a : A)
| Undefined (f : fault).
Arguments Ok {A} a.
Arguments Undefined {A} f.

Definition bind {A B : Type} (c : result A) (k : A -> result B) : result B :=
  match c with
  | Ok a => k a
  | Undefined f => Undefined f
  end.

Notation "'let*' x ':=' c 'in' k" := (bind c (fun x => k))
  (at level 10, x name, c at level 100, k at level 200).

(** ** The machine *)

Definition MEMORY_SIZE : Z := 0xFFF.
Definition SCREEN_WIDTH : Z := 64.
Definition SCREEN_HEIGHT : Z := 32.
Definition numOfSprites : Z := 16.
Definition numOfPixels : Z := 5.

Record state : Type := mkState {
  m_GameMemory : list Z;   (* BYTE m_GameMemory[0xFFF]                       *)
  m_Registers  : list Z;   (* BYTE m_Registers[16]                           *)
  m_Keyboard   : list Z;   (* BYTE m_Keyboard[16]                            *)
  m_AddressI   : Z;        (* WORD                                           *)
  m_PC         : Z;        (* WORD                                           *)
  m_Stack      : list Z;   (* std::vector<WORD>, back() is the last element  *)
  delayTimer   : Z;        (* uint8_t                                        *)
  soundTimer   : Z;        (* uint8_t                                        *)
  m_ScreenData : list Z;   (* BYTE [64][32], row-major: [x][y] at x*32 + y   *)
  console      : list string  (* what printf has written, oldest first       *)
}.

Definition set_mem (m : list Z) (s : state) : state :=
  mkState m (m_Registers s) (m_Keyboard s) (m_AddressI s) (m_PC s)
          (m_Stack s) (delayTimer s) (soundTimer s) (m_ScreenData s) (console s).
Definition set_regs (r : list Z) (s : state) : state :=
  mkState (m_GameMemory s) r (m_Keyboard s) (m_AddressI s) (m_PC s)
          (m_Stack s) (delayTimer s) (soundTimer s) (m_ScreenData s) (console s).
Definition set_keys (k : list Z) (s : state) : state :=
  mkState (m_GameMemory s) (m_Registers s) k (m_AddressI s) (m_PC s)
          (m_Stack s) (delayTimer s) (soundTimer s) (m_ScreenData s) (console s).
Definition set_I (i : Z) (s : state) : state :=
  mkState (m_GameMemory s) (m_Registers s) (m_Keyboard s) i (m_PC s)
          (m_Stack s) (delayTimer s) (soundTimer s) (m_ScreenData s) (console s).
Definition set_PC (pc : Z) (s : state) : state :=
  mkState (m_GameMemory s) (m_Registers s) (m_Keyboard s) (m_AddressI s) pc
          (m_Stack s) (delayTimer s) (soundTimer s) (m_ScreenData s) (console s).
Definition set_stack (st : list Z) (s : state) : state :=
  mkState (m_GameMemory s) (m_Registers s) (m_Keyboard s) (m_AddressI s)
          (m_PC s) st (delayTimer s) (soundTimer s) (m_ScreenData s) (console s).
Definition set_delay (d : Z) (s : state) : state :=
  mkState (m_GameMemory s) (m_Registers s) (m_Keyboard s) (m_AddressI s)
          (m_PC s) (m_Stack s) d (soundTimer s) (m_ScreenData s) (console s).
Definition set_sound (d : Z) (s : state) : state :=
  mkState (m_GameMemory s) (m_Registers s) (m_Keyboard s) (m_AddressI s)
          (m_PC s) (m_Stack s) (delayTimer s) d (m_ScreenData s) (console s).
Definition set_screen (d : list Z) (s : state) : state :=
  mkState (m_GameMemory s) (m_Registers s) (m_Keyboard s) (m_AddressI s)
          (m_PC s) (m_Stack s) (delayTimer s) (soundTimer s) d (console s).
Definition printf (msg : string) (s : state) : state :=
  mkState (m_GameMemory s) (m_Registers s) (m_Keyboard s) (m_AddressI s)
          (m_PC s) (m_Stack s) (delayTimer s) (soundTimer s) (m_ScreenData s)
          (console s ++ [msg]).

(** [m_Registers[i]] and [m_Keyboard[i]]: every index the handlers use is a
    nibble of the opcode or a loop counter below 16. *)
Definition V (s : state) (i : Z) : Z :=
  default 0 (m_Registers s !! Z.to_nat i).
Definition setV (i v : Z) (s : state) : state :=
  set_regs (<[Z.to_nat i := BYTE v]> (m_Registers s)) s.
Definition Key (s : state) (i : Z) : Z :=
  default 0 (m_Keyboard s !! Z.to_nat i).

(** [m_GameMemory[a]], read and written. *)
Definition rdMem (s : state) (a : Z) : result Z :=
  if (0 <=? a) && (a <? MEMORY_SIZE) then
    match m_GameMemory s !! Z.to_nat a with
    | Some b => Ok b
    | None => Undefined MemoryOutOfBounds
    end
  else Undefined MemoryOutOfBounds.
Definition pokeMem (a v : Z) (s : state) : state :=
  set_mem (<[Z.to_nat a := BYTE v]> (m_GameMemory s)) s.
Definition wrMem (a v : Z) (s : state) : result state :=
  if (0 <=? a) && (a <? MEMORY_SIZE) then Ok (pokeMem a v s)
  else Undefined MemoryOutOfBounds.

(** [m_ScreenData[x][y]], read and written. *)
Definition inScreen (x y : Z) : bool :=
  (0 <=? x) && (x <? SCREEN_WIDTH) && (0 <=? y) && (y <? SCREEN_HEIGHT).
Definition pixelIndex (x y : Z) : nat := Z.to_nat (x * SCREEN_HEIGHT + y).
Definition rdPixel (s : state) (x y : Z) : result Z :=
  if inScreen x y then
    match m_ScreenData s !! pixelIndex x y with
    | Some b => Ok b
    | None => Undefined ScreenOutOfBounds
    end
  else Undefined ScreenOutOfBounds.
Definition wrPixel (x y v : Z) (s : state) : result state :=
  if inScreen x y then
    Ok (set_screen (<[pixelIndex x y := BYTE v]> (m_ScreenData s)) s)
  else Undefined ScreenOutOfBounds.

(** ** Operand fields *)

Definition GetRegisterX (opcode : Z) : Z := Z.shiftr (Z.land opcode 0x0F00) 8.
Definition GetRegisterY (opcode : Z) : Z := Z.shiftr (Z.land opcode 0x00F0) 4.

(** ** Arithmetic handlers (family 8) *)

Definition Opcode8XY0 (opcode : Z) (s : state) : state :=
  setV (GetRegisterX opcode) (V s (GetRegisterY opcode)) s.

Definition Opcode8XY1 (opcode : Z) (s : state) : state :=
  setV (GetRegisterX opcode)
       (Z.lor (V s (GetRegisterX opcode)) (V s (GetRegisterY opcode))) s.

Definition Opcode8XY2 (opcode : Z) (s : state) : state :=
  setV (GetRegisterX opcode)
       (Z.land (V s (GetRegisterX opcode)) (V s (GetRegisterY opcode))) s.

Definition Opcode8XY3 (opcode : Z) (s : state) : state :=
  setV (GetRegisterX opcode)
       (Z.lxor (V s (GetRegisterX opcode)) (V s (GetRegisterY opcode))) s.

Definition Opcode8XY4 (opcode : Z) (s : state) : state :=
  let s := setV 0xF 0 s in
  let xval := V s (GetRegisterX opcode) in
  let yval := V s (GetRegisterY opcode) in
  let s := if yval >? xval then setV 0xF 1 s else s in
  setV (GetRegisterX opcode)
       (V s (GetRegisterX opcode) + V s (GetRegisterY opcode)) s.

Definition Opcode8XY5 (opcode : Z) (s : state) : state :=
  let s := setV 0xF 1 s in
  let xval := V s (GetRegisterX opcode) in
  let yval := V s (GetRegisterY opcode) in
  let s := if yval >? xval then setV 0xF 0 s else s in
  setV (GetRegisterX opcode) (xval - yval) s.

Definition Opcode8XY6 (opcode : Z) (s : state) : state :=
  let yVal := V s (GetRegisterY opcode) in
  let LSB := Z.land yVal 1 in
  let s := setV 0xF LSB s in
  (* m_Registers[X] = m_Registers[Y] >>= 1 : VY is shifted in place first *)
  let s := setV (GetRegisterY opcode) (Z.shiftr (V s (GetRegisterY opcode)) 1) s in
  setV (GetRegisterX opcode) (V s (GetRegisterY opcode)) s.

Definition Opcode8XY7 (opcode : Z) (s : state) : state :=
  let s := setV 0xF 1 s in
  let xval := V s (GetRegisterX opcode) in
  let yval := V s (GetRegisterY opcode) in
  let s := if yval >? xval then setV 0xF 0 s else s in
  setV (GetRegisterX opcode)
       (V s (GetRegisterX opcode) - V s (GetRegisterY opcode)) s.

Definition Opcode8XYE (opcode : Z) (s : state) : state :=
  let s := setV 0xF (Z.shiftr (V s (GetRegisterX opcode)) 7) s in
  setV (GetRegisterX opcode) (Z.shiftl (V s (GetRegisterX opcode)) 1) s.

(** ** Loops

    [for (int i = lo; i < lo + n; i++) body], with the loop counter handed to
    the body; the first faulting iteration ends the loop. *)
Fixpoint for_loop (lo : Z) (n : nat) (body : Z -> state -> result state)
         (s : state) : result state :=
  match n with
  | O => Ok s
  | S n' => let* s' := body lo s in for_loop (lo + 1) n' body s'
  end.

(** ** Flow control, immediates, index register *)

Definition Opcode00E0 (opcode : Z) (s : state) : state :=
  set_screen (replicate (Z.to_nat (SCREEN_WIDTH * SCREEN_HEIGHT)) 0) s.

Definition Opcode00EE (opcode : Z) (s : state) : result state :=
  match last (m_Stack s) with
  | Some top => Ok (set_stack (removelast (m_Stack s)) (set_PC top s))
  | None => Undefined EmptyStackRead
  end.

Definition Opcode1NNN (opcode : Z) (s : state) : state :=
  set_PC (Z.land opcode 0x0FFF) s.

Definition Opcode2NNN (opcode : Z) (s : state) : state :=
  let s := set_stack (m_Stack s ++ [m_PC s]) s in
  set_PC (Z.land opcode 0x0FFF) s.

Definition skip (s : state) : state := set_PC (WORD (m_PC s + 2)) s.

Definition Opcode3XNN (opcode : Z) (s : state) : state :=
  let regx := GetRegisterX opcode in
  let nn := Z.land opcode 0x00FF in
  if V s regx =? nn then skip s else s.

Definition Opcode4XNN (opcode : Z) (s : state) : state :=
  let regx := GetRegisterX opcode in
  let nn := Z.land opcode 0x00FF in
  if V s regx =? nn then s else skip s.

Definition Opcode5XY0 (opcode : Z) (s : state) : state :=
  if V s (GetRegisterX opcode) =? V s (GetRegisterY opcode) then skip s else s.

Definition Opcode6XNN (opcode : Z) (s : state) : state :=
  let regx := GetRegisterX opcode in
  let nn := Z.land opcode 0x00FF in
  setV regx nn s.

Definition Opcode7XNN (opcode : Z) (s : state) : state :=
  let nn := Z.land opcode 0x00FF in
  setV (GetRegisterX opcode) (V s (GetRegisterX opcode) + nn) s.

Definition Opcode9XY0 (opcode : Z) (s : state) : state :=
  if V s (GetRegisterX opcode) =? V s (GetRegisterY opcode) then s else skip s.

Definition OpcodeANNN (opcode : Z) (s : state) : state :=
  let nnn := Z.land opcode 0x0FFF in
  set_I nnn s.

Definition OpcodeBNNN (opcode : Z) (s : state) : state :=
  let nnn := Z.land opcode 0x0FFF in
  set_PC (WORD (nnn + V s 0x0)) s.

(** [rnd] is the number that [rand()] returns when this handler calls it. *)
Definition OpcodeCXNN (rnd : Z) (opcode : Z) (s : state) : state :=
  let nn := Z.land opcode 0x00FF in
  setV (GetRegisterX opcode) (Z.land rnd nn) s.

(** ** Drawing *)

(** One iteration of the inner loop of [OpcodeDXYN]: [xpixelinv] runs from 7
    down to 0 while [xpixel] runs from 0 up to 7. *)
Definition drawPixel (data coordx y : Z) (xpixel : Z) (s : state)
  : result state :=
  let xpixelinv := 7 - xpixel in
  let mask := Z.shiftl 1 xpixelinv in
  if Z.land data mask =? 0 then Ok s
  else
    let x := coordx + xpixel in
    let* p := rdPixel s x y in
    let s := if p =? 1 then setV 0xF 1 s else s in
    let* q := rdPixel s x y in
    wrPixel x y (Z.lxor q 1) s.

(** One iteration of the outer loop. *)
Definition drawLine (coordx coordy : Z) (yline : Z) (s : state)
  : result state :=
  let* data := rdMem s (m_AddressI s + yline) in
  for_loop 0 8 (drawPixel data coordx (coordy + yline)) s.

Definition OpcodeDXYN (opcode : Z) (s : state) : result state :=
  let height := Z.land opcode 0x000F in
  let coordx := V s (GetRegisterX opcode) in
  let coordy := V s (GetRegisterY opcode) in
  let s := setV 0xF 0 s in
  for_loop 0 (Z.to_nat height) (drawLine coordx coordy) s.

(** ** Keyboard, timers, memory transfers *)

Definition OpcodeEX9E (opcode : Z) (s : state) : state :=
  if V s (GetRegisterX opcode) =? Key s (GetRegisterX opcode)
  then skip s else s.

Definition OpcodeEXA1 (opcode : Z) (s : state) : state :=
  if V s (GetRegisterX opcode) =? Key s (GetRegisterX opcode)
  then s else skip s.

Definition OpcodeFX07 (opcode : Z) (s : state) : state :=
  setV (GetRegisterX opcode) (delayTimer s) s.

Definition OpcodeFX15 (opcode : Z) (s : state) : state :=
  set_delay (V s (GetRegisterX opcode)) s.

Definition OpcodeFX18 (opcode : Z) (s : state) : state :=
  set_sound (V s (GetRegisterX opcode)) s.

Definition OpcodeFX1E (opcode : Z) (s : state) : state :=
  set_I (WORD (m_AddressI s + V s (GetRegisterX opcode))) s.

(** One iteration of the loop of [OpcodeFX0A].  The local [keyPressed] is
    assigned and never read, so it has no counterpart here. *)
Definition scanKey (opcode : Z) (s : state) (i : Z) : state :=
  if Key s i =? 0 then s else setV (GetRegisterX opcode) i s.

Definition OpcodeFX0A (opcode : Z) (s : state) : state :=
  fold_left (scanKey opcode) (seqZ 0 16) s.

(** [*m_ScreenData[regx]] is the first byte of row [regx] of the screen. *)
Definition OpcodeFX29 (opcode : Z) (s : state) : result state :=
  let regx := V s (GetRegisterX opcode) in
  let* b := rdPixel s regx 0 in
  Ok (set_I b s).

Definition OpcodeFX33 (opcode : Z) (s : state) : result state :=
  let value := V s (GetRegisterX opcode) in
  let hundreds := value / 100 in
  let tens := (value / 10) mod 10 in
  let units := value mod 10 in
  let* s := wrMem (m_AddressI s) hundreds s in
  let* s := wrMem (m_AddressI s + 1) tens s in
  wrMem (m_AddressI s + 2) units s.

Definition OpcodeFX55 (opcode : Z) (s : state) : result state :=
  let regx := GetRegisterX opcode in
  let* s := for_loop 0 (Z.to_nat (regx + 1))
              (fun i s => wrMem (m_AddressI s + i) (V s i) s) s in
  Ok (set_I (WORD (m_AddressI s + regx + 1)) s).

Definition OpcodeFX65 (opcode : Z) (s : state) : result state :=
  let xval := GetRegisterX opcode in
  let* s := for_loop 0 (Z.to_nat (xval + 1))
              (fun i s => let* b := rdMem s (m_AddressI s + i) in
                          Ok (setV i b s)) s in
  Ok (set_I (WORD (m_AddressI s + xval + 1)) s).

(** ** Fetch *)

Definition GetNextOpcode (s : state) : result (Z * state) :=
  let* hi := rdMem s (m_PC s) in
  let res := WORD (Z.shiftl hi 8) in
  let* lo := rdMem s (m_PC s + 1) in
  let res := Z.lor res lo in
  Ok (res, set_PC (WORD (m_PC s + 2)) s).

(** ** Decode and dispatch *)

(** The [switch] of [DecodeOpcodeCycle].  The inner switches have no
    [default]; the outer one has, and prints. *)
Definition Dispatch (rnd : Z) (opcode : Z) (s : state) : result state :=
  match Z.land opcode 0xF000 with
  | 0x0000 =>
      match Z.land opcode 0x000F with
      | 0x0000 => Ok (Opcode00E0 opcode s)
      | 0x000E => Opcode00EE opcode s
      | _ => Ok s
      end
  | 0x1000 => Ok (Opcode1NNN opcode s)
  | 0x2000 => Ok (Opcode2NNN opcode s)
  | 0x3000 => Ok (Opcode3XNN opcode s)
  | 0x4000 => Ok (Opcode4XNN opcode s)
  | 0x5000 => Ok (Opcode5XY0 opcode s)
  | 0x6000 => Ok (Opcode6XNN opcode s)
  | 0x7000 => Ok (Opcode7XNN opcode s)
  | 0x8000 =>
      match Z.land opcode 0x000F with
      | 0x0000 => Ok (Opcode8XY0 opcode s)
      | 0x0001 => Ok (Opcode8XY1 opcode s)
      | 0x0002 => Ok (Opcode8XY2 opcode s)
      | 0x0003 => Ok (Opcode8XY3 opcode s)
      | 0x0004 => Ok (Opcode8XY4 opcode s)
      | 0x0005 => Ok (Opcode8XY5 opcode s)
      | 0x0006 => Ok (Opcode8XY6 opcode s)
      | 0x0007 => Ok (Opcode8XY7 opcode s)
      | 0x000E => Ok (Opcode8XYE opcode s)
      | _ => Ok s
      end
  | 0x9000 => Ok (Opcode9XY0 opcode s)
  | 0xA000 => Ok (OpcodeANNN opcode s)
  | 0xB000 => Ok (OpcodeBNNN opcode s)
  | 0xC000 => Ok (OpcodeCXNN rnd opcode s)
  | 0xD000 => OpcodeDXYN opcode s
  | 0xE000 =>
      match Z.land opcode 0x00FF with
      | 0x009E => Ok (OpcodeEX9E opcode s)
      | 0x00A1 => Ok (OpcodeEXA1 opcode s)
      | _ => Ok s
      end
  | 0xF000 =>
      match Z.land opcode 0x00FF with
      | 0x0007 => Ok (OpcodeFX07 opcode s)
      | 0x000A => Ok (OpcodeFX0A opcode s)
      | 0x0015 => Ok (OpcodeFX15 opcode s)
      | 0x0018 => Ok (OpcodeFX18 opcode s)
      | 0x001E => Ok (OpcodeFX1E opcode s)
      | 0x0029 => OpcodeFX29 opcode s
      | 0x0033 => OpcodeFX33 opcode s
      | 0x0055 => OpcodeFX55 opcode s
      | 0x0065 => OpcodeFX65 opcode s
      | _ => Ok s
      end
  | _ => Ok (printf "No additional opcodes from this ROM." s)
  end.

(** The two [if]s that close [DecodeOpcodeCycle]. *)
Definition tickTimers (s : state) : state :=
  let s := if delayTimer s >? 0 then set_delay (BYTE (delayTimer s - 1)) s
           else s in
  if soundTimer s >? 0
  then set_sound (BYTE (soundTimer s - 1)) (printf "Beeping sound" s)
  else s.

Definition DecodeOpcodeCycle (rnd : Z) (opcode : Z) (s : state)
  : result state :=
  let* s := Dispatch rnd opcode s in
  Ok (tickTimers s).

(** ** Reset and program load *)

Definition m_FontData : list (list Z) :=
  [ [0xF0; 0x90; 0x90; 0x90; 0xF0];   (* 0 *)
    [0x20; 0x60; 0x20; 0x20; 0x70];   (* 1 *)
    [0xF0; 0x10; 0xF0; 0x80; 0xF0];   (* 2 *)
    [0xF0; 0x10; 0xF0; 0x10; 0xF0];   (* 3 *)
    [0x90; 0x90; 0xF0; 0x10; 0x10];   (* 4 *)
    [0xF0; 0x80; 0xF0; 0x10; 0xF0];   (* 5 *)
    [0xF0; 0x80; 0xF0; 0x90; 0xF0];   (* 6 *)
    [0xF0; 0x10; 0x20; 0x40; 0x40];   (* 7 *)
    [0xF0; 0x90; 0xF0; 0x90; 0xF0];   (* 8 *)
    [0xF0; 0x90; 0xF0; 0x10; 0xF0];   (* 9 *)
    [0xF0; 0x90; 0xF0; 0x90; 0x90];   (* A *)
    [0xE0; 0x90; 0xE0; 0x90; 0xE0];   (* B *)
    [0xF0; 0x80; 0x80; 0x80; 0xF0];   (* C *)
    [0xE0; 0x90; 0x90; 0x90; 0xE0];   (* D *)
    [0xF0; 0x80; 0xF0; 0x80; 0xF0];   (* E *)
    [0xF0; 0x80; 0xF0; 0x80; 0x80] ]. (* F *)

Definition fontByte (i j : Z) : Z :=
  default 0 (default [] (m_FontData !! Z.to_nat i) !! Z.to_nat j).

Definition newline : string := String (ascii_of_nat 10) EmptyString.

Definition CPUReset (s : state) : state :=
  let s := set_I 0 s in
  let s := set_PC 0x200 s in
  let s := set_regs (replicate 16 0) s in
  let s := set_keys (replicate 16 0) s in
  let s := set_mem (replicate (Z.to_nat MEMORY_SIZE) 0) s in
  fold_left
    (fun s i =>
       let s := fold_left
                  (fun s j => pokeMem (i * numOfSprites + j) (fontByte i j) s)
                  (seqZ 0 numOfPixels) s in
       printf newline s)
    (seqZ 0 numOfSprites) s.

(** The globals before [main] runs: static storage is zero-initialised and
    the vector is empty. *)
Definition power_on : state :=
  mkState (replicate (Z.to_nat MEMORY_SIZE) 0) (replicate 16 0)
          (replicate 16 0) 0 0 [] 0 0
          (replicate (Z.to_nat (SCREEN_WIDTH * SCREEN_HEIGHT)) 0) [].

(** [LoadCH8ROM]: [ROM] is the content of the file named by [fname], or
    [None] when the stream could not be opened.  The test of [buffer] that
    follows [new] has no counterpart: [new] throws instead of returning a
    null pointer, so that branch is never taken. *)
Definition LoadCH8ROM (ROM : option (list Z)) (s : state) : state * bool :=
  match ROM with
  | None =>
      (printf
         (String.append
            "Error loading the ROM. This occurs if the file does not exist or the name does not exist."
            newline) s,
       false)
  | Some buffer =>
      let bufferSize := Z.of_nat (length buffer) in
      if (0xFFF + 1) - 0x200 >? bufferSize then
        (fold_left
           (fun s i =>
              pokeMem (i + 0x200) (default 0 (buffer !! Z.to_nat i)) s)
           (seqZ 0 bufferSize) s,
         true)
      else
        (printf
           (String.append "ROM is too large. Please load another ROM file."
                          newline) s,
         false)
  end.

(** ** The application loop *)

(** What [SDL_PollEvent] hands to the input loop.  A key is named by the
    hexadecimal digit it stands for; any other key is [None]. *)
Inductive SDL_Event : Set :=
| SDL_QUIT
| SDL_KEYDOWN (sym : option Z)
| SDL_KEYUP (sym : option Z)
| SDL_OTHER.

Definition handleEvent (acc : state * bool) (event : SDL_Event)
  : state * bool :=
  let (s, exit) := acc in
  match event with
  | SDL_QUIT => (s, true)
  | SDL_KEYDOWN (Some k) =>
      (set_keys (<[Z.to_nat k := 1]> (m_Keyboard s)) s, exit)
  | SDL_KEYDOWN None =>
      (printf (String.append "no other actions after pressing any key"
                             newline) s,
       exit)
  | SDL_KEYUP (Some k) =>
      (set_keys (<[Z.to_nat k := 0]> (m_Keyboard s)) s, exit)
  | SDL_KEYUP None =>
      (printf (String.append "no other actions after lifting from any key"
                             newline) s,
       exit)
  | SDL_OTHER => (s, exit)
  end.

(** [DrawPixels], as far as the machine is concerned: the colour of every
    pixel goes to the renderer, and a lit pixel also sets VF. *)
Definition DrawPixels (s : state) : state :=
  fold_left (fun s p => if p =? 1 then setV 0xF 1 s else s)
            (m_ScreenData s) s.

(** One turn of the [while (!exit)] loop of [main]: the opcode is fetched
    before the ROM file is (re)loaded, and decoded after. *)
Definition MainLoopBody (ROM : option (list Z)) (rnd : Z)
           (events : list SDL_Event) (s : state) : result (state * bool) :=
  let* f := GetNextOpcode s in
  let (opcode, s) := f in
  let (s, isLoaded) := LoadCH8ROM ROM s in
  let* s := (if isLoaded then DecodeOpcodeCycle rnd opcode s else Ok s) in
  let (s, exit) := fold_left handleEvent events (s, negb isLoaded) in
  Ok (DrawPixels s, exit).

(** [n] turns of the loop, one list of events and one [rand()] value per
    turn; the loop ends early when [exit] is set. *)
Fixpoint MainLoop (ROM : option (list Z))
         (turns : list (Z * list SDL_Event)) (s : state) : result state :=
  match turns with
  | [] => Ok s
  | (rnd, events) :: rest =>
      let* r := MainLoopBody ROM rnd events s in
      let (s', exit) := r in
      if exit then Ok s' else MainLoop ROM rest s'
  end.

(** * Vocabulary of the statements *)

(** ** Well-formed machines *)

(** Sixteen registers, each a byte. *)
Definition regs_ok (s : state) : bool :=
  (length (m_Registers s) =? 16)%nat && forallb is_byte (m_Registers s).

(** Timers hold bytes. *)
Definition timers_ok (s : state) : bool :=
  is_byte (delayTimer s) && is_byte (soundTimer s).

(** The pair of timers, for statements that speak of both. *)
Definition timers (s : state) : Z * Z := (delayTimer s, soundTimer s).

(** The keys that are down, in increasing order. *)
Definition pressedKeys (s : state) : list Z :=
  List.filter (fun i => negb (Key s i =? 0)) (seqZ 0 16).

(** ** Classes of opcode words *)

Definition member (z : Z) (l : list Z) : bool := existsb (Z.eqb z) l.

(** The sixteen values of [opcode & 0xF000], one for each [case] of the
    outer [switch]. *)
Definition families : list Z :=
  [0x0000; 0x1000; 0x2000; 0x3000; 0x4000; 0x5000; 0x6000; 0x7000;
   0x8000; 0x9000; 0xA000; 0xB000; 0xC000; 0xD000; 0xE000; 0xF000].

(** The opcode words for which [DecodeOpcodeCycle] calls no handler: the
    four families with an inner [switch], when no [case] of it matches. *)
Definition reachesNoHandler (opcode : Z) : bool :=
  let family := Z.land opcode 0xF000 in
  let n := Z.land opcode 0x000F in
  let nn := Z.land opcode 0x00FF in
  ((family =? 0x0000) && negb (member n [0x0; 0xE]))
  || ((family =? 0x8000)
      && negb (member n [0x0; 0x1; 0x2; 0x3; 0x4; 0x5; 0x6; 0x7; 0xE]))
  || ((family =? 0xE000) && negb (member nn [0x9E; 0xA1]))
  || ((family =? 0xF000)
      && negb (member nn [0x07; 0x0A; 0x15; 0x18; 0x1E; 0x29; 0x33; 0x55;
                          0x65])).

(** The two instructions that load a timer, FX15 and FX18. *)
Definition setsTimer (opcode : Z) : bool :=
  (Z.land opcode 0xF000 =? 0xF000)
  && member (Z.land opcode 0x00FF) [0x15; 0x18].

(** FX15 on its own, and FX18 on its own. *)
Definition loadsDelay (opcode : Z) : bool :=
  (Z.land opcode 0xF000 =? 0xF000) && (Z.land opcode 0x00FF =? 0x15).

Definition loadsSound (opcode : Z) : bool :=
  (Z.land opcode 0xF000 =? 0xF000) && (Z.land opcode 0x00FF =? 0x18).

(** ** Sample machines *)

(** The machine after [CPUReset] with V0 and V1 loaded. *)
Definition with_V0_V1 (a b : Z) : state :=
  setV 1 b (setV 0 a (CPUReset power_on)).

(** The machine after [CPUReset] with VF loaded. *)
Definition with_VF (v : Z) : state := setV 0xF v (CPUReset power_on).

(** The machine after [CPUReset] with one opcode word stored at 0x200. *)
Definition with_word (hi lo : Z) : state :=
  pokeMem 0x201 lo (pokeMem 0x200 hi (CPUReset power_on)).

(** The machine after [CPUReset] with sixteen return addresses saved. *)
Definition full_stack : state :=
  set_stack (replicate 16 0x200) (CPUReset power_on).

(** The machine after [CPUReset] with the delay timer loaded. *)
Definition with_delay (d : Z) : state := set_delay d (CPUReset power_on).

(** The screen of [s] with pixel (x, y) lit. *)
Definition lit (x y : Z) (s : state) : state :=
  set_screen (<[pixelIndex x y := 1]> (m_ScreenData s)) s.

(** A ROM whose second and third words are FX0A (wait for a key, X = 0) and
    6007 (V0 := 7).  The application loop fetches its first opcode before
    the file is loaded, so its first turn does not execute the word at
    0x200. *)
Definition rom_key_wait : list Z := [0x00; 0x00; 0xF0; 0x0A; 0x60; 0x07].

(** ** Reading the arrays in statements *)

(** [m_GameMemory[a]] and [m_ScreenData[x][y]] for indices within bounds. *)
Definition mem (s : state) (a : Z) : Z :=
  default 0 (m_GameMemory s !! Z.to_nat a).
Definition pixel (s : state) (x y : Z) : Z :=
  default 0 (m_ScreenData s !! pixelIndex x y).

(** The arrays have their declared sizes and hold bytes. *)
Definition mem_ok (s : state) : bool :=
  (length (m_GameMemory s) =? Z.to_nat MEMORY_SIZE)%nat
  && forallb is_byte (m_GameMemory s).
Definition screen_ok (s : state) : bool :=
  (length (m_ScreenData s) =? Z.to_nat (SCREEN_WIDTH * SCREEN_HEIGHT))%nat
  && forallb is_byte (m_ScreenData s).
Definition keys_ok (s : state) : bool :=
  (length (m_Keyboard s) =? 16)%nat && forallb is_byte (m_Keyboard s).

Definition is_word (z : Z) : bool := (0 <=? z) && (z <? 65536).

(** Every part of the machine is a value of its C++ type. *)
Definition machine_ok (s : state) : bool :=
  regs_ok s && mem_ok s && screen_ok s && keys_ok s && timers_ok s
  && is_word (m_AddressI s) && is_word (m_PC s)
  && forallb is_word (m_Stack s).

(** The opcode word with the four nibbles [f], [x], [y], [n]. *)
Definition word_of (f x y n : Z) : Z := 4096 * f + 256 * x + 16 * y + n.

(** ** The sprite of a draw instruction *)

(** Bit [col] (0 is the leftmost) of a sprite row [data]. *)
Definition bitAt (data col : Z) : bool :=
  negb (Z.land data (Z.shiftl 1 (7 - col)) =? 0).

(** Whether the sprite that DXYN draws from state [s] has a set bit on the
    screen position (x, y). *)
Definition covered (opcode : Z) (s : state) (x y : Z) : bool :=
  let cx := V s (GetRegisterX opcode) in
  let cy := V s (GetRegisterY opcode) in
  (cx <=? x) && (x <? cx + 8) && (cy <=? y)
  && (y <? cy + Z.land opcode 0x000F)
  && bitAt (mem s (m_AddressI s + (y - cy))) (x - cx).

(** Whether a set bit of row [row] of that sprite meets a pixel that holds
    1, and whether any row does. *)
Definition rowCollides (data cx y : Z) (s : state) (cols : Z) : bool :=
  existsb (fun col => bitAt data col && (pixel s (cx + col) y =? 1))
          (seqZ 0 cols).
Definition collides (opcode : Z) (s : state) : bool :=
  existsb (fun row =>
             rowCollides (mem s (m_AddressI s + row))
                         (V s (GetRegisterX opcode))
                         (V s (GetRegisterY opcode) + row) s 8)
          (seqZ 0 (Z.land opcode 0x000F)).

(** ** Keys as the input loop leaves them *)

(** Every key is 0 (up) or 1 (down), the only values [main] stores. *)
Definition keys_01 (s : state) : bool :=
  forallb (fun k => (k =? 0) || (k =? 1)) (m_Keyboard s).

(** [t] differs from [s] in the keys and the printed text at most. *)
Definition input_only (s t : state) : Prop :=
  m_GameMemory t = m_GameMemory s /\ m_Registers t = m_Registers s /\
  m_AddressI t = m_AddressI s /\ m_PC t = m_PC s /\
  m_Stack t = m_Stack s /\ delayTimer t = delayTimer s /\
  soundTimer t = soundTimer s /\ m_ScreenData t = m_ScreenData s.

(** * Properties *)

(** ** Bytes and the register file *)

Lemma BYTE_range (z : Z) : 0 <= BYTE z < 256.
Proof. unfold BYTE. apply Z.mod_pos_bound. lia. Qed.

Lemma BYTE_small (z : Z) : 0 <= z < 256 -> BYTE z = z.
Proof. intros H. unfold BYTE. apply Z.mod_small. exact H. Qed.

Lemma is_byte_true (z : Z) : is_byte z = true <-> 0 <= z < 256.
Proof. unfold is_byte. rewrite andb_true_iff, Z.leb_le, Z.ltb_lt. tauto. Qed.

Lemma regs_ok_length (s : state) :
  regs_ok s = true -> length (m_Registers s) = 16%nat.
Proof.
  unfold regs_ok. rewrite andb_true_iff, Nat.eqb_eq. tauto.
Qed.

Lemma forallb_insert (l : list Z) (i : nat) (v : Z) :
  forallb is_byte l = true -> is_byte v = true ->
  forallb is_byte (<[i := v]> l) = true.
Proof.
  revert i. induction l as [|a l IH]; intros i Hl Hv; [exact Hl|].
  simpl in Hl. apply andb_true_iff in Hl as [Ha Hl].
  destruct i as [|i]; simpl; rewrite ?Ha, ?Hv; simpl; auto.
Qed.

Lemma regs_ok_setV (i v : Z) (s : state) :
  regs_ok s = true -> regs_ok (setV i v s) = true.
Proof.
  unfold regs_ok, setV. simpl. rewrite !andb_true_iff, length_insert.
  intros [Hlen Hall]. split; [exact Hlen|].
  apply forallb_insert; [exact Hall|]. apply is_byte_true, BYTE_range.
Qed.

Lemma V_range (s : state) (i : Z) :
  regs_ok s = true -> 0 <= V s i < 256.
Proof.
  unfold regs_ok, V. rewrite andb_true_iff. intros [_ Hall].
  destruct (m_Registers s !! Z.to_nat i) as [v|] eqn:E; simpl; [|lia].
  rewrite forallb_forall in Hall. apply is_byte_true, Hall.
  apply list_elem_of_In. eapply list_elem_of_lookup_2. exact E.
Qed.

Lemma V_setV_eq (i v : Z) (s : state) :
  regs_ok s = true -> 0 <= i < 16 -> V (setV i v s) i = BYTE v.
Proof.
  intros Hok Hi. apply regs_ok_length in Hok. unfold V, setV. simpl.
  rewrite list_lookup_insert_eq; [reflexivity|lia].
Qed.

Lemma V_setV_ne (i j v : Z) (s : state) :
  i <> j -> 0 <= i -> 0 <= j -> V (setV i v s) j = V s j.
Proof.
  intros Hne Hi Hj. unfold V, setV. simpl.
  rewrite list_lookup_insert_ne; [reflexivity|lia].
Qed.

Lemma regs_ok_if (c : bool) (a b : state) :
  regs_ok a = true -> regs_ok b = true ->
  regs_ok (if c then a else b) = true.
Proof. destruct c; auto. Qed.

Create HintDb regs.
#[local] Hint Resolve regs_ok_setV regs_ok_if : regs.

(** Reads of a register that was just written, wherever they occur. *)
Ltac regs :=
  repeat match goal with
    | |- context [V (setV ?i ?v ?s) ?j] =>
        first [ rewrite (V_setV_ne i j v s) by lia
              | rewrite (V_setV_eq i v s) by (eauto with regs; lia) ]
    end.

(** ** Operand fields are nibbles *)

Lemma GetRegisterX_nibble (opcode : Z) :
  GetRegisterX opcode = (opcode / 256) mod 16.
Proof.
  unfold GetRegisterX.
  change 0x0F00 with (Z.shiftl (Z.ones 4) 8).
  rewrite Z.shiftr_land, Z.shiftr_shiftl_l, Z.sub_diag, Z.shiftl_0_r by lia.
  rewrite Z.land_ones, Z.shiftr_div_pow2 by lia. reflexivity.
Qed.

Lemma GetRegisterY_nibble (opcode : Z) :
  GetRegisterY opcode = (opcode / 16) mod 16.
Proof.
  unfold GetRegisterY.
  change 0x00F0 with (Z.shiftl (Z.ones 4) 4).
  rewrite Z.shiftr_land, Z.shiftr_shiftl_l, Z.sub_diag, Z.shiftl_0_r by lia.
  rewrite Z.land_ones, Z.shiftr_div_pow2 by lia. reflexivity.
Qed.

Lemma GetRegisterX_range (opcode : Z) : 0 <= GetRegisterX opcode < 16.
Proof. rewrite GetRegisterX_nibble. apply Z.mod_pos_bound. lia. Qed.

Lemma GetRegisterY_range (opcode : Z) : 0 <= GetRegisterY opcode < 16.
Proof. rewrite GetRegisterY_nibble. apply Z.mod_pos_bound. lia. Qed.

(** ** Family 8: what each handler leaves in VX and VF

    In this section X and Y are general registers (neither is VF), so the
    write of the flag does not disturb the operands. *)

Section Family8.
Variable opcode : Z.
Variable s : state.
Hypothesis Hok : regs_ok s = true.
Hypothesis HX : GetRegisterX opcode <> 0xF.
Hypothesis HY : GetRegisterY opcode <> 0xF.

(** X21.  8XY4 stores the sum modulo 256 in VX; its flag is not the carry:
    VF is 1 exactly when VY was greater than VX. *)
Lemma Opcode8XY4_spec :
  V (Opcode8XY4 opcode s) (GetRegisterX opcode) = (V s (GetRegisterX opcode) + V s (GetRegisterY opcode)) mod 256 /\
  V (Opcode8XY4 opcode s) 0xF = (if V s (GetRegisterY opcode) >? V s (GetRegisterX opcode) then 1 else 0).
Proof.
  pose proof (GetRegisterX_range opcode) as HXr.
  pose proof (GetRegisterY_range opcode) as HYr.
  unfold Opcode8XY4. cbv zeta.
  regs. destruct (V s (GetRegisterY opcode) >? V s (GetRegisterX opcode)); regs; split; reflexivity.
Qed.

(** X19.  8XY5 stores VX - VY modulo 256 in VX and sets VF to 0 exactly
    when VX was less than VY (a borrow), to 1 otherwise. *)
Lemma Opcode8XY5_spec :
  V (Opcode8XY5 opcode s) (GetRegisterX opcode) = (V s (GetRegisterX opcode) - V s (GetRegisterY opcode)) mod 256 /\
  V (Opcode8XY5 opcode s) 0xF = (if V s (GetRegisterX opcode) <? V s (GetRegisterY opcode) then 0 else 1).
Proof.
  pose proof (GetRegisterX_range opcode) as HXr.
  pose proof (GetRegisterY_range opcode) as HYr.
  unfold Opcode8XY5. cbv zeta.
  regs. rewrite Z.gtb_ltb.
  destruct (V s (GetRegisterX opcode) <? V s (GetRegisterY opcode)); regs; split; reflexivity.
Qed.

(** X22.  8XY7 does what 8XY5 does: VX - VY modulo 256 in VX, and VF = 0
    exactly when VX was less than VY. *)
Lemma Opcode8XY7_spec :
  V (Opcode8XY7 opcode s) (GetRegisterX opcode) = (V s (GetRegisterX opcode) - V s (GetRegisterY opcode)) mod 256 /\
  V (Opcode8XY7 opcode s) 0xF = (if V s (GetRegisterX opcode) <? V s (GetRegisterY opcode) then 0 else 1).
Proof.
  pose proof (GetRegisterX_range opcode) as HXr.
  pose proof (GetRegisterY_range opcode) as HYr.
  unfold Opcode8XY7. cbv zeta.
  regs. rewrite Z.gtb_ltb.
  destruct (V s (GetRegisterX opcode) <? V s (GetRegisterY opcode)); regs; split; reflexivity.
Qed.

(** X20.  8XY6 sets VF to the lowest bit of VY and VX to VY shifted right
    by one bit. *)
Lemma Opcode8XY6_spec :
  V (Opcode8XY6 opcode s) 0xF = Z.land (V s (GetRegisterY opcode)) 1 /\
  V (Opcode8XY6 opcode s) (GetRegisterX opcode) = Z.shiftr (V s (GetRegisterY opcode)) 1.
Proof.
  pose proof (GetRegisterX_range opcode) as HXr.
  pose proof (GetRegisterY_range opcode) as HYr.
  pose proof (V_range s (GetRegisterY opcode) Hok) as HVr.
  assert (Hsh : BYTE (Z.shiftr (V s (GetRegisterY opcode)) 1) = Z.shiftr (V s (GetRegisterY opcode)) 1).
  { apply BYTE_small. rewrite Z.shiftr_div_pow2 by lia.
    change (2 ^ 1) with 2. split; [apply Z.div_pos; lia|].
    apply Z.div_lt_upper_bound; lia. }
  assert (Hlsb : BYTE (Z.land (V s (GetRegisterY opcode)) 1) = Z.land (V s (GetRegisterY opcode)) 1).
  { apply BYTE_small. change 1 with (Z.ones 1) at 1 2.
    rewrite Z.land_ones by lia. change (2 ^ 1) with 2.
    pose proof (Z.mod_pos_bound (V s (GetRegisterY opcode)) 2). lia. }
  unfold Opcode8XY6. cbv zeta.
  split.
  - destruct (Z.eq_dec (GetRegisterX opcode) (GetRegisterY opcode)) as [E|E].
    + rewrite E. regs. exact Hlsb.
    + regs. exact Hlsb.
  - regs. rewrite Hsh. apply BYTE_small. rewrite <- Hsh. apply BYTE_range.
Qed.

(** X23.  8XYE sets VF to the top bit of VX and doubles VX modulo 256; VY
    is neither read nor written. *)
Lemma Opcode8XYE_spec :
  V (Opcode8XYE opcode s) 0xF = Z.shiftr (V s (GetRegisterX opcode)) 7 /\
  V (Opcode8XYE opcode s) (GetRegisterX opcode) = (2 * V s (GetRegisterX opcode)) mod 256 /\
  ((GetRegisterX opcode) <> (GetRegisterY opcode) -> V (Opcode8XYE opcode s) (GetRegisterY opcode) = V s (GetRegisterY opcode)).
Proof.
  pose proof (GetRegisterX_range opcode) as HXr.
  pose proof (GetRegisterY_range opcode) as HYr.
  pose proof (V_range s (GetRegisterX opcode) Hok) as HVr.
  unfold Opcode8XYE. cbv zeta.
  regs. split; [|split].
  - apply BYTE_small. rewrite Z.shiftr_div_pow2 by lia.
    split; [apply Z.div_pos; lia|]. apply Z.div_lt_upper_bound; lia.
  - rewrite Z.shiftl_mul_pow2 by lia. change (2 ^ 1) with 2.
    unfold BYTE. f_equal. lia.
  - intros Hne. regs. reflexivity.
Qed.
End Family8.

(** ** The flag instructions on the inputs of the specification *)

(** The second add-with-carry example: 10 + 5 leaves 15 and a clear flag. *)
Example Opcode8XY4_10_5 :
  V (Opcode8XY4 0x8014 (with_V0_V1 10 5)) 0 = 15 /\
  V (Opcode8XY4 0x8014 (with_V0_V1 10 5)) 0xF = 0.
Proof. vm_compute. split; reflexivity. Qed.

(** C1 (8XY4, add with carry).  The claim wants VF = 1 exactly when VX + VY
    exceeds 255.  The handler tests [yval > xval] instead, so the flag fails
    both ways: on VX = 250, VY = 10 the sum 260 overflows and is stored as 4,
    yet VF is left at 0; on VX = 1, VY = 2 the sum is 3 and VF is 1. *)
Theorem Opcode8XY4_carry_not_reported :
  250 + 10 > 255 /\
  V (Opcode8XY4 0x8014 (with_V0_V1 250 10)) 0 = 4 /\
  V (Opcode8XY4 0x8014 (with_V0_V1 250 10)) 0xF = 0 /\
  1 + 2 <= 255 /\
  V (Opcode8XY4 0x8014 (with_V0_V1 1 2)) 0 = 3 /\
  V (Opcode8XY4 0x8014 (with_V0_V1 1 2)) 0xF = 1.
Proof. vm_compute. repeat split; solve [reflexivity | discriminate]. Qed.

(** The subtract-with-borrow examples of the specification hold for 8XY5. *)
Example Opcode8XY5_examples :
  V (Opcode8XY5 0x8015 (with_V0_V1 5 10)) 0 = 251 /\
  V (Opcode8XY5 0x8015 (with_V0_V1 5 10)) 0xF = 0 /\
  V (Opcode8XY5 0x8015 (with_V0_V1 10 5)) 0 = 5 /\
  V (Opcode8XY5 0x8015 (with_V0_V1 10 5)) 0xF = 1.
Proof. vm_compute. repeat split; reflexivity. Qed.

(** C2 (8XY5 and 8XY7, subtract with borrow).  For 8XY7 the claim wants
    VX := VY - VX with VF = 0 exactly when VY < VX.  The handler computes
    VX - VY and clears VF when VY > VX: on VX = 10, VY = 5 it leaves VX = 5
    and VF = 1 where the claim has 251 and 0; on VX = 5, VY = 10 it leaves
    VX = 251 and VF = 0 where the claim has 5 and 1. *)
Theorem Opcode8XY7_subtracts_the_wrong_way :
  (5 - 10) mod 256 = 251 /\
  V (Opcode8XY7 0x8017 (with_V0_V1 10 5)) 0 = 5 /\
  V (Opcode8XY7 0x8017 (with_V0_V1 10 5)) 0xF = 1 /\
  V (Opcode8XY7 0x8017 (with_V0_V1 5 10)) 0 = 251 /\
  V (Opcode8XY7 0x8017 (with_V0_V1 5 10)) 0xF = 0.
Proof. vm_compute. repeat split; reflexivity. Qed.

(** C3 (8XY6 and 8XYE, shifts).  For 8XYE the claim wants VF := the top bit
    of VY and VX := VY shifted left.  The handler never reads VY: on VX = 1,
    VY = 0x80 it leaves VF = 0 and VX = 2 where the claim has 1 and 0. *)
Theorem Opcode8XYE_shifts_VX_not_VY :
  Z.shiftr 0x80 7 = 1 /\ BYTE (Z.shiftl 0x80 1) = 0 /\
  V (Opcode8XYE 0x801E (with_V0_V1 1 0x80)) 0xF = 0 /\
  V (Opcode8XYE 0x801E (with_V0_V1 1 0x80)) 0 = 2 /\
  V (Opcode8XYE 0x801E (with_V0_V1 1 0x80)) 1 = 0x80.
Proof. vm_compute. repeat split; reflexivity. Qed.

(** C10 as written fails when Y is the flag register: VF is first replaced
    by its own low bit, and it is that bit which is shifted.  With VF = 4
    the claim has VF = 2 afterwards; the handler leaves 0. *)
Lemma Opcode8XY6_flag_operand_counterexample :
  ~ (forall opcode s,
        regs_ok s = true ->
        GetRegisterX opcode <> GetRegisterY opcode ->
        V (Opcode8XY6 opcode s) (GetRegisterY opcode)
        = Z.shiftr (V s (GetRegisterY opcode)) 1).
Proof.
  intros H. specialize (H 0x80F6 (with_VF 4)).
  vm_compute in H. specialize (H eq_refl).
  assert (E : 0 = 2) by (apply H; discriminate). discriminate E.
Qed.

(** C10 (8XY6, amended).  For X <> Y and Y other than the flag register,
    the shift right overwrites VY with VY shifted right by one bit, the same
    value that VX receives; a nonzero VY therefore loses its prior value. *)
Theorem Opcode8XY6_overwrites_VY (opcode : Z) (s : state) :
  regs_ok s = true ->
  GetRegisterX opcode <> GetRegisterY opcode ->
  GetRegisterY opcode <> 0xF ->
  V (Opcode8XY6 opcode s) (GetRegisterY opcode)
  = Z.shiftr (V s (GetRegisterY opcode)) 1 /\
  V (Opcode8XY6 opcode s) (GetRegisterX opcode)
  = V (Opcode8XY6 opcode s) (GetRegisterY opcode) /\
  (V s (GetRegisterY opcode) <> 0 ->
   V (Opcode8XY6 opcode s) (GetRegisterY opcode)
   <> V s (GetRegisterY opcode)).
Proof.
  intros Hok Hne HY.
  pose proof (GetRegisterX_range opcode) as HXr.
  pose proof (GetRegisterY_range opcode) as HYr.
  pose proof (V_range s (GetRegisterY opcode) Hok) as HVr.
  set (X := GetRegisterX opcode) in *. set (Y := GetRegisterY opcode) in *.
  assert (Hsh : BYTE (Z.shiftr (V s Y) 1) = Z.shiftr (V s Y) 1).
  { apply BYTE_small. rewrite Z.shiftr_div_pow2 by lia.
    change (2 ^ 1) with 2. split; [apply Z.div_pos; lia|].
    apply Z.div_lt_upper_bound; lia. }
  assert (HvY : V (Opcode8XY6 opcode s) Y = Z.shiftr (V s Y) 1).
  { unfold Opcode8XY6. cbv zeta. fold X Y. regs. exact Hsh. }
  assert (HvX : V (Opcode8XY6 opcode s) X = Z.shiftr (V s Y) 1).
  { unfold Opcode8XY6. cbv zeta. fold X Y. regs.
    rewrite Hsh. apply BYTE_small. rewrite <- Hsh. apply BYTE_range. }
  split; [exact HvY|]. split; [congruence|].
  intros Hnz. rewrite HvY, Z.shiftr_div_pow2 by lia. change (2 ^ 1) with 2.
  assert (V s Y / 2 < V s Y) by (apply Z.div_lt; lia). lia.
Qed.

Lemma Opcode8XY6_overwrites_VY_witness :
  V (Opcode8XY6 0x8016 (with_V0_V1 0 5)) (GetRegisterY 0x8016)
  = Z.shiftr (V (with_V0_V1 0 5) (GetRegisterY 0x8016)) 1 /\
  V (Opcode8XY6 0x8016 (with_V0_V1 0 5)) (GetRegisterX 0x8016)
  = V (Opcode8XY6 0x8016 (with_V0_V1 0 5)) (GetRegisterY 0x8016) /\
  (V (with_V0_V1 0 5) (GetRegisterY 0x8016) <> 0 ->
   V (Opcode8XY6 0x8016 (with_V0_V1 0 5)) (GetRegisterY 0x8016)
   <> V (with_V0_V1 0 5) (GetRegisterY 0x8016)).
Proof.
  apply (Opcode8XY6_overwrites_VY 0x8016 (with_V0_V1 0 5)).
  - vm_compute. reflexivity.
  - vm_compute. discriminate.
  - vm_compute. discriminate.
Defined.

(** ** Font lookup *)

(** [CPUReset] stores glyph [i] at address [16 * i] (the stride is
    [numOfSprites], not the glyph size), whatever the machine held before. *)
Lemma CPUReset_font_stride :
  forallb
    (fun i => forallb
                (fun j => match rdMem (CPUReset power_on) (16 * i + j) with
                          | Ok b => b =? fontByte i j
                          | Undefined _ => false
                          end)
                (seqZ 0 5))
    (seqZ 0 16) = true.
Proof. vm_compute. reflexivity. Qed.

(** What FX29 computes: the screen byte at column VX, row 0. *)
Lemma OpcodeFX29_spec (opcode : Z) (s : state) (b : Z) :
  rdPixel s (V s (GetRegisterX opcode)) 0 = Ok b ->
  OpcodeFX29 opcode s = Ok (set_I b s).
Proof. intros H. unfold OpcodeFX29. rewrite H. reflexivity. Qed.

(** C4 (FX29, font address).  The claim wants I := font base + digit * 5.
    The handler loads I from the screen instead: with the digit 1 in V0 it
    yields 0 on a blank screen and 1 once pixel (1, 0) is lit, while the
    glyph of 1 sits at address 16 and address 5 holds no glyph at all. *)
Theorem OpcodeFX29_reads_the_screen :
  OpcodeFX29 0xF029 (with_V0_V1 1 0) = Ok (set_I 0 (with_V0_V1 1 0)) /\
  OpcodeFX29 0xF029 (lit 1 0 (with_V0_V1 1 0))
  = Ok (set_I 1 (lit 1 0 (with_V0_V1 1 0))) /\
  firstn 5 (drop 16 (m_GameMemory (with_V0_V1 1 0)))
  = [0x20; 0x60; 0x20; 0x20; 0x70] /\
  firstn 5 (drop 5 (m_GameMemory (with_V0_V1 1 0))) = [0; 0; 0; 0; 0].
Proof. vm_compute. repeat split; reflexivity. Qed.

(** ** Waiting for a key *)

Lemma OpcodeFX0A_scan_idle (opcode : Z) (keys : list Z) (s : state) :
  (forall i, Key s i = 0) -> fold_left (scanKey opcode) keys s = s.
Proof.
  intros Hidle. induction keys as [|k keys IH]; simpl; [reflexivity|].
  unfold scanKey at 2. rewrite Hidle. simpl. exact IH.
Qed.

(** With no key down FX0A changes nothing, so the cycle that decoded it
    ends like any other and the next fetch reads the following word. *)
Lemma OpcodeFX0A_no_key (opcode : Z) (s : state) :
  (forall i, Key s i = 0) -> OpcodeFX0A opcode s = s.
Proof. intros H. unfold OpcodeFX0A. apply OpcodeFX0A_scan_idle, H. Qed.

Lemma DecodeOpcodeCycle_FX0A_no_key (rnd : Z) (s : state) :
  (forall i, Key s i = 0) ->
  DecodeOpcodeCycle rnd 0xF00A s = Ok (tickTimers s).
Proof.
  intros H. unfold DecodeOpcodeCycle.
  change (Dispatch rnd 0xF00A s) with (Ok (OpcodeFX0A 0xF00A s)).
  rewrite OpcodeFX0A_no_key by exact H. reflexivity.
Qed.

(** C5 (FX0A, wait for key).  The claim wants the machine to stay on FX0A
    until a key goes down.  Three turns of the application loop on
    [rom_key_wait], no key ever pressed: the first executes the word fetched
    from the still empty memory, the second executes FX0A, the third
    executes 6007.  V0 = 7 and PC = 0x206 show that the machine went past
    the wait. *)
Theorem key_wait_does_not_suspend :
  match MainLoop (Some rom_key_wait) [(0, []); (0, []); (0, [])]
                 (CPUReset power_on) with
  | Ok s' => m_Keyboard s' = replicate 16 0 /\ m_PC s' = 0x206 /\ V s' 0 = 7
  | Undefined _ => False
  end.
Proof. vm_compute. repeat split; reflexivity. Qed.

(** ** Drawing *)

Lemma drawPixel_outside (data coordx y xpixel : Z) (s : state) :
  Z.land data (Z.shiftl 1 (7 - xpixel)) <> 0 ->
  inScreen (coordx + xpixel) y = false ->
  drawPixel data coordx y xpixel s = Undefined ScreenOutOfBounds.
Proof.
  intros Hbit Hout. unfold drawPixel. cbv zeta.
  destruct (Z.eqb_spec (Z.land data (Z.shiftl 1 (7 - xpixel))) 0) as [E|_];
    [contradiction|].
  unfold rdPixel. rewrite Hout. reflexivity.
Qed.

(** C9 (DXYN, bounds).  The claim wants every pixel access inside the
    64 x 32 grid, by wrapping or clipping.  The handler does neither: with
    VX = 62 the row 0xF0 reaches column 64, and with VY = 31 a sprite of two
    rows reaches row 32; both index [m_ScreenData] outside its bounds. *)
Theorem OpcodeDXYN_leaves_the_grid :
  rdMem (with_V0_V1 62 0) (m_AddressI (with_V0_V1 62 0)) = Ok 0xF0 /\
  OpcodeDXYN 0xD011 (with_V0_V1 62 0) = Undefined ScreenOutOfBounds /\
  OpcodeDXYN 0xD012 (with_V0_V1 0 31) = Undefined ScreenOutOfBounds /\
  inScreen (62 + 2) 0 = false /\ inScreen 0 (31 + 1) = false.
Proof. vm_compute. repeat split; reflexivity. Qed.

(** ** Fetch *)

Lemma GetNextOpcode_Ok (s s1 : state) (opcode : Z) :
  GetNextOpcode s = Ok (opcode, s1) ->
  s1 = set_PC (m_PC s + 2) s /\ 0 <= m_PC s /\ m_PC s + 1 < MEMORY_SIZE.
Proof.
  unfold GetNextOpcode, rdMem, MEMORY_SIZE.
  destruct ((0 <=? m_PC s) && (m_PC s <? 0xFFF)) eqn:E1; [|discriminate].
  destruct (m_GameMemory s !! Z.to_nat (m_PC s)); [|discriminate].
  simpl bind.
  destruct ((0 <=? m_PC s + 1) && (m_PC s + 1 <? 0xFFF)) eqn:E2;
    [|discriminate].
  destruct (m_GameMemory s !! Z.to_nat (m_PC s + 1)); [|discriminate].
  simpl bind. intros H. injection H as _ <-.
  apply andb_true_iff in E1 as [E1 _]. apply andb_true_iff in E2 as [_ E2].
  apply Z.leb_le in E1. apply Z.ltb_lt in E2.
  unfold WORD. rewrite Z.mod_small by lia. auto.
Qed.

(** ** Words that reach no handler *)

(** Case analysis on an operand field [n] that a [switch] inspects: close
    the cases the hypothesis [Hn] excludes and the cases that fall through,
    and split the others further. *)
Ltac split_field Hn n :=
  destruct n as [|p|p];
  repeat first
    [ (let H := fresh in assert (H := Hn); vm_compute in H; discriminate H)
    | reflexivity
    | destruct p ].

Lemma Dispatch_no_handler (rnd opcode : Z) (s : state) :
  reachesNoHandler opcode = true -> Dispatch rnd opcode s = Ok s.
Proof.
  unfold reachesNoHandler, member. cbv zeta. intros H.
  apply orb_true_iff in H as [H|H].
  1: apply orb_true_iff in H as [H|H].
  1: apply orb_true_iff in H as [H|H].
  all: apply andb_true_iff in H as [Hf Hn]; apply Z.eqb_eq in Hf.
  all: unfold Dispatch; rewrite Hf.
  - set (n := Z.land opcode 15) in *. clearbody n. split_field Hn n.
  - set (n := Z.land opcode 15) in *. clearbody n. split_field Hn n.
  - set (n := Z.land opcode 255) in *. clearbody n. split_field Hn n.
  - set (n := Z.land opcode 255) in *. clearbody n. split_field Hn n.
Qed.

(** Family 5 has no inner [switch]: every word 5xxx is handled as 5XY0. *)
Lemma Dispatch_family_5 (rnd opcode : Z) (s : state) :
  Z.land opcode 0xF000 = 0x5000 ->
  Dispatch rnd opcode s = Ok (Opcode5XY0 opcode s).
Proof. intros H. unfold Dispatch. rewrite H. reflexivity. Qed.

Lemma Opcode5XY0_same_register (opcode : Z) (s : state) :
  GetRegisterX opcode = GetRegisterY opcode ->
  Opcode5XY0 opcode s = skip s.
Proof.
  intros H. unfold Opcode5XY0. rewrite H, Z.eqb_refl. reflexivity.
Qed.

(** C6 as written fails on its own example: 0x5FFF is decoded as 5XY0 with
    X = Y = F, the comparison of VF with itself succeeds, and the program
    counter ends 4 past the word, not 2. *)
Lemma cycle_5FFF_skips :
  exists s1 s',
    GetNextOpcode (with_word 0x5F 0xFF) = Ok (0x5FFF, s1) /\
    DecodeOpcodeCycle 0 0x5FFF s1 = Ok s' /\
    m_PC s' = m_PC (with_word 0x5F 0xFF) + 4 /\
    m_PC s' <> m_PC (with_word 0x5F 0xFF) + 2.
Proof.
  eexists. eexists. split; [vm_compute; reflexivity|].
  split; [vm_compute; reflexivity|].
  split; [vm_compute; reflexivity|]. vm_compute. discriminate.
Qed.

(** C6 (unknown opcode, amended).  A word that reaches no handler - family
    0, 8, E or F with a low nibble or byte that no [case] lists - completes
    the cycle as a no-op: the cycle returns, the program counter is 2 past
    the word, and registers, index register, memory, stack, keyboard and
    screen are those before the fetch.  A word of family 5 always reaches
    the 5XY0 handler, whatever its low nibble; when its two register fields
    coincide the comparison succeeds and the program counter is 4 past the
    word. *)
Theorem unknown_opcode_cycle (rnd opcode : Z) (s s1 : state) :
  GetNextOpcode s = Ok (opcode, s1) ->
  (reachesNoHandler opcode = true ->
   DecodeOpcodeCycle rnd opcode s1 = Ok (tickTimers s1) /\
   m_PC (tickTimers s1) = m_PC s + 2 /\
   m_Registers (tickTimers s1) = m_Registers s /\
   m_AddressI (tickTimers s1) = m_AddressI s /\
   m_GameMemory (tickTimers s1) = m_GameMemory s /\
   m_Stack (tickTimers s1) = m_Stack s /\
   m_Keyboard (tickTimers s1) = m_Keyboard s /\
   m_ScreenData (tickTimers s1) = m_ScreenData s) /\
  (Z.land opcode 0xF000 = 0x5000 ->
   DecodeOpcodeCycle rnd opcode s1 = Ok (tickTimers (Opcode5XY0 opcode s1)) /\
   (GetRegisterX opcode = GetRegisterY opcode ->
    m_PC (tickTimers (Opcode5XY0 opcode s1)) = m_PC s + 4)).
Proof.
  intros Hfetch. apply GetNextOpcode_Ok in Hfetch as (-> & Hlo & Hhi).
  unfold MEMORY_SIZE in Hhi. split.
  - intros Hno. unfold DecodeOpcodeCycle.
    rewrite Dispatch_no_handler by exact Hno. split; [reflexivity|].
    unfold tickTimers.
    destruct (delayTimer (set_PC (m_PC s + 2) s) >? 0);
      cbv zeta; simpl;
      destruct (soundTimer s >? 0); simpl; repeat split; reflexivity.
  - intros H5. unfold DecodeOpcodeCycle.
    rewrite Dispatch_family_5 by exact H5. split; [reflexivity|].
    intros Hxy. rewrite Opcode5XY0_same_register by exact Hxy.
    unfold tickTimers, skip.
    destruct (delayTimer _ >? 0); cbv zeta; simpl;
      destruct (soundTimer s >? 0); simpl;
      unfold WORD; rewrite Z.mod_small by lia; lia.
Qed.

Lemma unknown_opcode_cycle_witness :
  (DecodeOpcodeCycle 0 0x8FF8 (set_PC 0x202 (with_word 0x8F 0xF8))
   = Ok (tickTimers (set_PC 0x202 (with_word 0x8F 0xF8))) /\
   m_PC (tickTimers (set_PC 0x202 (with_word 0x8F 0xF8)))
   = m_PC (with_word 0x8F 0xF8) + 2 /\
   m_Registers (tickTimers (set_PC 0x202 (with_word 0x8F 0xF8)))
   = m_Registers (with_word 0x8F 0xF8) /\
   m_AddressI (tickTimers (set_PC 0x202 (with_word 0x8F 0xF8)))
   = m_AddressI (with_word 0x8F 0xF8) /\
   m_GameMemory (tickTimers (set_PC 0x202 (with_word 0x8F 0xF8)))
   = m_GameMemory (with_word 0x8F 0xF8) /\
   m_Stack (tickTimers (set_PC 0x202 (with_word 0x8F 0xF8)))
   = m_Stack (with_word 0x8F 0xF8) /\
   m_Keyboard (tickTimers (set_PC 0x202 (with_word 0x8F 0xF8)))
   = m_Keyboard (with_word 0x8F 0xF8) /\
   m_ScreenData (tickTimers (set_PC 0x202 (with_word 0x8F 0xF8)))
   = m_ScreenData (with_word 0x8F 0xF8)) /\
  (DecodeOpcodeCycle 0 0x5FFF (set_PC 0x202 (with_word 0x5F 0xFF))
   = Ok (tickTimers (Opcode5XY0 0x5FFF (set_PC 0x202 (with_word 0x5F 0xFF))))
   /\
   (GetRegisterX 0x5FFF = GetRegisterY 0x5FFF ->
    m_PC (tickTimers (Opcode5XY0 0x5FFF (set_PC 0x202 (with_word 0x5F 0xFF))))
    = m_PC (with_word 0x5F 0xFF) + 4)).
Proof.
  split.
  - apply (unknown_opcode_cycle 0 0x8FF8 (with_word 0x8F 0xF8)
             (set_PC 0x202 (with_word 0x8F 0xF8)));
      vm_compute; reflexivity.
  - apply (unknown_opcode_cycle 0 0x5FFF (with_word 0x5F 0xFF)
             (set_PC 0x202 (with_word 0x5F 0xFF)));
      vm_compute; reflexivity.
Defined.

(** ** Call and return *)

Lemma Opcode00EE_pops (opcode : Z) (s : state) (st : list Z) (top : Z) :
  m_Stack s = st ++ [top] ->
  Opcode00EE opcode s = Ok (set_stack st (set_PC top s)).
Proof.
  intros H. unfold Opcode00EE. rewrite H, last_snoc, removelast_last.
  reflexivity.
Qed.

(** C7 as written fails: a call with sixteen addresses saved is no error
    of any kind.  The cycle completes, the stack holds seventeen addresses
    and execution continues at NNN. *)
Lemma call_on_full_stack_grows :
  exists s',
    DecodeOpcodeCycle 0 0x2300 full_stack = Ok s' /\
    length (m_Stack full_stack) = 16%nat /\
    length (m_Stack s') = 17%nat /\
    m_PC s' = 0x300.
Proof.
  eexists. split; [vm_compute; reflexivity|].
  repeat split; vm_compute; reflexivity.
Qed.

(** C7 (call and return, amended).  The stack has no capacity: 2NNN at
    any depth, sixteen included, completes, appends the program counter to
    the saved addresses and continues at NNN.  00EE on a stack that holds at
    least one address removes the most recent one and continues there; in
    particular a return right after a call resumes after the call. *)
Theorem call_pushes_at_any_depth (rnd opcode : Z) (s : state) :
  Z.land opcode 0xF000 = 0x2000 ->
  Dispatch rnd opcode s = Ok (Opcode2NNN opcode s) /\
  m_Stack (Opcode2NNN opcode s) = m_Stack s ++ [m_PC s] /\
  length (m_Stack (Opcode2NNN opcode s)) = S (length (m_Stack s)) /\
  m_PC (Opcode2NNN opcode s) = Z.land opcode 0x0FFF /\
  Dispatch rnd 0x00EE (Opcode2NNN opcode s)
  = Ok (set_stack (m_Stack s) (set_PC (m_PC s) (Opcode2NNN opcode s))) /\
  (forall (t : state) (st : list Z) (top : Z),
      m_Stack t = st ++ [top] ->
      Dispatch rnd 0x00EE t = Ok (set_stack st (set_PC top t))).
Proof.
  intros Hf. split.
  { unfold Dispatch. rewrite Hf. reflexivity. }
  split; [reflexivity|]. split.
  { simpl. rewrite length_app. simpl. lia. }
  split; [reflexivity|]. split.
  - change (Dispatch rnd 0x00EE (Opcode2NNN opcode s))
      with (Opcode00EE 0x00EE (Opcode2NNN opcode s)).
    apply Opcode00EE_pops. reflexivity.
  - intros t st top Ht.
    change (Dispatch rnd 0x00EE t) with (Opcode00EE 0x00EE t).
    apply Opcode00EE_pops. exact Ht.
Qed.

Lemma call_pushes_at_any_depth_witness :
  Dispatch 0 0x2300 full_stack = Ok (Opcode2NNN 0x2300 full_stack) /\
  m_Stack (Opcode2NNN 0x2300 full_stack)
  = m_Stack full_stack ++ [m_PC full_stack] /\
  length (m_Stack (Opcode2NNN 0x2300 full_stack))
  = S (length (m_Stack full_stack)) /\
  m_PC (Opcode2NNN 0x2300 full_stack) = Z.land 0x2300 0x0FFF /\
  Dispatch 0 0x00EE (Opcode2NNN 0x2300 full_stack)
  = Ok (set_stack (m_Stack full_stack)
                  (set_PC (m_PC full_stack) (Opcode2NNN 0x2300 full_stack))) /\
  (forall (t : state) (st : list Z) (top : Z),
      m_Stack t = st ++ [top] ->
      Dispatch 0 0x00EE t = Ok (set_stack st (set_PC top t))).
Proof.
  apply (call_pushes_at_any_depth 0 0x2300 full_stack).
  vm_compute. reflexivity.
Defined.

(** ** Loops keep what their body keeps *)

Lemma for_loop_invariant (P : state -> Prop)
      (body : Z -> state -> result state) :
  (forall i s s', P s -> body i s = Ok s' -> P s') ->
  forall n lo s s', P s -> for_loop lo n body s = Ok s' -> P s'.
Proof.
  intros Hbody. induction n as [|n IH]; intros lo s s' HP H; simpl in H.
  - injection H as <-. exact HP.
  - destruct (body lo s) as [s1|f] eqn:E; simpl in H; [|discriminate].
    eapply IH; [|exact H]. eapply Hbody; eauto.
Qed.

Lemma fold_left_invariant {A : Type} (P : state -> Prop)
      (f : state -> A -> state) :
  (forall s a, P s -> P (f s a)) ->
  forall l s, P s -> P (fold_left f l s).
Proof.
  intros Hf. induction l as [|a l IH]; intros s HP; simpl; auto.
Qed.

(** ** What the handlers leave alone

    [obs] is any observation of the machine that the six setters of
    registers, memory, index register, program counter, stack and screen do
    not change - the timers, or the text printed so far.  No handler changes
    it, the two timer loads apart. *)
Section Frame.
Context {A : Type} (obs : state -> A).
Hypothesis obs_regs : forall r s, obs (set_regs r s) = obs s.
Hypothesis obs_mem : forall m s, obs (set_mem m s) = obs s.
Hypothesis obs_I : forall i s, obs (set_I i s) = obs s.
Hypothesis obs_PC : forall pc s, obs (set_PC pc s) = obs s.
Hypothesis obs_stack : forall st s, obs (set_stack st s) = obs s.
Hypothesis obs_screen : forall d s, obs (set_screen d s) = obs s.

Lemma obs_setV i v s : obs (setV i v s) = obs s.
Proof. unfold setV. apply obs_regs. Qed.

Lemma obs_skip s : obs (skip s) = obs s.
Proof. unfold skip. apply obs_PC. Qed.

Lemma obs_if (c : bool) (s1 s2 s : state) :
  obs s1 = obs s -> obs s2 = obs s -> obs (if c then s1 else s2) = obs s.
Proof. destruct c; auto. Qed.

Lemma wrMem_frame a v s s' : wrMem a v s = Ok s' -> obs s' = obs s.
Proof.
  unfold wrMem, pokeMem. intros H.
  destruct ((0 <=? a) && (a <? MEMORY_SIZE)); [|discriminate H].
  injection H as <-. apply obs_mem.
Qed.

Lemma wrPixel_frame x y v s s' : wrPixel x y v s = Ok s' -> obs s' = obs s.
Proof.
  unfold wrPixel. intros H.
  destruct (inScreen x y); [|discriminate H]. injection H as <-.
  apply obs_screen.
Qed.

Lemma drawPixel_frame data cx y xp s s' :
  drawPixel data cx y xp s = Ok s' -> obs s' = obs s.
Proof.
  unfold drawPixel. cbv zeta. intros H.
  destruct (Z.land data _ =? 0); [injection H as <-; reflexivity|].
  destruct (rdPixel s (cx + xp) y) as [p|]; unfold bind in H;
    [|discriminate H].
  destruct (rdPixel _ (cx + xp) y) as [q|] in H; unfold bind in H;
    [|discriminate H].
  apply wrPixel_frame in H. rewrite H.
  apply obs_if; [apply obs_setV|reflexivity].
Qed.

Lemma drawLine_frame cx cy yline s s' :
  drawLine cx cy yline s = Ok s' -> obs s' = obs s.
Proof.
  unfold drawLine. intros H.
  destruct (rdMem s (m_AddressI s + yline)) as [data|]; unfold bind in H;
    [|discriminate H].
  eapply (for_loop_invariant (fun u => obs u = obs s)); [|reflexivity|exact H].
  intros i t t' Ht Hb. apply drawPixel_frame in Hb. congruence.
Qed.

Lemma OpcodeDXYN_frame opcode s s' :
  OpcodeDXYN opcode s = Ok s' -> obs s' = obs s.
Proof.
  unfold OpcodeDXYN. cbv zeta. intros H.
  eapply (for_loop_invariant (fun u => obs u = obs s)); [| |exact H].
  - intros i t t' Ht Hb. apply drawLine_frame in Hb. congruence.
  - apply obs_setV.
Qed.

Lemma Opcode00EE_frame opcode s s' :
  Opcode00EE opcode s = Ok s' -> obs s' = obs s.
Proof.
  unfold Opcode00EE. intros H.
  destruct (last (m_Stack s)); [|discriminate H]. injection H as <-.
  rewrite obs_stack. apply obs_PC.
Qed.

Lemma OpcodeFX29_frame opcode s s' :
  OpcodeFX29 opcode s = Ok s' -> obs s' = obs s.
Proof.
  unfold OpcodeFX29. cbv zeta. intros H.
  destruct (rdPixel s _ 0); unfold bind in H; [|discriminate H].
  injection H as <-. apply obs_I.
Qed.

Lemma OpcodeFX33_frame opcode s s' :
  OpcodeFX33 opcode s = Ok s' -> obs s' = obs s.
Proof.
  unfold OpcodeFX33. cbv zeta. intros H.
  destruct (wrMem (m_AddressI s) _ s) as [s1|] eqn:E1; unfold bind in H;
    [|discriminate H].
  destruct (wrMem (m_AddressI s1 + 1) _ s1) as [s2|] eqn:E2; unfold bind in H;
    [|discriminate H].
  apply wrMem_frame in E1, E2, H. congruence.
Qed.

Lemma OpcodeFX55_frame opcode s s' :
  OpcodeFX55 opcode s = Ok s' -> obs s' = obs s.
Proof.
  unfold OpcodeFX55. cbv zeta. intros H.
  destruct (for_loop 0 _ _ s) as [s1|] eqn:E; unfold bind in H;
    [|discriminate H].
  injection H as <-. rewrite obs_I.
  eapply (for_loop_invariant (fun u => obs u = obs s)); [|reflexivity|exact E].
  intros i t t' Ht Hb. apply wrMem_frame in Hb. congruence.
Qed.

Lemma OpcodeFX65_frame opcode s s' :
  OpcodeFX65 opcode s = Ok s' -> obs s' = obs s.
Proof.
  unfold OpcodeFX65. cbv zeta. intros H.
  destruct (for_loop 0 _ _ s) as [s1|] eqn:E; unfold bind in H;
    [|discriminate H].
  injection H as <-. rewrite obs_I.
  eapply (for_loop_invariant (fun u => obs u = obs s)); [|reflexivity|exact E].
  intros i t t' Ht Hb. cbv beta in Hb.
  destruct (rdMem t (m_AddressI t + i)); unfold bind in Hb; [|discriminate Hb].
  injection Hb as <-. rewrite obs_setV. exact Ht.
Qed.

Lemma OpcodeFX0A_frame opcode s : obs (OpcodeFX0A opcode s) = obs s.
Proof.
  unfold OpcodeFX0A. apply (fold_left_invariant (fun u => obs u = obs s)).
  - intros t i Ht. unfold scanKey.
    apply obs_if; [exact Ht|]. rewrite obs_setV. exact Ht.
  - reflexivity.
Qed.

(** The handlers that are a few register or counter updates. *)
Lemma straight_line_frame opcode rnd s :
  obs (Opcode00E0 opcode s) = obs s /\ obs (Opcode1NNN opcode s) = obs s /\
  obs (Opcode2NNN opcode s) = obs s /\ obs (Opcode3XNN opcode s) = obs s /\
  obs (Opcode4XNN opcode s) = obs s /\ obs (Opcode5XY0 opcode s) = obs s /\
  obs (Opcode6XNN opcode s) = obs s /\ obs (Opcode7XNN opcode s) = obs s /\
  obs (Opcode8XY0 opcode s) = obs s /\ obs (Opcode8XY1 opcode s) = obs s /\
  obs (Opcode8XY2 opcode s) = obs s /\ obs (Opcode8XY3 opcode s) = obs s /\
  obs (Opcode8XY4 opcode s) = obs s /\ obs (Opcode8XY5 opcode s) = obs s /\
  obs (Opcode8XY6 opcode s) = obs s /\ obs (Opcode8XY7 opcode s) = obs s /\
  obs (Opcode8XYE opcode s) = obs s /\ obs (Opcode9XY0 opcode s) = obs s /\
  obs (OpcodeANNN opcode s) = obs s /\ obs (OpcodeBNNN opcode s) = obs s /\
  obs (OpcodeCXNN rnd opcode s) = obs s /\ obs (OpcodeEX9E opcode s) = obs s /\
  obs (OpcodeEXA1 opcode s) = obs s /\ obs (OpcodeFX07 opcode s) = obs s /\
  obs (OpcodeFX1E opcode s) = obs s.
Proof.
  unfold Opcode00E0, Opcode1NNN, Opcode2NNN, Opcode3XNN, Opcode4XNN,
    Opcode5XY0, Opcode6XNN, Opcode7XNN, Opcode8XY0, Opcode8XY1, Opcode8XY2,
    Opcode8XY3, Opcode8XY4, Opcode8XY5, Opcode8XY6, Opcode8XY7, Opcode8XYE,
    Opcode9XY0, OpcodeANNN, OpcodeBNNN, OpcodeCXNN, OpcodeEX9E, OpcodeEXA1,
    OpcodeFX07, OpcodeFX1E.
  cbv zeta.
  repeat split;
    repeat first
      [ reflexivity
      | rewrite obs_setV | rewrite obs_skip | rewrite obs_PC
      | rewrite obs_I | rewrite obs_stack | rewrite obs_screen
      | apply obs_if ].
Qed.

(** Case analysis on the [switch]es of [Dispatch] in a hypothesis [H] that
    says what it returned: one goal for each way through them. *)
Ltac dispatch_cases H :=
  cbv beta iota in H;
  lazymatch type of H with
  | match ?x with _ => _ end = _ => destruct x; dispatch_cases H
  | _ => idtac
  end.

Lemma Dispatch_frame (rnd opcode : Z) (s s1 : state) :
  setsTimer opcode = false \/
  ((forall d s, obs (set_delay d s) = obs s) /\
   (forall d s, obs (set_sound d s) = obs s)) ->
  member (Z.land opcode 0xF000) families = true \/
  (forall msg s, obs (printf msg s) = obs s) ->
  Dispatch rnd opcode s = Ok s1 ->
  obs s1 = obs s.
Proof.
  unfold setsTimer, member, families, Dispatch. intros Htm Hpr H.
  destruct (straight_line_frame opcode rnd s)
    as (? & ? & ? & ? & ? & ? & ? & ? & ? & ? & ? & ? & ? & ? & ? & ? & ?
        & ? & ? & ? & ? & ? & ? & ? & ?).
  pose proof (OpcodeFX0A_frame opcode s).
  set (f := Z.land opcode 61440) in *. set (n := Z.land opcode 15) in *.
  set (nn := Z.land opcode 255) in *. clearbody f n nn.
  dispatch_cases H.
  all: try (injection H as <-).
  all: try assumption.
  all: try reflexivity.
  all: try (destruct Hpr as [Hpr|Hpr];
            [vm_compute in Hpr; discriminate Hpr | apply Hpr]).
  all: try (destruct Htm as [Htm|[Hd Hs]];
            [vm_compute in Htm; discriminate Htm
            | first [apply Hd | apply Hs]]).
  all: first
         [ apply (Opcode00EE_frame opcode s s1 H)
         | apply (OpcodeDXYN_frame opcode s s1 H)
         | apply (OpcodeFX29_frame opcode s s1 H)
         | apply (OpcodeFX33_frame opcode s s1 H)
         | apply (OpcodeFX55_frame opcode s s1 H)
         | apply (OpcodeFX65_frame opcode s s1 H) ].
Qed.
End Frame.

(** ** The outer switch covers every word *)

Lemma land_F000 (opcode : Z) :
  Z.land opcode 0xF000 = Z.shiftl (Z.land (Z.shiftr opcode 12) 15) 12.
Proof.
  change 0xF000 with (Z.shiftl 15 12).
  apply Z.bits_inj'. intros n Hn.
  rewrite Z.land_spec, !Z.shiftl_spec by exact Hn.
  destruct (Z.ltb_spec n 12) as [Hlt|Hge].
  - rewrite !(Z.testbit_neg_r _ (n - 12)) by lia. apply andb_false_r.
  - rewrite Z.land_spec, Z.shiftr_spec by lia.
    replace (n - 12 + 12) with n by lia. reflexivity.
Qed.

(** [opcode & 0xF000] is one of the sixteen [case] labels, so the
    [default] branch, the only place that reports an unknown word, is never
    taken. *)
Lemma default_unreachable (opcode : Z) :
  member (Z.land opcode 0xF000) families = true.
Proof.
  rewrite land_F000. change 15 with (Z.ones 4). rewrite Z.land_ones by lia.
  pose proof (Z.mod_pos_bound (Z.shiftr opcode 12) (2 ^ 4) eq_refl) as Hq.
  set (q := Z.shiftr opcode 12 mod 2 ^ 4) in *. clearbody q.
  change (2 ^ 4) with 16 in Hq.
  assert (Hcases : q = 0 \/ q = 1 \/ q = 2 \/ q = 3 \/ q = 4 \/ q = 5 \/
                   q = 6 \/ q = 7 \/ q = 8 \/ q = 9 \/ q = 10 \/ q = 11 \/
                   q = 12 \/ q = 13 \/ q = 14 \/ q = 15) by lia.
  repeat (destruct Hcases as [->|Hcases]; [reflexivity|]).
  subst q. reflexivity.
Qed.

(** X25.  Decoding prints nothing, known word or not: whatever the opcode
    word, the handlers and the [switch] leave the printed text as it was. *)
Lemma Dispatch_silent (rnd opcode : Z) (s s1 : state) :
  Dispatch rnd opcode s = Ok s1 -> console s1 = console s.
Proof.
  apply (Dispatch_frame console); try reflexivity.
  - right. split; reflexivity.
  - left. apply default_unreachable.
Qed.

(** ** Timers *)

Lemma Dispatch_timers (rnd opcode : Z) (s s1 : state) :
  setsTimer opcode = false ->
  Dispatch rnd opcode s = Ok s1 ->
  timers s1 = timers s.
Proof.
  intros Hns. apply (Dispatch_frame timers); try reflexivity.
  - left. exact Hns.
  - right. reflexivity.
Qed.

Lemma tickTimers_spec (s : state) :
  timers_ok s = true ->
  delayTimer (tickTimers s) = Z.max 0 (delayTimer s - 1) /\
  soundTimer (tickTimers s) = Z.max 0 (soundTimer s - 1).
Proof.
  unfold timers_ok. rewrite andb_true_iff, !is_byte_true. intros [Hd Hs].
  unfold tickTimers. cbv zeta. rewrite !Z.gtb_ltb.
  destruct (Z.ltb_spec 0 (delayTimer s)); simpl;
    destruct (Z.ltb_spec 0 (soundTimer s)); simpl;
    rewrite ?BYTE_small by lia; lia.
Qed.

(** C8 as written fails: the cycle step decrements the timers at the end
    of every call.  Two cycles in a row, whatever the time between them,
    take a delay timer from 5 to 3. *)
Lemma two_cycles_tick_twice :
  exists s1 s2,
    DecodeOpcodeCycle 0 0x6000 (with_delay 5) = Ok s1 /\
    DecodeOpcodeCycle 0 0x6000 s1 = Ok s2 /\
    delayTimer (with_delay 5) = 5 /\ delayTimer s1 = 4 /\ delayTimer s2 = 3.
Proof.
  eexists. eexists. split; [vm_compute; reflexivity|].
  split; [vm_compute; reflexivity|]. repeat split; vm_compute; reflexivity.
Qed.

Lemma setsTimer_split (opcode : Z) :
  setsTimer opcode = loadsDelay opcode || loadsSound opcode.
Proof.
  unfold setsTimer, loadsDelay, loadsSound, member.
  destruct (Z.land opcode 0xF000 =? 0xF000); [|reflexivity].
  cbn [existsb andb]. rewrite orb_false_r. reflexivity.
Qed.

Lemma loadsDelay_Dispatch (rnd opcode : Z) (s : state) :
  loadsDelay opcode = true ->
  loadsSound opcode = false /\
  Dispatch rnd opcode s = Ok (OpcodeFX15 opcode s).
Proof.
  unfold loadsDelay, loadsSound. rewrite andb_true_iff, !Z.eqb_eq.
  intros [Hf Hnn]. unfold Dispatch. rewrite Hf, Hnn. split; reflexivity.
Qed.

Lemma loadsSound_Dispatch (rnd opcode : Z) (s : state) :
  loadsSound opcode = true ->
  loadsDelay opcode = false /\
  Dispatch rnd opcode s = Ok (OpcodeFX18 opcode s).
Proof.
  unfold loadsDelay, loadsSound. rewrite andb_true_iff, !Z.eqb_eq.
  intros [Hf Hnn]. unfold Dispatch. rewrite Hf, Hnn. split; reflexivity.
Qed.

(** The timers as the handler leaves them, just before the two closing
    [if]s: FX15 has put VX in the delay timer, FX18 has put VX in the sound
    timer, and no other instruction has touched either. *)
Lemma Dispatch_timers_all (rnd opcode : Z) (s s1 : state) :
  Dispatch rnd opcode s = Ok s1 ->
  delayTimer s1
  = (if loadsDelay opcode then V s (GetRegisterX opcode) else delayTimer s) /\
  soundTimer s1
  = (if loadsSound opcode then V s (GetRegisterX opcode) else soundTimer s).
Proof.
  intros E.
  destruct (loadsDelay opcode) eqn:Hd.
  { destruct (loadsDelay_Dispatch rnd opcode s Hd) as [-> E'].
    rewrite E' in E. injection E as <-. split; reflexivity. }
  destruct (loadsSound opcode) eqn:Hs.
  { destruct (loadsSound_Dispatch rnd opcode s Hs) as [_ E'].
    rewrite E' in E. injection E as <-. split; reflexivity. }
  apply Dispatch_timers in E.
  - unfold timers in E. injection E as -> ->. split; reflexivity.
  - rewrite setsTimer_split, Hd, Hs. reflexivity.
Qed.

(** C8 (timers, amended).  The timers saturate at 0 and never underflow.
    They are decremented by the cycle step itself, once per executed
    instruction and with no clock involved: every call that completes,
    whatever the opcode, leaves each timer one lower than the handler left
    it, or at 0 when that was 0.  The handler leaves a timer as the call
    found it, except that FX15 loads the delay timer and FX18 the sound
    timer with VX - and then it is the freshly loaded value that is
    decremented, in the same call. *)
Theorem cycle_ticks_once_per_instruction (rnd opcode : Z) (s s' : state) :
  timers_ok s = true ->
  regs_ok s = true ->
  DecodeOpcodeCycle rnd opcode s = Ok s' ->
  delayTimer s'
  = Z.max 0 ((if loadsDelay opcode then V s (GetRegisterX opcode)
              else delayTimer s) - 1) /\
  soundTimer s'
  = Z.max 0 ((if loadsSound opcode then V s (GetRegisterX opcode)
              else soundTimer s) - 1) /\
  timers_ok s' = true.
Proof.
  intros Hok Hregs H. unfold DecodeOpcodeCycle in H.
  destruct (Dispatch rnd opcode s) as [s1|] eqn:E; unfold bind in H;
    [|discriminate H].
  injection H as <-.
  destruct (Dispatch_timers_all _ _ _ _ E) as [Ed Es].
  pose proof (V_range s (GetRegisterX opcode) Hregs) as HV.
  unfold timers_ok in Hok. apply andb_true_iff in Hok as [H1 H2].
  apply is_byte_true in H1, H2.
  assert (Hd1 : 0 <= delayTimer s1 < 256).
  { rewrite Ed. destruct (loadsDelay opcode); assumption. }
  assert (Hs1 : 0 <= soundTimer s1 < 256).
  { rewrite Es. destruct (loadsSound opcode); assumption. }
  assert (Hok1 : timers_ok s1 = true).
  { unfold timers_ok. apply andb_true_iff.
    split; apply is_byte_true; assumption. }
  destruct (tickTimers_spec s1 Hok1) as [Hd Hs].
  rewrite Hd, Hs, <- Ed, <- Es. split; [reflexivity|]. split; [reflexivity|].
  unfold timers_ok. rewrite Hd, Hs.
  apply andb_true_iff. split; apply is_byte_true; lia.
Qed.

Lemma cycle_ticks_once_per_instruction_witness :
  delayTimer (tickTimers (OpcodeFX18 0xF018 (setV 0 9 (with_delay 5))))
  = Z.max 0 ((if loadsDelay 0xF018
              then V (setV 0 9 (with_delay 5)) (GetRegisterX 0xF018)
              else delayTimer (setV 0 9 (with_delay 5))) - 1) /\
  soundTimer (tickTimers (OpcodeFX18 0xF018 (setV 0 9 (with_delay 5))))
  = Z.max 0 ((if loadsSound 0xF018
              then V (setV 0 9 (with_delay 5)) (GetRegisterX 0xF018)
              else soundTimer (setV 0 9 (with_delay 5))) - 1) /\
  timers_ok (tickTimers (OpcodeFX18 0xF018 (setV 0 9 (with_delay 5))))
  = true.
Proof.
  apply (cycle_ticks_once_per_instruction 0 0xF018 (setV 0 9 (with_delay 5))
           (tickTimers (OpcodeFX18 0xF018 (setV 0 9 (with_delay 5)))));
    vm_compute; reflexivity.
Defined.

(** ** More on FX0A *)

Lemma m_PC_tickTimers (s : state) : m_PC (tickTimers s) = m_PC s.
Proof.
  unfold tickTimers. cbv zeta.
  destruct (delayTimer s >? 0); simpl;
    destruct (soundTimer s >? 0); reflexivity.
Qed.

(** A whole cycle on FX0A with no key down: the cycle completes and the
    program counter is past the instruction. *)
Lemma key_wait_cycle_advances (rnd opcode : Z) (s s1 : state) :
  GetNextOpcode s = Ok (opcode, s1) ->
  Z.land opcode 0xF000 = 0xF000 ->
  Z.land opcode 0x00FF = 0x000A ->
  (forall i, Key s i = 0) ->
  DecodeOpcodeCycle rnd opcode s1 = Ok (tickTimers s1) /\
  m_PC (tickTimers s1) = m_PC s + 2.
Proof.
  intros Hfetch Hf Hnn Hidle.
  apply GetNextOpcode_Ok in Hfetch as (-> & _ & _).
  unfold DecodeOpcodeCycle, Dispatch. rewrite Hf, Hnn. cbv iota.
  rewrite OpcodeFX0A_no_key by exact Hidle.
  split; [reflexivity|]. apply m_PC_tickTimers.
Qed.

Lemma OpcodeFX0A_scan (opcode : Z) (keys : list Z) :
  forall (l : list Z) (s : state),
    regs_ok s = true ->
    m_Keyboard s = keys ->
    Forall (fun i => 0 <= i < 256) l ->
    regs_ok (fold_left (scanKey opcode) l s) = true /\
    m_Keyboard (fold_left (scanKey opcode) l s) = keys /\
    V (fold_left (scanKey opcode) l s) (GetRegisterX opcode)
    = match last (List.filter
                    (fun i => negb (default 0 (keys !! Z.to_nat i) =? 0)) l)
      with
      | Some k => k
      | None => V s (GetRegisterX opcode)
      end.
Proof.
  pose proof (GetRegisterX_range opcode) as Hx.
  induction l as [|a l IH]; intros s Hok Hk Hall.
  - simpl. auto.
  - apply Forall_cons in Hall as [Ha Hall]. cbn [fold_left List.filter].
    assert (Hstep : scanKey opcode s a
                    = if default 0 (keys !! Z.to_nat a) =? 0 then s
                      else setV (GetRegisterX opcode) a s).
    { unfold scanKey, Key. rewrite Hk. reflexivity. }
    rewrite Hstep.
    destruct (default 0 (keys !! Z.to_nat a) =? 0) eqn:E; cbn [negb].
    + apply IH; assumption.
    + destruct (IH (setV (GetRegisterX opcode) a s)) as (Hok' & Hk' & Hv);
        [apply regs_ok_setV; exact Hok | exact Hk | exact Hall |].
      split; [exact Hok'|]. split; [exact Hk'|].
      rewrite Hv, last_cons.
      destruct (last (List.filter _ l)); [reflexivity|].
      rewrite V_setV_eq by assumption. apply BYTE_small. exact Ha.
Qed.

(** X24.  With a key down FX0A loads VX with a key index: the highest one
    that is down.  With no key down VX keeps its value. *)
Lemma OpcodeFX0A_spec (opcode : Z) (s : state) :
  regs_ok s = true ->
  V (OpcodeFX0A opcode s) (GetRegisterX opcode)
  = match last (pressedKeys s) with
    | Some k => k
    | None => V s (GetRegisterX opcode)
    end.
Proof.
  intros Hok. unfold OpcodeFX0A, pressedKeys.
  apply (OpcodeFX0A_scan opcode (m_Keyboard s) (seqZ 0 16) s Hok eq_refl).
  vm_compute. repeat constructor; discriminate.
Qed.

(** ** Drawing inside the grid *)

(** Drawing the glyph of 0 at (0, 0) lights its pixels and reports no
    collision; drawing it again erases them and reports one. *)
Example OpcodeDXYN_twice :
  exists s1 s2,
    OpcodeDXYN 0xD015 (with_V0_V1 0 0) = Ok s1 /\
    OpcodeDXYN 0xD015 s1 = Ok s2 /\
    V s1 0xF = 0 /\ V s2 0xF = 1 /\
    firstn 5 (m_ScreenData s1) = [1; 1; 1; 1; 1] /\
    m_ScreenData s2 = m_ScreenData (with_V0_V1 0 0).
Proof.
  eexists. eexists. split; [vm_compute; reflexivity|].
  split; [vm_compute; reflexivity|]. repeat split; vm_compute; reflexivity.
Qed.

(** * Beyond the claims: the rest of the interpreter *)

(** ** Operand fields of an opcode word *)

Lemma land_low (opcode : Z) (k : Z) :
  0 <= k -> Z.land opcode (Z.ones k) = opcode mod 2 ^ k.
Proof. intros Hk. apply Z.land_ones. exact Hk. Qed.

(** X1.  Packing four nibbles into a word and taking the word apart with
    the masks and shifts of the decoder gives the nibbles back: the family
    tested by the outer [switch], the register numbers X and Y, and the
    immediates N, NN and NNN. *)
Theorem decode_word_of (f x y n : Z) :
  0 <= f < 16 -> 0 <= x < 16 -> 0 <= y < 16 -> 0 <= n < 16 ->
  Z.land (word_of f x y n) 0xF000 = 4096 * f /\
  GetRegisterX (word_of f x y n) = x /\
  GetRegisterY (word_of f x y n) = y /\
  Z.land (word_of f x y n) 0x000F = n /\
  Z.land (word_of f x y n) 0x00FF = 16 * y + n /\
  Z.land (word_of f x y n) 0x0FFF = 256 * x + 16 * y + n.
Proof.
  intros Hf Hx Hy Hn. unfold word_of.
  rewrite land_F000, GetRegisterX_nibble, GetRegisterY_nibble.
  change 15 with (Z.ones 4). change 0x000F with (Z.ones 4).
  change 0x00FF with (Z.ones 8). change 0x0FFF with (Z.ones 12).
  rewrite !land_low, Z.shiftl_mul_pow2, Z.shiftr_div_pow2 by lia.
  change (2 ^ 4) with 16. change (2 ^ 8) with 256.
  change (2 ^ 12) with 4096.
  repeat split; Z.div_mod_to_equations; lia.
Qed.

Lemma decode_word_of_witness :
  Z.land (word_of 8 0 1 4) 0xF000 = 4096 * 8 /\
  GetRegisterX (word_of 8 0 1 4) = 0 /\
  GetRegisterY (word_of 8 0 1 4) = 1 /\
  Z.land (word_of 8 0 1 4) 0x000F = 4 /\
  Z.land (word_of 8 0 1 4) 0x00FF = 16 * 1 + 4 /\
  Z.land (word_of 8 0 1 4) 0x0FFF = 256 * 0 + 16 * 1 + 4.
Proof. apply (decode_word_of 8 0 1 4); lia. Defined.

(** ** Memory within bounds *)

Lemma mem_ok_length (s : state) :
  mem_ok s = true -> length (m_GameMemory s) = Z.to_nat MEMORY_SIZE.
Proof. unfold mem_ok. rewrite andb_true_iff, Nat.eqb_eq. tauto. Qed.

Lemma bytes_lookup (l : list Z) (i : nat) :
  forallb is_byte l = true -> 0 <= default 0 (l !! i) < 256.
Proof.
  intros Hall. destruct (l !! i) as [v|] eqn:E; simpl; [|lia].
  rewrite forallb_forall in Hall. apply is_byte_true, Hall.
  apply list_elem_of_In. eapply list_elem_of_lookup_2. exact E.
Qed.

Lemma mem_range (s : state) (a : Z) : mem_ok s = true -> 0 <= mem s a < 256.
Proof.
  unfold mem_ok, mem. rewrite andb_true_iff. intros [_ H].
  apply bytes_lookup, H.
Qed.

Lemma rdMem_inside (s : state) (a : Z) :
  mem_ok s = true -> 0 <= a < MEMORY_SIZE -> rdMem s a = Ok (mem s a).
Proof.
  intros Hok Ha. apply mem_ok_length in Hok. unfold rdMem, mem.
  replace ((0 <=? a) && (a <? MEMORY_SIZE)) with true
    by (symmetry; apply andb_true_iff; split;
        [apply Z.leb_le|apply Z.ltb_lt]; lia).
  destruct (m_GameMemory s !! Z.to_nat a) as [b|] eqn:E; [reflexivity|].
  apply lookup_ge_None in E. lia.
Qed.

Lemma rdMem_outside (s : state) (a : Z) :
  MEMORY_SIZE <= a -> rdMem s a = Undefined MemoryOutOfBounds.
Proof.
  intros Ha. unfold rdMem.
  replace (a <? MEMORY_SIZE) with false by (symmetry; apply Z.ltb_ge; lia).
  rewrite andb_false_r. reflexivity.
Qed.

Lemma lor_high_low (hi lo : Z) :
  0 <= lo < 256 -> Z.lor (Z.shiftl hi 8) lo = 256 * hi + lo.
Proof.
  intros Hlo. rewrite <- Z.add_nocarry_lor.
  - rewrite Z.shiftl_mul_pow2 by lia. change (2 ^ 8) with 256. lia.
  - apply Z.bits_inj'. intros n Hn. rewrite Z.land_spec, Z.bits_0.
    destruct (Z.ltb_spec n 8) as [Hlt|Hge].
    + rewrite Z.shiftl_spec_low by exact Hlt. reflexivity.
    + assert (Hb : Z.testbit lo n = false).
      { apply (proj1 (Z.bounded_iff_bits_nonneg 8 lo ltac:(lia) ltac:(lia)));
          [change (2 ^ 8) with 256; lia | exact Hge]. }
      rewrite Hb. apply andb_false_r.
Qed.

(** ** Fetch *)

(** X2.  A fetch inside the memory reads the two bytes at PC and PC + 1 as
    one big-endian word, which is a 16-bit value, and moves the program
    counter 2 further, changing nothing else.  A fetch whose second byte
    would lie at 0xFFF or beyond indexes outside [m_GameMemory]: the program
    counter is never wrapped or checked. *)
Theorem GetNextOpcode_spec (s : state) :
  mem_ok s = true -> 0 <= m_PC s ->
  (m_PC s + 1 < MEMORY_SIZE ->
   GetNextOpcode s
   = Ok (256 * mem s (m_PC s) + mem s (m_PC s + 1), set_PC (m_PC s + 2) s) /\
   0 <= 256 * mem s (m_PC s) + mem s (m_PC s + 1) < 65536) /\
  (MEMORY_SIZE <= m_PC s + 1 ->
   GetNextOpcode s = Undefined MemoryOutOfBounds).
Proof.
  intros Hok Hpc. split.
  - intros Hin.
    pose proof (mem_range s (m_PC s) Hok) as Hhi.
    pose proof (mem_range s (m_PC s + 1) Hok) as Hlo.
    unfold GetNextOpcode.
    rewrite !rdMem_inside by (try exact Hok; lia). simpl bind.
    unfold MEMORY_SIZE in Hin.
    assert (Hw : WORD (Z.shiftl (mem s (m_PC s)) 8)
                 = Z.shiftl (mem s (m_PC s)) 8).
    { unfold WORD. apply Z.mod_small.
      rewrite Z.shiftl_mul_pow2 by lia. change (2 ^ 8) with 256. lia. }
    rewrite Hw, lor_high_low by exact Hlo.
    unfold WORD. rewrite Z.mod_small by lia. split; [reflexivity|lia].
  - intros Hout. unfold GetNextOpcode.
    destruct (rdMem s (m_PC s)) as [hi|f] eqn:E.
    + simpl bind. rewrite rdMem_outside by exact Hout. reflexivity.
    + unfold rdMem in E. simpl.
      destruct ((0 <=? m_PC s) && (m_PC s <? MEMORY_SIZE));
        [destruct (m_GameMemory s !! Z.to_nat (m_PC s)); congruence
        |congruence].
Qed.

Lemma GetNextOpcode_spec_witness :
  (m_PC (with_word 0x8F 0xF8) + 1 < MEMORY_SIZE ->
   GetNextOpcode (with_word 0x8F 0xF8)
   = Ok (256 * mem (with_word 0x8F 0xF8) (m_PC (with_word 0x8F 0xF8))
         + mem (with_word 0x8F 0xF8) (m_PC (with_word 0x8F 0xF8) + 1),
         set_PC (m_PC (with_word 0x8F 0xF8) + 2) (with_word 0x8F 0xF8)) /\
   0 <= 256 * mem (with_word 0x8F 0xF8) (m_PC (with_word 0x8F 0xF8))
        + mem (with_word 0x8F 0xF8) (m_PC (with_word 0x8F 0xF8) + 1)
     < 65536) /\
  (MEMORY_SIZE <= m_PC (with_word 0x8F 0xF8) + 1 ->
   GetNextOpcode (with_word 0x8F 0xF8) = Undefined MemoryOutOfBounds).
Proof.
  apply (GetNextOpcode_spec (with_word 0x8F 0xF8)).
  - vm_compute. reflexivity.
  - vm_compute. discriminate.
Defined.

(** ** Reset *)

Lemma CPUReset_memory (s : state) :
  m_GameMemory (CPUReset s) = m_GameMemory (CPUReset power_on).
Proof. destruct s. vm_compute. reflexivity. Qed.

Lemma CPUReset_fields (s : state) :
  m_PC (CPUReset s) = 0x200 /\ m_AddressI (CPUReset s) = 0 /\
  m_Registers (CPUReset s) = replicate 16 0 /\
  m_Keyboard (CPUReset s) = replicate 16 0 /\
  m_Stack (CPUReset s) = m_Stack s /\
  delayTimer (CPUReset s) = delayTimer s /\
  soundTimer (CPUReset s) = soundTimer s /\
  m_ScreenData (CPUReset s) = m_ScreenData s.
Proof. destruct s. vm_compute. repeat split; reflexivity. Qed.

Lemma font_image_check :
  forallb
    (fun a => mem (CPUReset power_on) a
              =? (if (a <? 256) && (a mod 16 <? 5)
                  then fontByte (a / 16) (a mod 16) else 0))
    (seqZ 0 MEMORY_SIZE) = true.
Proof. vm_compute. reflexivity. Qed.

(** X3.  Whatever the machine held, after [CPUReset] the program counter is
    0x200, the index register, the registers and the keys are 0, and the
    memory holds the font and nothing else: byte [j] of glyph [i] is at
    address [16 * i + j] (sixteen bytes apart, five of them used), every
    other cell is 0.  The reset does not touch the call stack, the timers or
    the screen. *)
Theorem CPUReset_spec (s : state) :
  m_PC (CPUReset s) = 0x200 /\ m_AddressI (CPUReset s) = 0 /\
  m_Registers (CPUReset s) = replicate 16 0 /\
  m_Keyboard (CPUReset s) = replicate 16 0 /\
  (forall a, 0 <= a < MEMORY_SIZE ->
     rdMem (CPUReset s) a
     = Ok (if (a <? 256) && (a mod 16 <? 5)
           then fontByte (a / 16) (a mod 16) else 0)) /\
  m_Stack (CPUReset s) = m_Stack s /\
  delayTimer (CPUReset s) = delayTimer s /\
  soundTimer (CPUReset s) = soundTimer s /\
  m_ScreenData (CPUReset s) = m_ScreenData s.
Proof.
  destruct (CPUReset_fields s) as (Hpc & Hi & Hr & Hk & Hrest).
  repeat (split; [assumption|]). split; [|exact Hrest].
  intros a Ha.
  assert (Hok : mem_ok (CPUReset s) = true).
  { unfold mem_ok. rewrite CPUReset_memory. vm_compute. reflexivity. }
  rewrite rdMem_inside by assumption. f_equal.
  unfold mem. rewrite CPUReset_memory.
  pose proof font_image_check as Hall. rewrite forallb_forall in Hall.
  apply Z.eqb_eq. apply (Hall a).
  apply list_elem_of_In, elem_of_seqZ. lia.
Qed.

(** ** Writing memory without a check *)

Lemma mem_ok_pokeMem (a v : Z) (s : state) :
  mem_ok s = true -> mem_ok (pokeMem a v s) = true.
Proof.
  unfold mem_ok, pokeMem. simpl. rewrite !andb_true_iff, length_insert.
  intros [Hlen Hall]. split; [exact Hlen|].
  apply forallb_insert; [exact Hall|]. apply is_byte_true, BYTE_range.
Qed.

Lemma mem_pokeMem_eq (a v : Z) (s : state) :
  mem_ok s = true -> 0 <= a < MEMORY_SIZE -> mem (pokeMem a v s) a = BYTE v.
Proof.
  intros Hok Ha. apply mem_ok_length in Hok. unfold mem, pokeMem. simpl.
  rewrite list_lookup_insert_eq; [reflexivity|lia].
Qed.

Lemma mem_pokeMem_ne (a b v : Z) (s : state) :
  a <> b -> 0 <= a -> 0 <= b -> mem (pokeMem a v s) b = mem s b.
Proof.
  intros Hne Ha Hb. unfold mem, pokeMem. simpl.
  rewrite list_lookup_insert_ne; [reflexivity|lia].
Qed.

Lemma pokeMem_set_mem (a v : Z) (m : list Z) (s : state) :
  pokeMem a v (set_mem m s) = set_mem (<[Z.to_nat a := BYTE v]> m) s.
Proof. reflexivity. Qed.

(** ** Loading a program *)

Lemma seqZ_snoc (k : nat) :
  seqZ 0 (Z.of_nat (S k)) = seqZ 0 (Z.of_nat k) ++ [Z.of_nat k].
Proof.
  replace (Z.of_nat (S k)) with (Z.of_nat k + 1) by lia.
  rewrite seqZ_app by lia. reflexivity.
Qed.

Lemma load_loop (buffer : list Z) (s : state) (k : nat) :
  mem_ok s = true -> (k <= 3583)%nat ->
  exists m,
    fold_left
      (fun s i => pokeMem (i + 0x200) (default 0 (buffer !! Z.to_nat i)) s)
      (seqZ 0 (Z.of_nat k)) s = set_mem m s /\
    mem_ok (set_mem m s) = true /\
    (forall i, 0 <= i < Z.of_nat k ->
       mem (set_mem m s) (i + 0x200)
       = BYTE (default 0 (buffer !! Z.to_nat i))) /\
    (forall a, 0 <= a -> ~ (0x200 <= a < 0x200 + Z.of_nat k) ->
       mem (set_mem m s) a = mem s a).
Proof.
  intros Hok. induction k as [|k IH]; intros Hk.
  - exists (m_GameMemory s). simpl.
    assert (E : set_mem (m_GameMemory s) s = s) by (destruct s; reflexivity).
    rewrite E. repeat split; auto; intros; lia.
  - destruct IH as (m & Hfold & Hm & Hin & Hout); [lia|].
    rewrite seqZ_snoc, fold_left_app, Hfold. cbn [fold_left].
    rewrite pokeMem_set_mem.
    exists (<[Z.to_nat (Z.of_nat k + 0x200)
              := BYTE (default 0 (buffer !! Z.to_nat (Z.of_nat k)))]> m).
    split; [reflexivity|]. rewrite <- pokeMem_set_mem.
    split; [apply mem_ok_pokeMem; exact Hm|]. split.
    + intros i Hi. destruct (Z.eq_dec i (Z.of_nat k)) as [->|Hne].
      * apply mem_pokeMem_eq; [exact Hm|unfold MEMORY_SIZE; lia].
      * rewrite mem_pokeMem_ne by lia. apply Hin. lia.
    + intros a Ha Hna. rewrite mem_pokeMem_ne by lia. apply Hout; lia.
Qed.

(** X4.  [LoadCH8ROM] accepts a file of at most 3583 bytes: its bytes are
    then copied verbatim to 0x200 and up and can be read back from there,
    the font below 0x200 and the cells past the program keep their content,
    and nothing but the memory changes - the program counter, the registers
    and the screen included.  A file of 3584 bytes or more is refused: the
    call prints one line, "ROM is too large. Please load another ROM file."
    with its line feed, returns false and leaves the rest of the machine as
    it was.  A file that cannot be opened is refused in the same way, with
    the line "Error loading the ROM. This occurs if the file does not exist
    or the name does not exist." *)
Theorem LoadCH8ROM_spec (buffer : list Z) (s : state) :
  mem_ok s = true ->
  ((length buffer <= 3583)%nat ->
   snd (LoadCH8ROM (Some buffer) s) = true /\
   fst (LoadCH8ROM (Some buffer) s)
   = set_mem (m_GameMemory (fst (LoadCH8ROM (Some buffer) s))) s /\
   (forall i, 0 <= i < Z.of_nat (length buffer) ->
      rdMem (fst (LoadCH8ROM (Some buffer) s)) (0x200 + i)
      = Ok (BYTE (default 0 (buffer !! Z.to_nat i)))) /\
   (forall a, 0 <= a < 0x200 \/
              0x200 + Z.of_nat (length buffer) <= a < MEMORY_SIZE ->
      rdMem (fst (LoadCH8ROM (Some buffer) s)) a = rdMem s a)) /\
  ((3584 <= length buffer)%nat ->
   LoadCH8ROM (Some buffer) s
   = (printf (String.append "ROM is too large. Please load another ROM file."
                            (String (ascii_of_nat 10) EmptyString)) s,
      false)) /\
  LoadCH8ROM None s
  = (printf
       (String.append
          "Error loading the ROM. This occurs if the file does not exist or the name does not exist."
          (String (ascii_of_nat 10) EmptyString)) s,
     false).
Proof.
  intros Hok. unfold LoadCH8ROM. cbv zeta. split; [|split].
  - intros Hlen.
    replace (0xFFF + 1 - 0x200 >? Z.of_nat (length buffer)) with true
      by (symmetry; rewrite Z.gtb_ltb; apply Z.ltb_lt; lia).
    cbn [fst snd].
    destruct (load_loop buffer s (length buffer) Hok Hlen)
      as (m & -> & Hm & Hin & Hout).
    split; [reflexivity|]. split; [reflexivity|]. split.
    + intros i Hi. rewrite rdMem_inside by (try exact Hm; unfold MEMORY_SIZE; lia).
      f_equal. replace (0x200 + i) with (i + 0x200) by lia. apply Hin, Hi.
    + intros a Ha. unfold MEMORY_SIZE in Ha.
      rewrite !rdMem_inside by (assumption || unfold MEMORY_SIZE; lia).
      f_equal. apply Hout; lia.
  - intros Hlen.
    replace (0xFFF + 1 - 0x200 >? Z.of_nat (length buffer)) with false
      by (symmetry; rewrite Z.gtb_ltb; apply Z.ltb_ge; lia).
    reflexivity.
  - reflexivity.
Qed.

Lemma LoadCH8ROM_spec_witness :
  ((length rom_key_wait <= 3583)%nat ->
   snd (LoadCH8ROM (Some rom_key_wait) (CPUReset power_on)) = true /\
   fst (LoadCH8ROM (Some rom_key_wait) (CPUReset power_on))
   = set_mem (m_GameMemory
                (fst (LoadCH8ROM (Some rom_key_wait) (CPUReset power_on))))
             (CPUReset power_on) /\
   (forall i, 0 <= i < Z.of_nat (length rom_key_wait) ->
      rdMem (fst (LoadCH8ROM (Some rom_key_wait) (CPUReset power_on)))
            (0x200 + i)
      = Ok (BYTE (default 0 (rom_key_wait !! Z.to_nat i)))) /\
   (forall a, 0 <= a < 0x200 \/
              0x200 + Z.of_nat (length rom_key_wait) <= a < MEMORY_SIZE ->
      rdMem (fst (LoadCH8ROM (Some rom_key_wait) (CPUReset power_on))) a
      = rdMem (CPUReset power_on) a)) /\
  ((3584 <= length rom_key_wait)%nat ->
   LoadCH8ROM (Some rom_key_wait) (CPUReset power_on)
   = (printf (String.append "ROM is too large. Please load another ROM file."
                            (String (ascii_of_nat 10) EmptyString))
             (CPUReset power_on),
      false)) /\
  LoadCH8ROM None (CPUReset power_on)
  = (printf
       (String.append
          "Error loading the ROM. This occurs if the file does not exist or the name does not exist."
          (String (ascii_of_nat 10) EmptyString)) (CPUReset power_on),
     false).
Proof.
  apply (LoadCH8ROM_spec rom_key_wait (CPUReset power_on)).
  vm_compute. reflexivity.
Defined.

(** ** Loops that run to the end *)

Lemma for_loop_run (P : Z -> state -> Prop)
      (body : Z -> state -> result state) (n : nat) :
  forall lo s,
    P lo s ->
    (forall i t, lo <= i < lo + Z.of_nat n -> P i t ->
                 exists t', body i t = Ok t' /\ P (i + 1) t') ->
    exists s', for_loop lo n body s = Ok s' /\ P (lo + Z.of_nat n) s'.
Proof.
  induction n as [|n IH]; intros lo s HP Hbody.
  - exists s. simpl. replace (lo + Z.of_nat 0) with lo by lia. auto.
  - destruct (Hbody lo s) as (t & Ht & HPt); [lia|exact HP|].
    destruct (IH (lo + 1) t HPt) as (s' & Hs' & HP').
    { intros i u Hi. apply Hbody. lia. }
    exists s'. simpl. rewrite Ht. simpl. split; [exact Hs'|].
    replace (lo + Z.of_nat (S n)) with (lo + 1 + Z.of_nat n) by lia. exact HP'.
Qed.

Lemma wrMem_inside (a v : Z) (s : state) :
  0 <= a < MEMORY_SIZE -> wrMem a v s = Ok (pokeMem a v s).
Proof.
  intros Ha. unfold wrMem.
  replace ((0 <=? a) && (a <? MEMORY_SIZE)) with true
    by (symmetry; apply andb_true_iff; split;
        [apply Z.leb_le|apply Z.ltb_lt]; lia).
  reflexivity.
Qed.

Lemma set_mem_set_mem (m m' : list Z) (s : state) :
  set_mem m (set_mem m' s) = set_mem m s.
Proof. reflexivity. Qed.

(** ** Binary-coded decimal *)

(** X5.  With I, I + 1 and I + 2 inside the memory, FX33 writes the
    hundreds, tens and units of VX there: three decimal digits whose value
    is VX.  No other cell and nothing outside the memory changes. *)
Theorem OpcodeFX33_spec (opcode : Z) (s : state) :
  mem_ok s = true -> regs_ok s = true ->
  0 <= m_AddressI s -> m_AddressI s + 2 < MEMORY_SIZE ->
  exists s',
    OpcodeFX33 opcode s = Ok s' /\
    s' = set_mem (m_GameMemory s') s /\
    0 <= mem s' (m_AddressI s) <= 9 /\
    0 <= mem s' (m_AddressI s + 1) <= 9 /\
    0 <= mem s' (m_AddressI s + 2) <= 9 /\
    100 * mem s' (m_AddressI s) + 10 * mem s' (m_AddressI s + 1)
    + mem s' (m_AddressI s + 2) = V s (GetRegisterX opcode) /\
    (forall a, 0 <= a -> ~ (m_AddressI s <= a <= m_AddressI s + 2) ->
               mem s' a = mem s a).
Proof.
  intros Hm Hr HI0 HI2. unfold MEMORY_SIZE in HI2.
  pose proof (V_range s (GetRegisterX opcode) Hr) as Hv.
  set (v := V s (GetRegisterX opcode)) in *.
  unfold OpcodeFX33. cbv zeta. fold v.
  rewrite wrMem_inside by (unfold MEMORY_SIZE; lia). simpl bind.
  rewrite wrMem_inside by (unfold MEMORY_SIZE; simpl; lia). simpl bind.
  rewrite wrMem_inside by (unfold MEMORY_SIZE; simpl; lia).
  simpl m_AddressI. set (I := m_AddressI s) in *.
  eexists. split; [reflexivity|]. split; [reflexivity|].
  assert (H0 : mem_ok (pokeMem I (v / 100) s) = true)
    by (apply mem_ok_pokeMem; exact Hm).
  assert (H1 : mem_ok (pokeMem (I + 1) (v / 10 mod 10)
                         (pokeMem I (v / 100) s)) = true)
    by (apply mem_ok_pokeMem; exact H0).
  assert (E0 : mem (pokeMem (I + 2) (v mod 10)
                      (pokeMem (I + 1) (v / 10 mod 10)
                         (pokeMem I (v / 100) s))) I = v / 100).
  { rewrite !mem_pokeMem_ne by lia.
    rewrite mem_pokeMem_eq by (try exact Hm; unfold MEMORY_SIZE; lia).
    apply BYTE_small. Z.div_mod_to_equations. lia. }
  assert (E1 : mem (pokeMem (I + 2) (v mod 10)
                      (pokeMem (I + 1) (v / 10 mod 10)
                         (pokeMem I (v / 100) s))) (I + 1) = v / 10 mod 10).
  { rewrite mem_pokeMem_ne by lia.
    rewrite mem_pokeMem_eq by (try exact H0; unfold MEMORY_SIZE; lia).
    apply BYTE_small. Z.div_mod_to_equations. lia. }
  assert (E2 : mem (pokeMem (I + 2) (v mod 10)
                      (pokeMem (I + 1) (v / 10 mod 10)
                         (pokeMem I (v / 100) s))) (I + 2) = v mod 10).
  { rewrite mem_pokeMem_eq by (try exact H1; unfold MEMORY_SIZE; lia).
    apply BYTE_small. Z.div_mod_to_equations. lia. }
  rewrite E0, E1, E2.
  repeat split; try (Z.div_mod_to_equations; lia).
  intros a Ha Hna. rewrite !mem_pokeMem_ne by lia. reflexivity.
Qed.

Lemma OpcodeFX33_spec_witness :
  exists s',
    OpcodeFX33 0xF033 (with_V0_V1 254 0) = Ok s' /\
    s' = set_mem (m_GameMemory s') (with_V0_V1 254 0) /\
    0 <= mem s' (m_AddressI (with_V0_V1 254 0)) <= 9 /\
    0 <= mem s' (m_AddressI (with_V0_V1 254 0) + 1) <= 9 /\
    0 <= mem s' (m_AddressI (with_V0_V1 254 0) + 2) <= 9 /\
    100 * mem s' (m_AddressI (with_V0_V1 254 0))
    + 10 * mem s' (m_AddressI (with_V0_V1 254 0) + 1)
    + mem s' (m_AddressI (with_V0_V1 254 0) + 2)
    = V (with_V0_V1 254 0) (GetRegisterX 0xF033) /\
    (forall a, 0 <= a ->
               ~ (m_AddressI (with_V0_V1 254 0) <= a
                  <= m_AddressI (with_V0_V1 254 0) + 2) ->
               mem s' a = mem (with_V0_V1 254 0) a).
Proof.
  apply (OpcodeFX33_spec 0xF033 (with_V0_V1 254 0));
    solve [vm_compute; reflexivity | vm_compute; discriminate].
Defined.

(** ** Block store and block load *)

Lemma V_set_mem (m : list Z) (s : state) (i : Z) : V (set_mem m s) i = V s i.
Proof. reflexivity. Qed.

Lemma OpcodeFX55_run (opcode : Z) (s : state) :
  mem_ok s = true ->
  0 <= m_AddressI s ->
  m_AddressI s + GetRegisterX opcode < MEMORY_SIZE ->
  exists s',
    OpcodeFX55 opcode s = Ok s' /\
    s' = set_I (m_AddressI s + GetRegisterX opcode + 1)
               (set_mem (m_GameMemory s') s) /\
    mem_ok s' = true /\
    (forall i, 0 <= i <= GetRegisterX opcode ->
               mem s' (m_AddressI s + i) = BYTE (V s i)) /\
    (forall a, 0 <= a ->
               ~ (m_AddressI s <= a <= m_AddressI s + GetRegisterX opcode) ->
               mem s' a = mem s a).
Proof.
  intros Hm HI0 HIx. unfold MEMORY_SIZE in HIx.
  pose proof (GetRegisterX_range opcode) as Hx.
  set (x := GetRegisterX opcode) in *. set (I := m_AddressI s) in *.
  destruct (for_loop_run
              (fun i t =>
                 t = set_mem (m_GameMemory t) s /\ mem_ok t = true /\
                 (forall j, 0 <= j < i -> mem t (I + j) = BYTE (V s j)) /\
                 (forall a, 0 <= a -> ~ (I <= a < I + i) ->
                            mem t a = mem s a))
              (fun i t => wrMem (m_AddressI t + i) (V t i) t)
              (Z.to_nat (x + 1)) 0 s) as (s1 & Hrun & Hs1 & Hok1 & Hin & Hout).
  { split; [destruct s; reflexivity|]. split; [exact Hm|].
    split; intros; [lia|reflexivity]. }
  { intros i t Hi (Ht & Hokt & Htin & Htout).
    assert (Hm' : exists m, t = set_mem m s) by (eexists; exact Ht).
    destruct Hm' as [m ->]. clear Ht.
    change (m_AddressI (set_mem m s)) with I.
    rewrite V_set_mem, wrMem_inside by (unfold MEMORY_SIZE; lia).
    eexists. split; [reflexivity|]. split; [reflexivity|].
    split; [apply mem_ok_pokeMem; exact Hokt|]. split.
    - intros j Hj. destruct (Z.eq_dec j i) as [->|Hne].
      + apply mem_pokeMem_eq; [exact Hokt|unfold MEMORY_SIZE; lia].
      + rewrite mem_pokeMem_ne by lia. apply Htin. lia.
    - intros a Ha Hna. rewrite mem_pokeMem_ne by lia. apply Htout; lia. }
  unfold OpcodeFX55. cbv zeta. fold x. rewrite Hrun. simpl bind.
  assert (Hm' : exists m, s1 = set_mem m s) by (eexists; exact Hs1).
  destruct Hm' as [m ->]. clear Hs1.
  change (m_AddressI (set_mem m s)) with I.
  unfold WORD. rewrite Z.mod_small by lia.
  eexists. split; [reflexivity|]. split; [reflexivity|].
  split; [exact Hok1|]. split.
  - intros i Hi. apply Hin. lia.
  - intros a Ha Hna. apply Hout; lia.
Qed.

Lemma OpcodeFX65_run (opcode : Z) (s : state) :
  mem_ok s = true -> regs_ok s = true ->
  0 <= m_AddressI s ->
  m_AddressI s + GetRegisterX opcode < MEMORY_SIZE ->
  exists s',
    OpcodeFX65 opcode s = Ok s' /\
    s' = set_I (m_AddressI s + GetRegisterX opcode + 1)
               (set_regs (m_Registers s') s) /\
    regs_ok s' = true /\
    (forall i, 0 <= i <= GetRegisterX opcode ->
               V s' i = mem s (m_AddressI s + i)) /\
    (forall j, GetRegisterX opcode < j -> V s' j = V s j).
Proof.
  intros Hm Hr HI0 HIx. unfold MEMORY_SIZE in HIx.
  pose proof (GetRegisterX_range opcode) as Hx.
  set (x := GetRegisterX opcode) in *. set (I := m_AddressI s) in *.
  destruct (for_loop_run
              (fun i t =>
                 (exists r, t = set_regs r s) /\ regs_ok t = true /\
                 (forall j, 0 <= j < i -> V t j = mem s (I + j)) /\
                 (forall j, i <= j -> V t j = V s j))
              (fun i t => let* b := rdMem t (m_AddressI t + i) in
                          Ok (setV i b t))
              (Z.to_nat (x + 1)) 0 s)
    as (s1 & Hrun & [r ->] & Hok1 & Hin & Hout).
  { split; [exists (m_Registers s); destruct s; reflexivity|].
    split; [exact Hr|]. split; intros; [lia|reflexivity]. }
  { intros i t Hi ([r ->] & Hokt & Htin & Htout).
    change (m_AddressI (set_regs r s)) with I.
    change (rdMem (set_regs r s) (I + i)) with (rdMem s (I + i)).
    rewrite rdMem_inside by (try exact Hm; unfold MEMORY_SIZE; lia).
    simpl bind. eexists. split; [reflexivity|].
    split; [eexists; reflexivity|].
    split; [apply regs_ok_setV; exact Hokt|]. split.
    - intros j Hj. destruct (Z.eq_dec j i) as [->|Hne].
      + rewrite V_setV_eq by (try exact Hokt; lia).
        apply BYTE_small, mem_range, Hm.
      + rewrite V_setV_ne by lia. apply Htin. lia.
    - intros j Hj. rewrite V_setV_ne by lia. apply Htout. lia. }
  unfold OpcodeFX65. cbv zeta. fold x. rewrite Hrun. simpl bind.
  change (m_AddressI (set_regs r s)) with I.
  unfold WORD. rewrite Z.mod_small by lia.
  eexists. split; [reflexivity|]. split; [reflexivity|].
  split; [exact Hok1|]. split.
  - intros i Hi. apply Hin. lia.
  - intros j Hj. apply Hout. lia.
Qed.

(** X6.  With I .. I + X inside the memory, FX55 copies V0 .. VX to the
    cells I .. I + X, leaves every other cell and every register as it was,
    and moves I to I + X + 1. *)
Theorem OpcodeFX55_spec (opcode : Z) (s : state) :
  mem_ok s = true -> regs_ok s = true ->
  0 <= m_AddressI s ->
  m_AddressI s + GetRegisterX opcode < MEMORY_SIZE ->
  exists s',
    OpcodeFX55 opcode s = Ok s' /\
    s' = set_I (m_AddressI s + GetRegisterX opcode + 1)
               (set_mem (m_GameMemory s') s) /\
    (forall i, 0 <= i <= GetRegisterX opcode ->
               mem s' (m_AddressI s + i) = V s i) /\
    (forall a, 0 <= a ->
               ~ (m_AddressI s <= a <= m_AddressI s + GetRegisterX opcode) ->
               mem s' a = mem s a).
Proof.
  intros Hm Hr HI0 HIx.
  destruct (OpcodeFX55_run opcode s Hm HI0 HIx)
    as (s' & Hrun & Hs' & _ & Hin & Hout).
  exists s'. split; [exact Hrun|]. split; [exact Hs'|]. split; [|exact Hout].
  intros i Hi. rewrite Hin by exact Hi. apply BYTE_small, V_range, Hr.
Qed.

(** X7.  With I .. I + X inside the memory, FX65 loads V0 .. VX from the
    cells I .. I + X, leaves the registers above VX and the memory as they
    were, and moves I to I + X + 1. *)
Theorem OpcodeFX65_spec (opcode : Z) (s : state) :
  mem_ok s = true -> regs_ok s = true ->
  0 <= m_AddressI s ->
  m_AddressI s + GetRegisterX opcode < MEMORY_SIZE ->
  exists s',
    OpcodeFX65 opcode s = Ok s' /\
    s' = set_I (m_AddressI s + GetRegisterX opcode + 1)
               (set_regs (m_Registers s') s) /\
    (forall i, 0 <= i <= GetRegisterX opcode ->
               V s' i = mem s (m_AddressI s + i)) /\
    (forall j, GetRegisterX opcode < j -> V s' j = V s j).
Proof.
  intros Hm Hr HI0 HIx.
  destruct (OpcodeFX65_run opcode s Hm Hr HI0 HIx)
    as (s' & Hrun & Hs' & _ & Hin & Hout).
  exists s'. auto.
Qed.

(** X8.  Block store then block load is a round trip once I is set back:
    after FX55 at address I, whatever has happened to the registers since,
    FX65 with the same X from the same address restores V0 .. VX to the
    values stored.  (FX55 itself leaves I at I + X + 1, so a load that
    follows at once reads the cells after the block.) *)
Theorem block_store_load_round_trip (store load : Z) (s : state) :
  mem_ok s = true -> regs_ok s = true ->
  GetRegisterX load = GetRegisterX store ->
  0 <= m_AddressI s ->
  m_AddressI s + GetRegisterX store < MEMORY_SIZE ->
  exists s1,
    OpcodeFX55 store s = Ok s1 /\
    m_AddressI s1 = m_AddressI s + GetRegisterX store + 1 /\
    forall t,
      regs_ok t = true ->
      m_GameMemory t = m_GameMemory s1 ->
      m_AddressI t = m_AddressI s ->
      exists s2,
        OpcodeFX65 load t = Ok s2 /\
        forall i, 0 <= i <= GetRegisterX store -> V s2 i = V s i.
Proof.
  intros Hm Hr HX HI0 HIx.
  destruct (OpcodeFX55_run store s Hm HI0 HIx)
    as (s1 & Hrun & Hs1 & Hok1 & Hin & _).
  exists s1. split; [exact Hrun|]. split; [rewrite Hs1; reflexivity|].
  intros t Hrt Hmt HIt.
  assert (Hokt : mem_ok t = true).
  { unfold mem_ok in *. rewrite Hmt. exact Hok1. }
  destruct (OpcodeFX65_run load t Hokt Hrt) as (s2 & Hrun2 & _ & _ & Hld & _);
    [lia | rewrite HX; lia |].
  exists s2. split; [exact Hrun2|].
  intros i Hi. rewrite Hld by (rewrite HX; exact Hi). rewrite HIt.
  unfold mem. rewrite Hmt. fold (mem s1 (m_AddressI s + i)).
  rewrite Hin by exact Hi. apply BYTE_small, V_range, Hr.
Qed.

Lemma OpcodeFX55_spec_witness :
  exists s',
    OpcodeFX55 0xF155 (with_V0_V1 7 9) = Ok s' /\
    s' = set_I (m_AddressI (with_V0_V1 7 9) + GetRegisterX 0xF155 + 1)
               (set_mem (m_GameMemory s') (with_V0_V1 7 9)) /\
    (forall i, 0 <= i <= GetRegisterX 0xF155 ->
               mem s' (m_AddressI (with_V0_V1 7 9) + i)
               = V (with_V0_V1 7 9) i) /\
    (forall a, 0 <= a ->
               ~ (m_AddressI (with_V0_V1 7 9) <= a
                  <= m_AddressI (with_V0_V1 7 9) + GetRegisterX 0xF155) ->
               mem s' a = mem (with_V0_V1 7 9) a).
Proof.
  apply (OpcodeFX55_spec 0xF155 (with_V0_V1 7 9));
    solve [vm_compute; reflexivity | vm_compute; discriminate].
Defined.

Lemma OpcodeFX65_spec_witness :
  exists s',
    OpcodeFX65 0xF165 (with_V0_V1 7 9) = Ok s' /\
    s' = set_I (m_AddressI (with_V0_V1 7 9) + GetRegisterX 0xF165 + 1)
               (set_regs (m_Registers s') (with_V0_V1 7 9)) /\
    (forall i, 0 <= i <= GetRegisterX 0xF165 ->
               V s' i = mem (with_V0_V1 7 9)
                            (m_AddressI (with_V0_V1 7 9) + i)) /\
    (forall j, GetRegisterX 0xF165 < j -> V s' j = V (with_V0_V1 7 9) j).
Proof.
  apply (OpcodeFX65_spec 0xF165 (with_V0_V1 7 9));
    solve [vm_compute; reflexivity | vm_compute; discriminate].
Defined.

Lemma block_store_load_round_trip_witness :
  exists s1,
    OpcodeFX55 0xF155 (with_V0_V1 7 9) = Ok s1 /\
    m_AddressI s1
    = m_AddressI (with_V0_V1 7 9) + GetRegisterX 0xF155 + 1 /\
    forall t,
      regs_ok t = true ->
      m_GameMemory t = m_GameMemory s1 ->
      m_AddressI t = m_AddressI (with_V0_V1 7 9) ->
      exists s2,
        OpcodeFX65 0xF165 t = Ok s2 /\
        forall i, 0 <= i <= GetRegisterX 0xF155 ->
                  V s2 i = V (with_V0_V1 7 9) i.
Proof.
  apply (block_store_load_round_trip 0xF155 0xF165 (with_V0_V1 7 9));
    solve [vm_compute; reflexivity | vm_compute; discriminate].
Defined.

(** ** Every part of the machine stays a value of its type *)

Lemma machine_ok_parts (s : state) :
  machine_ok s = true <->
  regs_ok s = true /\ mem_ok s = true /\ screen_ok s = true /\
  keys_ok s = true /\ timers_ok s = true /\
  is_word (m_AddressI s) = true /\ is_word (m_PC s) = true /\
  forallb is_word (m_Stack s) = true.
Proof. unfold machine_ok. rewrite !andb_true_iff. tauto. Qed.

Lemma is_word_true (z : Z) : is_word z = true <-> 0 <= z < 65536.
Proof. unfold is_word. rewrite andb_true_iff, Z.leb_le, Z.ltb_lt. tauto. Qed.

Lemma is_word_WORD (z : Z) : is_word (WORD z) = true.
Proof. apply is_word_true. unfold WORD. apply Z.mod_pos_bound. lia. Qed.

Lemma is_word_NNN (opcode : Z) : is_word (Z.land opcode 0x0FFF) = true.
Proof.
  apply is_word_true. change 0x0FFF with (Z.ones 12).
  rewrite Z.land_ones by lia.
  pose proof (Z.mod_pos_bound opcode (2 ^ 12) eq_refl) as H.
  change (2 ^ 12) with 4096 in *. lia.
Qed.

Lemma is_byte_BYTE (z : Z) : is_byte (BYTE z) = true.
Proof. apply is_byte_true, BYTE_range. Qed.

Lemma is_byte_word (z : Z) : is_byte z = true -> is_word z = true.
Proof.
  intros H. apply is_byte_true in H. apply is_word_true. lia.
Qed.

Lemma mok_setV (i v : Z) (s : state) :
  machine_ok s = true -> machine_ok (setV i v s) = true.
Proof.
  rewrite !machine_ok_parts. intros (Hr & Hrest).
  split; [apply regs_ok_setV; exact Hr|exact Hrest].
Qed.

Lemma mok_pokeMem (a v : Z) (s : state) :
  machine_ok s = true -> machine_ok (pokeMem a v s) = true.
Proof.
  rewrite !machine_ok_parts. intros (Hr & Hm & Hrest).
  split; [exact Hr|]. split; [apply mem_ok_pokeMem; exact Hm|exact Hrest].
Qed.

Lemma mok_set_PC (pc : Z) (s : state) :
  is_word pc = true -> machine_ok s = true -> machine_ok (set_PC pc s) = true.
Proof.
  rewrite !machine_ok_parts. intros Hpc (? & ? & ? & ? & ? & ? & ? & ?).
  repeat split; assumption.
Qed.

Lemma mok_set_I (i : Z) (s : state) :
  is_word i = true -> machine_ok s = true -> machine_ok (set_I i s) = true.
Proof.
  rewrite !machine_ok_parts. intros Hi (? & ? & ? & ? & ? & ? & ? & ?).
  repeat split; assumption.
Qed.

Lemma mok_set_delay (d : Z) (s : state) :
  is_byte d = true -> machine_ok s = true ->
  machine_ok (set_delay d s) = true.
Proof.
  rewrite !machine_ok_parts. unfold timers_ok. simpl.
  intros Hd (? & ? & ? & ? & Ht & ? & ? & ?).
  apply andb_true_iff in Ht as [_ Hs].
  repeat split; try assumption. rewrite Hd, Hs. reflexivity.
Qed.

Lemma mok_set_sound (d : Z) (s : state) :
  is_byte d = true -> machine_ok s = true ->
  machine_ok (set_sound d s) = true.
Proof.
  rewrite !machine_ok_parts. unfold timers_ok. simpl.
  intros Hd (? & ? & ? & ? & Ht & ? & ? & ?).
  apply andb_true_iff in Ht as [Hdl _].
  repeat split; try assumption. rewrite Hd, Hdl. reflexivity.
Qed.

Lemma mok_printf (msg : string) (s : state) :
  machine_ok s = true -> machine_ok (printf msg s) = true.
Proof. intros H. exact H. Qed.

Lemma mok_skip (s : state) : machine_ok s = true -> machine_ok (skip s) = true.
Proof. apply mok_set_PC, is_word_WORD. Qed.

Lemma mok_if (c : bool) (a b : state) :
  machine_ok a = true -> machine_ok b = true ->
  machine_ok (if c then a else b) = true.
Proof. destruct c; auto. Qed.

Lemma mok_V (s : state) (i : Z) : machine_ok s = true -> is_byte (V s i) = true.
Proof.
  rewrite machine_ok_parts. intros (Hr & _). apply is_byte_true, V_range, Hr.
Qed.

Lemma mok_clear (opcode : Z) (s : state) :
  machine_ok s = true -> machine_ok (Opcode00E0 opcode s) = true.
Proof.
  rewrite !machine_ok_parts. intros (? & ? & ? & ? & ? & ? & ? & ?).
  repeat split; assumption.
Qed.

Lemma mok_wrPixel (x y v : Z) (s s' : state) :
  machine_ok s = true -> wrPixel x y v s = Ok s' -> machine_ok s' = true.
Proof.
  unfold wrPixel. intros Hok H.
  destruct (inScreen x y); [|discriminate H]. injection H as <-.
  revert Hok. rewrite !machine_ok_parts.
  intros (? & ? & Hs & ? & ? & ? & ? & ?).
  repeat split; try assumption.
  revert Hs. unfold screen_ok. simpl. rewrite !andb_true_iff, length_insert.
  intros [Hlen Hall]. split; [exact Hlen|].
  apply forallb_insert; [exact Hall|apply is_byte_BYTE].
Qed.

Lemma mok_wrMem (a v : Z) (s s' : state) :
  machine_ok s = true -> wrMem a v s = Ok s' -> machine_ok s' = true.
Proof.
  unfold wrMem. intros Hok H.
  destruct ((0 <=? a) && (a <? MEMORY_SIZE)); [|discriminate H].
  injection H as <-. apply mok_pokeMem, Hok.
Qed.

Lemma rdPixel_byte (s : state) (x y b : Z) :
  machine_ok s = true -> rdPixel s x y = Ok b -> is_byte b = true.
Proof.
  rewrite machine_ok_parts. intros (_ & _ & Hs & _) H.
  unfold rdPixel in H. destruct (inScreen x y); [|discriminate H].
  destruct (m_ScreenData s !! pixelIndex x y) as [p|] eqn:E;
    [|discriminate H].
  injection H as <-. unfold screen_ok in Hs.
  apply andb_true_iff in Hs as [_ Hall]. rewrite forallb_forall in Hall.
  apply Hall, list_elem_of_In. eapply list_elem_of_lookup_2. exact E.
Qed.

Lemma forallb_snoc (f : Z -> bool) (l : list Z) (x : Z) :
  forallb f l = true -> f x = true -> forallb f (l ++ [x]) = true.
Proof.
  intros Hl Hx. rewrite forallb_app, Hl. simpl. rewrite Hx. reflexivity.
Qed.

Lemma stack_top_split (st : list Z) (top : Z) :
  last st = Some top -> st = removelast st ++ [top].
Proof.
  intros H. destruct (last_Some st top) as [[l' ->] _]; [exact H|].
  rewrite removelast_last. reflexivity.
Qed.

Create HintDb mok.
#[local] Hint Resolve mok_setV mok_pokeMem mok_set_PC mok_set_I mok_skip
  mok_if mok_clear mok_printf is_word_WORD is_word_NNN is_byte_BYTE
  mok_set_delay mok_set_sound mok_V : mok.
Lemma mok_straight_line (opcode rnd : Z) (s : state) :
  machine_ok s = true ->
  machine_ok (Opcode1NNN opcode s) = true /\
  machine_ok (Opcode2NNN opcode s) = true /\
  machine_ok (Opcode3XNN opcode s) = true /\
  machine_ok (Opcode4XNN opcode s) = true /\
  machine_ok (Opcode5XY0 opcode s) = true /\
  machine_ok (Opcode6XNN opcode s) = true /\
  machine_ok (Opcode7XNN opcode s) = true /\
  machine_ok (Opcode8XY0 opcode s) = true /\
  machine_ok (Opcode8XY1 opcode s) = true /\
  machine_ok (Opcode8XY2 opcode s) = true /\
  machine_ok (Opcode8XY3 opcode s) = true /\
  machine_ok (Opcode8XY4 opcode s) = true /\
  machine_ok (Opcode8XY5 opcode s) = true /\
  machine_ok (Opcode8XY6 opcode s) = true /\
  machine_ok (Opcode8XY7 opcode s) = true /\
  machine_ok (Opcode8XYE opcode s) = true /\
  machine_ok (Opcode9XY0 opcode s) = true /\
  machine_ok (OpcodeANNN opcode s) = true /\
  machine_ok (OpcodeBNNN opcode s) = true /\
  machine_ok (OpcodeCXNN rnd opcode s) = true /\
  machine_ok (OpcodeEX9E opcode s) = true /\
  machine_ok (OpcodeEXA1 opcode s) = true /\
  machine_ok (OpcodeFX07 opcode s) = true /\
  machine_ok (OpcodeFX15 opcode s) = true /\
  machine_ok (OpcodeFX18 opcode s) = true /\
  machine_ok (OpcodeFX1E opcode s) = true.
Proof.
  intros Hok.
  assert (H2 : machine_ok (Opcode2NNN opcode s) = true).
  { unfold Opcode2NNN. cbv zeta. apply mok_set_PC; [apply is_word_NNN|].
    revert Hok. rewrite !machine_ok_parts.
    intros (? & ? & ? & ? & ? & ? & ? & ?). repeat split; try assumption.
    simpl. apply forallb_snoc; assumption. }
  unfold Opcode1NNN, Opcode3XNN, Opcode4XNN,
    Opcode5XY0, Opcode6XNN, Opcode7XNN, Opcode8XY0, Opcode8XY1, Opcode8XY2,
    Opcode8XY3, Opcode8XY4, Opcode8XY5, Opcode8XY6, Opcode8XY7, Opcode8XYE,
    Opcode9XY0, OpcodeANNN, OpcodeBNNN, OpcodeCXNN, OpcodeEX9E, OpcodeEXA1,
    OpcodeFX07, OpcodeFX15, OpcodeFX18, OpcodeFX1E.
  cbv zeta.
  repeat split; try exact H2; auto 10 with mok.
Qed.

Lemma mok_Opcode00EE (opcode : Z) (s s' : state) :
  machine_ok s = true -> Opcode00EE opcode s = Ok s' -> machine_ok s' = true.
Proof.
  unfold Opcode00EE. intros Hok H.
  destruct (last (m_Stack s)) as [top|] eqn:E; [|discriminate H].
  injection H as <-. apply stack_top_split in E.
  revert Hok. rewrite !machine_ok_parts.
  intros (? & ? & ? & ? & ? & ? & ? & Hst).
  rewrite E, forallb_app in Hst. apply andb_true_iff in Hst as [Hst Htop].
  simpl in Htop. rewrite andb_true_r in Htop.
  repeat split; assumption.
Qed.

Lemma mok_drawPixel (data cx y xp : Z) (s s' : state) :
  machine_ok s = true -> drawPixel data cx y xp s = Ok s' ->
  machine_ok s' = true.
Proof.
  unfold drawPixel. cbv zeta. intros Hok H.
  destruct (Z.land data _ =? 0); [injection H as <-; exact Hok|].
  destruct (rdPixel s (cx + xp) y) as [p|]; unfold bind in H;
    [|discriminate H].
  destruct (rdPixel _ (cx + xp) y) as [q|] in H; unfold bind in H;
    [|discriminate H].
  eapply mok_wrPixel; [|exact H]. auto with mok.
Qed.

Lemma mok_drawLine (cx cy yline : Z) (s s' : state) :
  machine_ok s = true -> drawLine cx cy yline s = Ok s' ->
  machine_ok s' = true.
Proof.
  unfold drawLine. intros Hok H.
  destruct (rdMem s (m_AddressI s + yline)) as [data|]; unfold bind in H;
    [|discriminate H].
  eapply (for_loop_invariant (fun u => machine_ok u = true));
    [|exact Hok|exact H].
  intros i t t'. apply mok_drawPixel.
Qed.

Lemma mok_OpcodeDXYN (opcode : Z) (s s' : state) :
  machine_ok s = true -> OpcodeDXYN opcode s = Ok s' -> machine_ok s' = true.
Proof.
  unfold OpcodeDXYN. cbv zeta. intros Hok H.
  eapply (for_loop_invariant (fun u => machine_ok u = true)); [| |exact H].
  - intros i t t'. apply mok_drawLine.
  - apply mok_setV, Hok.
Qed.

Lemma mok_OpcodeFX0A (opcode : Z) (s : state) :
  machine_ok s = true -> machine_ok (OpcodeFX0A opcode s) = true.
Proof.
  unfold OpcodeFX0A.
  apply (fold_left_invariant (fun u => machine_ok u = true)).
  intros t i Ht. unfold scanKey. auto with mok.
Qed.

Lemma mok_OpcodeFX29 (opcode : Z) (s s' : state) :
  machine_ok s = true -> OpcodeFX29 opcode s = Ok s' -> machine_ok s' = true.
Proof.
  unfold OpcodeFX29. cbv zeta. intros Hok H.
  destruct (rdPixel s _ 0) as [b|] eqn:E; unfold bind in H; [|discriminate H].
  injection H as <-. apply mok_set_I; [|exact Hok].
  eapply is_byte_word, rdPixel_byte; eauto.
Qed.

Lemma mok_OpcodeFX33 (opcode : Z) (s s' : state) :
  machine_ok s = true -> OpcodeFX33 opcode s = Ok s' -> machine_ok s' = true.
Proof.
  unfold OpcodeFX33. cbv zeta. intros Hok H.
  destruct (wrMem (m_AddressI s) _ s) as [s1|] eqn:E1; unfold bind in H;
    [|discriminate H].
  destruct (wrMem (m_AddressI s1 + 1) _ s1) as [s2|] eqn:E2; unfold bind in H;
    [|discriminate H].
  eauto using mok_wrMem.
Qed.

Lemma mok_OpcodeFX55 (opcode : Z) (s s' : state) :
  machine_ok s = true -> OpcodeFX55 opcode s = Ok s' -> machine_ok s' = true.
Proof.
  unfold OpcodeFX55. cbv zeta. intros Hok H.
  destruct (for_loop 0 _ _ s) as [s1|] eqn:E; unfold bind in H;
    [|discriminate H].
  injection H as <-. apply mok_set_I; [apply is_word_WORD|].
  eapply (for_loop_invariant (fun u => machine_ok u = true));
    [|exact Hok|exact E].
  intros i t t'. apply mok_wrMem.
Qed.

Lemma mok_OpcodeFX65 (opcode : Z) (s s' : state) :
  machine_ok s = true -> OpcodeFX65 opcode s = Ok s' -> machine_ok s' = true.
Proof.
  unfold OpcodeFX65. cbv zeta. intros Hok H.
  destruct (for_loop 0 _ _ s) as [s1|] eqn:E; unfold bind in H;
    [|discriminate H].
  injection H as <-. apply mok_set_I; [apply is_word_WORD|].
  eapply (for_loop_invariant (fun u => machine_ok u = true));
    [|exact Hok|exact E].
  intros i t t' Ht Hb. cbv beta in Hb.
  destruct (rdMem t (m_AddressI t + i)); unfold bind in Hb; [|discriminate Hb].
  injection Hb as <-. apply mok_setV, Ht.
Qed.

Lemma mok_tickTimers (s : state) :
  machine_ok s = true -> machine_ok (tickTimers s) = true.
Proof.
  intros Hok. unfold tickTimers. cbv zeta. auto 10 with mok.
Qed.

(** One goal for each way through the [switch]es of [Dispatch], from a
    hypothesis [H] that says what it returned. *)
Ltac switch_cases H :=
  cbv beta iota in H;
  lazymatch type of H with
  | match ?x with _ => _ end = _ => destruct x; switch_cases H
  | _ => idtac
  end.

Lemma mok_Dispatch (rnd opcode : Z) (s s1 : state) :
  machine_ok s = true -> Dispatch rnd opcode s = Ok s1 ->
  machine_ok s1 = true.
Proof.
  unfold Dispatch. intros Hok H.
  destruct (mok_straight_line opcode rnd s Hok)
    as (? & ? & ? & ? & ? & ? & ? & ? & ? & ? & ? & ? & ? & ? & ? & ? & ?
        & ? & ? & ? & ? & ? & ? & ? & ? & ?).
  pose proof (mok_OpcodeFX0A opcode s Hok).
  pose proof (mok_clear opcode s Hok).
  set (f := Z.land opcode 61440) in *. set (n := Z.land opcode 15) in *.
  set (nn := Z.land opcode 255) in *. clearbody f n nn.
  switch_cases H.
  all: try (injection H as <-).
  all: try assumption.
  all: first
         [ apply (mok_Opcode00EE opcode s s1 Hok H)
         | apply (mok_OpcodeDXYN opcode s s1 Hok H)
         | apply (mok_OpcodeFX29 opcode s s1 Hok H)
         | apply (mok_OpcodeFX33 opcode s s1 Hok H)
         | apply (mok_OpcodeFX55 opcode s s1 Hok H)
         | apply (mok_OpcodeFX65 opcode s s1 Hok H) ].
Qed.

(** X9.  A cycle that completes keeps the machine well-typed: if the
    registers, the memory cells, the pixels, the keys and the timers are
    bytes, the arrays have their declared sizes, and the index register, the
    program counter and the saved addresses are 16-bit values before
    [DecodeOpcodeCycle], they are so after it, whatever the opcode word and
    whatever [rand()] returns. *)
Theorem DecodeOpcodeCycle_keeps_machine_ok (rnd opcode : Z) (s s' : state) :
  machine_ok s = true ->
  DecodeOpcodeCycle rnd opcode s = Ok s' ->
  machine_ok s' = true.
Proof.
  intros Hok H. unfold DecodeOpcodeCycle in H.
  destruct (Dispatch rnd opcode s) as [s1|] eqn:E; unfold bind in H;
    [|discriminate H].
  injection H as <-. apply mok_tickTimers.
  eapply mok_Dispatch; eauto.
Qed.

Lemma DecodeOpcodeCycle_keeps_machine_ok_witness :
  machine_ok (tickTimers (Opcode8XY4 0x8014 (with_V0_V1 250 10))) = true.
Proof.
  apply (DecodeOpcodeCycle_keeps_machine_ok 0 0x8014 (with_V0_V1 250 10));
    vm_compute; reflexivity.
Defined.

(** ** The screen within bounds *)

Lemma screen_ok_length (s : state) :
  screen_ok s = true ->
  length (m_ScreenData s) = Z.to_nat (SCREEN_WIDTH * SCREEN_HEIGHT).
Proof. unfold screen_ok. rewrite andb_true_iff, Nat.eqb_eq. tauto. Qed.

Lemma inScreen_true (x y : Z) :
  inScreen x y = true <-> 0 <= x < SCREEN_WIDTH /\ 0 <= y < SCREEN_HEIGHT.
Proof.
  unfold inScreen. rewrite !andb_true_iff, !Z.leb_le, !Z.ltb_lt. tauto.
Qed.

Lemma pixel_range (s : state) (x y : Z) :
  screen_ok s = true -> 0 <= pixel s x y < 256.
Proof.
  unfold screen_ok, pixel. rewrite andb_true_iff. intros [_ H].
  apply bytes_lookup, H.
Qed.

Lemma rdPixel_inside (s : state) (x y : Z) :
  screen_ok s = true -> inScreen x y = true ->
  rdPixel s x y = Ok (pixel s x y).
Proof.
  intros Hok Hin. unfold rdPixel, pixel. rewrite Hin.
  apply screen_ok_length in Hok. apply inScreen_true in Hin.
  unfold SCREEN_WIDTH, SCREEN_HEIGHT in *.
  destruct (m_ScreenData s !! pixelIndex x y) as [b|] eqn:E; [reflexivity|].
  apply lookup_ge_None in E. unfold pixelIndex, SCREEN_HEIGHT in E. lia.
Qed.

Lemma pixel_set_eq (x y v : Z) (s : state) :
  screen_ok s = true -> inScreen x y = true ->
  pixel (set_screen (<[pixelIndex x y := v]> (m_ScreenData s)) s) x y = v.
Proof.
  intros Hok Hin. apply screen_ok_length in Hok. apply inScreen_true in Hin.
  unfold SCREEN_WIDTH, SCREEN_HEIGHT in *. unfold pixel. simpl.
  rewrite list_lookup_insert_eq; [reflexivity|].
  unfold pixelIndex, SCREEN_HEIGHT. lia.
Qed.

Lemma pixel_set_ne (x y x' y' v : Z) (s : state) :
  inScreen x y = true -> inScreen x' y' = true ->
  x <> x' \/ y <> y' ->
  pixel (set_screen (<[pixelIndex x y := v]> (m_ScreenData s)) s) x' y'
  = pixel s x' y'.
Proof.
  intros Hin Hin' Hne. apply inScreen_true in Hin, Hin'.
  unfold SCREEN_WIDTH, SCREEN_HEIGHT in *. unfold pixel. simpl.
  rewrite list_lookup_insert_ne; [reflexivity|].
  unfold pixelIndex, SCREEN_HEIGHT. lia.
Qed.

Lemma toggle_byte_check :
  forallb (fun q => is_byte (Z.lxor q 1)) (seqZ 0 256) = true.
Proof. vm_compute. reflexivity. Qed.

Lemma toggle_byte (q : Z) : 0 <= q < 256 -> BYTE (Z.lxor q 1) = Z.lxor q 1.
Proof.
  intros Hq. apply BYTE_small, is_byte_true.
  pose proof toggle_byte_check as Hall. rewrite forallb_forall in Hall.
  apply (Hall q), list_elem_of_In, elem_of_seqZ. lia.
Qed.

Lemma toggle_twice (q : Z) : Z.lxor (Z.lxor q 1) 1 = q.
Proof. rewrite Z.lxor_assoc, Z.lxor_nilpotent, Z.lxor_0_r. reflexivity. Qed.

Lemma screen_ok_set (k : nat) (v : Z) (s : state) :
  screen_ok s = true -> is_byte v = true ->
  screen_ok (set_screen (<[k := v]> (m_ScreenData s)) s) = true.
Proof.
  unfold screen_ok. simpl. rewrite !andb_true_iff, length_insert.
  intros [Hlen Hall] Hv. split; [exact Hlen|].
  apply forallb_insert; assumption.
Qed.

(** ** One pixel of a sprite *)

(** What one iteration of the inner loop does when its pixel is on the
    screen. *)
Lemma drawPixel_inside (data cx y i : Z) (t : state) :
  screen_ok t = true -> inScreen (cx + i) y = true ->
  drawPixel data cx y i t
  = Ok (if bitAt data i
        then set_screen
               (<[pixelIndex (cx + i) y := Z.lxor (pixel t (cx + i) y) 1]>
                  (m_ScreenData t))
               (if pixel t (cx + i) y =? 1 then setV 0xF 1 t else t)
        else t).
Proof.
  intros Hok Hin. unfold drawPixel, bitAt. cbv zeta.
  destruct (Z.land data (Z.shiftl 1 (7 - i)) =? 0); [reflexivity|].
  cbn [negb]. rewrite rdPixel_inside by assumption. simpl bind.
  assert (E : rdPixel (if pixel t (cx + i) y =? 1 then setV 15 1 t else t)
                      (cx + i) y = Ok (pixel t (cx + i) y)).
  { destruct (pixel t (cx + i) y =? 1);
      [change (rdPixel (setV 15 1 t) (cx + i) y) with (rdPixel t (cx + i) y)|];
      apply rdPixel_inside; assumption. }
  rewrite E. simpl bind. unfold wrPixel. rewrite Hin.
  rewrite toggle_byte by (apply pixel_range; exact Hok).
  destruct (pixel t (cx + i) y =? 1); reflexivity.
Qed.

(** ** One row of a sprite *)

Lemma seqZ_0_succ (i : Z) : 0 <= i -> seqZ 0 (i + 1) = seqZ 0 i ++ [i].
Proof. intros Hi. rewrite seqZ_app by lia. reflexivity. Qed.

Lemma rowCollides_succ (data cx y : Z) (s : state) (i : Z) :
  0 <= i ->
  rowCollides data cx y s (i + 1)
  = rowCollides data cx y s i
    || (bitAt data i && (pixel s (cx + i) y =? 1)).
Proof.
  intros Hi. unfold rowCollides.
  rewrite seqZ_0_succ, existsb_app by exact Hi. simpl.
  rewrite orb_false_r. reflexivity.
Qed.

(** Case analysis on every comparison of the goal. *)
Ltac compare_all :=
  repeat match goal with
    | |- context [?a =? ?b] => destruct (Z.eqb_spec a b)
    | |- context [?a <=? ?b] => destruct (Z.leb_spec a b)
    | |- context [?a <? ?b] => destruct (Z.ltb_spec a b)
    end.

Lemma drawRow_run (data cx y : Z) (t0 : state) :
  screen_ok t0 = true -> regs_ok t0 = true ->
  0 <= cx -> cx + 8 <= SCREEN_WIDTH -> 0 <= y < SCREEN_HEIGHT ->
  exists t,
    for_loop 0 8 (drawPixel data cx y) t0 = Ok t /\
    (exists scr regs, t = set_screen scr (set_regs regs t0)) /\
    screen_ok t = true /\ regs_ok t = true /\
    (forall x' y', inScreen x' y' = true ->
       pixel t x' y'
       = if (y' =? y) && (cx <=? x') && (x' <? cx + 8) && bitAt data (x' - cx)
         then Z.lxor (pixel t0 x' y') 1 else pixel t0 x' y') /\
    V t 0xF = (if rowCollides data cx y t0 8 then 1 else V t0 0xF) /\
    (forall j, 0 <= j -> j <> 0xF -> V t j = V t0 j).
Proof.
  intros Hs0 Hr0 Hcx0 Hcx8 Hy. unfold SCREEN_WIDTH, SCREEN_HEIGHT in *.
  apply (for_loop_run
           (fun i t =>
              (exists scr regs, t = set_screen scr (set_regs regs t0)) /\
              screen_ok t = true /\ regs_ok t = true /\
              (forall x' y', inScreen x' y' = true ->
                 pixel t x' y'
                 = if (y' =? y) && (cx <=? x') && (x' <? cx + i)
                      && bitAt data (x' - cx)
                   then Z.lxor (pixel t0 x' y') 1 else pixel t0 x' y') /\
              V t 0xF = (if rowCollides data cx y t0 i then 1 else V t0 0xF) /\
              (forall j, 0 <= j -> j <> 0xF -> V t j = V t0 j))
           (drawPixel data cx y) 8 0 t0).
  - split; [exists (m_ScreenData t0), (m_Registers t0); destruct t0; reflexivity|].
    split; [exact Hs0|]. split; [exact Hr0|]. split; [|split].
    + intros x' y' _. compare_all; try reflexivity; lia.
    + reflexivity.
    + reflexivity.
  - intros i t Hi ((scr & regs & Hform) & Hst & Hrt & Hpix & Hvf & Hregs).
    assert (Hin : inScreen (cx + i) y = true)
      by (apply inScreen_true; unfold SCREEN_WIDTH, SCREEN_HEIGHT; lia).
    assert (Hp : pixel t (cx + i) y = pixel t0 (cx + i) y).
    { rewrite Hpix by exact Hin. compare_all; try reflexivity; lia. }
    rewrite drawPixel_inside by assumption. eexists. split; [reflexivity|].
    rewrite rowCollides_succ by lia. rewrite Hp.
    destruct (bitAt data i) eqn:Hbit.
    + (* the bit is set: the pixel is toggled *)
      set (p := pixel t0 (cx + i) y) in *.
      set (u := if p =? 1 then setV 15 1 t else t).
      assert (Hsu : m_ScreenData u = m_ScreenData t)
        by (unfold u; destruct (p =? 1); reflexivity).
      assert (Hou : screen_ok u = true)
        by (unfold u; destruct (p =? 1); exact Hst).
      assert (Hru : regs_ok u = true)
        by (unfold u; destruct (p =? 1);
            [apply regs_ok_setV|]; exact Hrt).
      assert (Hpu : forall a b, pixel u a b = pixel t a b)
        by (intros; unfold u; destruct (p =? 1); reflexivity).
      rewrite <- Hsu.
      split.
      { unfold u. rewrite Hform. destruct (p =? 1); eexists; eexists;
          reflexivity. }
      split.
      { apply screen_ok_set; [exact Hou|].
        rewrite <- toggle_byte by (apply pixel_range; exact Hs0).
        apply is_byte_BYTE. }
      split; [exact Hru|]. split; [|split].
      * intros x' y' Hin'.
        destruct (Z.eq_dec x' (cx + i)) as [Ex|Nx];
          [destruct (Z.eq_dec y' y) as [Ey|Ny]|].
        -- subst x' y'. rewrite pixel_set_eq by assumption.
           replace (cx + i - cx) with i by lia. rewrite Hbit.
           compare_all; try reflexivity; lia.
        -- rewrite pixel_set_ne by (auto; right; congruence).
           rewrite Hpu, Hpix by exact Hin'.
           compare_all; try reflexivity; lia.
        -- rewrite pixel_set_ne by (auto; left; congruence).
           rewrite Hpu, Hpix by exact Hin'.
           compare_all; try reflexivity; try lia.
      * change (V (set_screen _ u) 15) with (V u 15). unfold u.
        cbn [andb]. destruct (p =? 1).
        -- rewrite V_setV_eq by (try exact Hrt; lia).
           rewrite orb_true_r. reflexivity.
        -- rewrite orb_false_r. exact Hvf.
      * intros j Hj Hne. change (V (set_screen _ u) j) with (V u j).
        unfold u. destruct (p =? 1);
          [rewrite V_setV_ne by lia|]; apply Hregs; assumption.
    + (* the bit is clear: nothing happens *)
      split; [eauto|]. split; [exact Hst|]. split; [exact Hrt|].
      split; [|split].
      * intros x' y' Hin'. rewrite Hpix by exact Hin'.
        destruct (Z.eq_dec x' (cx + i)) as [->|Nx].
        -- replace (cx + i - cx) with i by lia. rewrite Hbit.
           rewrite !andb_false_r. reflexivity.
        -- compare_all; try reflexivity; lia.
      * cbn [andb]. rewrite orb_false_r. exact Hvf.
      * exact Hregs.
Qed.

(** ** A whole sprite *)

Lemma existsb_same {A : Type} (f g : A -> bool) (l : list A) :
  (forall a, In a l -> f a = g a) -> existsb f l = existsb g l.
Proof.
  intros H. induction l as [|a l IH]; simpl; [reflexivity|].
  rewrite (H a) by (left; reflexivity).
  rewrite IH; [reflexivity|]. intros b Hb. apply H. right. exact Hb.
Qed.

Lemma nibble_range (opcode : Z) : 0 <= Z.land opcode 0x000F < 16.
Proof.
  change 0x000F with (Z.ones 4). rewrite Z.land_ones by lia.
  apply Z.mod_pos_bound. reflexivity.
Qed.

Lemma OpcodeDXYN_run (opcode : Z) (s : state) :
  screen_ok s = true -> regs_ok s = true -> mem_ok s = true ->
  V s (GetRegisterX opcode) + 8 <= SCREEN_WIDTH ->
  V s (GetRegisterY opcode) + Z.land opcode 0x000F <= SCREEN_HEIGHT ->
  0 <= m_AddressI s ->
  m_AddressI s + Z.land opcode 0x000F <= MEMORY_SIZE ->
  exists s',
    OpcodeDXYN opcode s = Ok s' /\
    (exists scr regs, s' = set_screen scr (set_regs regs s)) /\
    screen_ok s' = true /\ regs_ok s' = true /\
    (forall x y, inScreen x y = true ->
       pixel s' x y = if covered opcode s x y
                      then Z.lxor (pixel s x y) 1 else pixel s x y) /\
    V s' 0xF = (if collides opcode s then 1 else 0) /\
    (forall j, 0 <= j -> j <> 0xF -> V s' j = V s j).
Proof.
  intros Hs Hr Hm Hx Hy HI0 HIn.
  unfold SCREEN_WIDTH, SCREEN_HEIGHT, MEMORY_SIZE in *.
  pose proof (nibble_range opcode) as Hn.
  pose proof (V_range s (GetRegisterX opcode) Hr) as Hcx.
  pose proof (V_range s (GetRegisterY opcode) Hr) as Hcy.
  unfold OpcodeDXYN, covered, collides. cbv zeta.
  set (n := Z.land opcode 15) in *.
  set (cx := V s (GetRegisterX opcode)) in *.
  set (cy := V s (GetRegisterY opcode)) in *.
  set (I := m_AddressI s) in *.
  destruct (for_loop_run
           (fun r t =>
              (exists scr regs, t = set_screen scr (set_regs regs s)) /\
              screen_ok t = true /\ regs_ok t = true /\
              (forall x y, inScreen x y = true ->
                 pixel t x y
                 = if (cx <=? x) && (x <? cx + 8) && (cy <=? y)
                      && (y <? cy + r)
                      && bitAt (mem s (I + (y - cy))) (x - cx)
                   then Z.lxor (pixel s x y) 1 else pixel s x y) /\
              V t 0xF
              = (if existsb (fun row =>
                               rowCollides (mem s (I + row)) cx (cy + row) s 8)
                            (seqZ 0 r)
                 then 1 else 0) /\
              (forall j, 0 <= j -> j <> 0xF -> V t j = V s j))
           (drawLine cx cy) (Z.to_nat n) 0 (setV 15 0 s))
    as (s' & Hrun & HP).
  - split; [eexists; eexists; reflexivity|].
    split; [exact Hs|]. split; [apply regs_ok_setV; exact Hr|].
    split; [|split].
    + intros x y _. change (pixel (setV 15 0 s) x y) with (pixel s x y).
      compare_all; try reflexivity; lia.
    + rewrite V_setV_eq by (try exact Hr; lia). reflexivity.
    + intros j Hj Hne. apply V_setV_ne; lia.
  - intros r t Hrn ((scr & regs & ->) & Hst & Hrt & Hpix & Hvf & Hregs).
    unfold drawLine.
    change (m_AddressI (set_screen scr (set_regs regs s))) with I.
    change (rdMem (set_screen scr (set_regs regs s)) (I + r))
      with (rdMem s (I + r)).
    rewrite rdMem_inside by (try exact Hm; unfold MEMORY_SIZE; lia).
    simpl bind.
    destruct (drawRow_run (mem s (I + r)) cx (cy + r)
                          (set_screen scr (set_regs regs s)))
      as (t' & Hrun & (scr' & regs' & Hform') & Hst' & Hrt' & Hpix' & Hvf'
          & Hregs');
      try assumption;
      try (unfold SCREEN_WIDTH, SCREEN_HEIGHT; lia).
    exists t'. split; [exact Hrun|].
    split; [rewrite Hform'; eexists; eexists; reflexivity|].
    split; [exact Hst'|]. split; [exact Hrt'|]. split; [|split].
    + intros x y Hin. rewrite Hpix', Hpix by exact Hin.
      destruct (Z.eq_dec y (cy + r)) as [->|Ny].
      * replace (cy + r - cy) with r by lia.
        destruct (bitAt (mem s (I + r)) (x - cx));
          compare_all; try reflexivity; lia.
      * compare_all; try reflexivity; lia.
    + rewrite Hvf', Hvf. clear Hvf Hvf'.
      rewrite seqZ_0_succ, existsb_app by lia. simpl existsb.
      rewrite orb_false_r.
      assert (E : rowCollides (mem s (I + r)) cx (cy + r)
                              (set_screen scr (set_regs regs s)) 8
                  = rowCollides (mem s (I + r)) cx (cy + r) s 8).
      { unfold rowCollides. apply existsb_same. intros col Hcol.
        apply list_elem_of_In, elem_of_seqZ in Hcol.
        destruct (bitAt (mem s (I + r)) col); [|reflexivity]. cbn [andb].
        assert (Hsame : pixel (set_screen scr (set_regs regs s))
                              (cx + col) (cy + r)
                        = pixel s (cx + col) (cy + r)).
        { rewrite Hpix by (apply inScreen_true;
                           unfold SCREEN_WIDTH, SCREEN_HEIGHT; lia).
          compare_all; try reflexivity; lia. }
        rewrite Hsame. reflexivity. }
      rewrite E.
      destruct (existsb _ (seqZ 0 r)), (rowCollides _ cx (cy + r) s 8);
        reflexivity.
    + intros j Hj Hne. rewrite Hregs' by assumption. apply Hregs; assumption.
  - replace (0 + Z.of_nat (Z.to_nat n)) with n in HP by lia.
    exists s'. split; [exact Hrun|exact HP].
Qed.

(** X10.  A sprite that fits on the screen (VX + 8 <= 64, VY + N <= 32) and
    in memory is drawn without a fault: every pixel under a set bit of the
    sprite is flipped and every other pixel keeps its value; VF is 1 if some
    set bit fell on a pixel that held 1 and 0 otherwise; no other register,
    and nothing but screen and registers, changes. *)
Theorem OpcodeDXYN_spec (opcode : Z) (s : state) :
  screen_ok s = true -> regs_ok s = true -> mem_ok s = true ->
  V s (GetRegisterX opcode) + 8 <= SCREEN_WIDTH ->
  V s (GetRegisterY opcode) + Z.land opcode 0x000F <= SCREEN_HEIGHT ->
  0 <= m_AddressI s ->
  m_AddressI s + Z.land opcode 0x000F <= MEMORY_SIZE ->
  exists s',
    OpcodeDXYN opcode s = Ok s' /\
    s' = set_screen (m_ScreenData s') (set_regs (m_Registers s') s) /\
    (forall x y, inScreen x y = true ->
       pixel s' x y = if covered opcode s x y
                      then Z.lxor (pixel s x y) 1 else pixel s x y) /\
    V s' 0xF = (if collides opcode s then 1 else 0) /\
    (forall j, 0 <= j -> j <> 0xF -> V s' j = V s j).
Proof.
  intros Hs Hr Hm Hx Hy HI0 HIn.
  destruct (OpcodeDXYN_run opcode s Hs Hr Hm Hx Hy HI0 HIn)
    as (s' & Hrun & (scr & regs & ->) & _ & _ & Hpix & Hvf & Hregs).
  eexists. split; [exact Hrun|]. split; [reflexivity|]. auto.
Qed.

Lemma OpcodeDXYN_spec_witness :
  exists s',
    OpcodeDXYN 0xD015 (with_V0_V1 0 0) = Ok s' /\
    s' = set_screen (m_ScreenData s')
                    (set_regs (m_Registers s') (with_V0_V1 0 0)) /\
    (forall x y, inScreen x y = true ->
       pixel s' x y = if covered 0xD015 (with_V0_V1 0 0) x y
                      then Z.lxor (pixel (with_V0_V1 0 0) x y) 1
                      else pixel (with_V0_V1 0 0) x y) /\
    V s' 0xF = (if collides 0xD015 (with_V0_V1 0 0) then 1 else 0) /\
    (forall j, 0 <= j -> j <> 0xF -> V s' j = V (with_V0_V1 0 0) j).
Proof.
  apply (OpcodeDXYN_spec 0xD015 (with_V0_V1 0 0));
    solve [vm_compute; reflexivity | vm_compute; discriminate].
Defined.

Lemma covered_same (opcode : Z) (s : state) (scr regs : list Z) (x y : Z) :
  V (set_screen scr (set_regs regs s)) (GetRegisterX opcode)
  = V s (GetRegisterX opcode) ->
  V (set_screen scr (set_regs regs s)) (GetRegisterY opcode)
  = V s (GetRegisterY opcode) ->
  covered opcode (set_screen scr (set_regs regs s)) x y
  = covered opcode s x y.
Proof. intros Hx Hy. unfold covered. rewrite Hx, Hy. reflexivity. Qed.

Lemma collides_found (opcode : Z) (s : state) (x y : Z) :
  covered opcode s x y = true -> pixel s x y = 1 ->
  collides opcode s = true.
Proof.
  unfold covered, collides, rowCollides. cbv zeta.
  set (cx := V s (GetRegisterX opcode)). set (cy := V s (GetRegisterY opcode)).
  rewrite !andb_true_iff, !Z.leb_le, !Z.ltb_lt.
  intros ((((Hx0 & Hx8) & Hy0) & Hyn) & Hbit) Hp.
  apply existsb_exists. exists (y - cy). split.
  { apply list_elem_of_In, elem_of_seqZ. lia. }
  apply existsb_exists. exists (x - cx). split.
  { apply list_elem_of_In, elem_of_seqZ. lia. }
  rewrite Hbit. replace (cx + (x - cx)) with x by lia.
  replace (cy + (y - cy)) with y by lia. rewrite Hp. reflexivity.
Qed.

(** X11.  Drawing is its own inverse.  When neither coordinate register is
    VF and the sprite fits, drawing the same sprite twice in a row succeeds
    both times and leaves every pixel of the screen as it was before the
    first draw; and if some set bit of the sprite fell on a pixel that was
    0, the second draw ends with VF = 1. *)
Theorem OpcodeDXYN_twice_restores (opcode : Z) (s : state) :
  screen_ok s = true -> regs_ok s = true -> mem_ok s = true ->
  GetRegisterX opcode <> 0xF -> GetRegisterY opcode <> 0xF ->
  V s (GetRegisterX opcode) + 8 <= SCREEN_WIDTH ->
  V s (GetRegisterY opcode) + Z.land opcode 0x000F <= SCREEN_HEIGHT ->
  0 <= m_AddressI s ->
  m_AddressI s + Z.land opcode 0x000F <= MEMORY_SIZE ->
  exists s1 s2,
    OpcodeDXYN opcode s = Ok s1 /\
    OpcodeDXYN opcode s1 = Ok s2 /\
    (forall x y, inScreen x y = true -> pixel s2 x y = pixel s x y) /\
    (forall x y, inScreen x y = true -> covered opcode s x y = true ->
                 pixel s x y = 0 -> V s2 0xF = 1).
Proof.
  intros Hs Hr Hm HX HY Hx Hy HI0 HIn.
  pose proof (GetRegisterX_range opcode) as HXr.
  pose proof (GetRegisterY_range opcode) as HYr.
  destruct (OpcodeDXYN_run opcode s Hs Hr Hm Hx Hy HI0 HIn)
    as (s1 & Hrun1 & (scr & regs & ->) & Hs1 & Hr1 & Hpix1 & _ & Hregs1).
  assert (EX : V (set_screen scr (set_regs regs s)) (GetRegisterX opcode)
               = V s (GetRegisterX opcode)) by (apply Hregs1; lia).
  assert (EY : V (set_screen scr (set_regs regs s)) (GetRegisterY opcode)
               = V s (GetRegisterY opcode)) by (apply Hregs1; lia).
  destruct (OpcodeDXYN_run opcode (set_screen scr (set_regs regs s)))
    as (s2 & Hrun2 & _ & _ & _ & Hpix2 & Hvf2 & _);
    try assumption; try (rewrite ?EX, ?EY; assumption).
  exists (set_screen scr (set_regs regs s)), s2.
  split; [exact Hrun1|]. split; [exact Hrun2|]. split.
  - intros x y Hin.
    rewrite Hpix2, covered_same, Hpix1 by assumption.
    destruct (covered opcode s x y); [apply toggle_twice|reflexivity].
  - intros x y Hin Hcov Hp. rewrite Hvf2.
    rewrite (collides_found opcode (set_screen scr (set_regs regs s)) x y);
      [reflexivity| |].
    + rewrite covered_same by assumption. exact Hcov.
    + rewrite Hpix1, Hcov, Hp by exact Hin. reflexivity.
Qed.

Lemma OpcodeDXYN_twice_restores_witness :
  exists s1 s2,
    OpcodeDXYN 0xD015 (with_V0_V1 0 0) = Ok s1 /\
    OpcodeDXYN 0xD015 s1 = Ok s2 /\
    (forall x y, inScreen x y = true ->
                 pixel s2 x y = pixel (with_V0_V1 0 0) x y) /\
    (forall x y, inScreen x y = true ->
                 covered 0xD015 (with_V0_V1 0 0) x y = true ->
                 pixel (with_V0_V1 0 0) x y = 0 -> V s2 0xF = 1).
Proof.
  apply (OpcodeDXYN_twice_restores 0xD015 (with_V0_V1 0 0));
    solve [vm_compute; reflexivity | vm_compute; discriminate].
Defined.

(** ** The screen refresh *)

Lemma setV_setV (i v w : Z) (s : state) :
  setV i v (setV i w s) = setV i v s.
Proof.
  unfold setV, set_regs. simpl. rewrite list_insert_insert_eq. reflexivity.
Qed.

Lemma DrawPixels_fold (l : list Z) (s : state) :
  fold_left (fun s p => if p =? 1 then setV 0xF 1 s else s) l s
  = if existsb (fun p => p =? 1) l then setV 0xF 1 s else s.
Proof.
  revert s. induction l as [|p l IH]; intros s; simpl; [reflexivity|].
  rewrite IH. destruct (p =? 1); simpl; [|reflexivity].
  rewrite setV_setV. destruct (existsb _ l); reflexivity.
Qed.

(** X12.  [DrawPixels], which [main] calls after every instruction, does
    more than render: if any pixel of the screen holds 1 it stores 1 in VF.
    Otherwise, and in every other register and part of the machine, it
    changes nothing. *)
Theorem DrawPixels_overwrites_VF (s : state) :
  regs_ok s = true ->
  V (DrawPixels s) 0xF
  = (if existsb (fun p => p =? 1) (m_ScreenData s) then 1 else V s 0xF) /\
  (forall j, 0 <= j -> j <> 0xF -> V (DrawPixels s) j = V s j) /\
  DrawPixels s = set_regs (m_Registers (DrawPixels s)) s.
Proof.
  intros Hr. unfold DrawPixels. rewrite DrawPixels_fold.
  destruct (existsb _ (m_ScreenData s)).
  - split; [apply V_setV_eq; [exact Hr|lia]|].
    split; [intros j Hj Hne; apply V_setV_ne; lia|reflexivity].
  - split; [reflexivity|]. split; [reflexivity|destruct s; reflexivity].
Qed.

Lemma DrawPixels_overwrites_VF_witness :
  V (DrawPixels (lit 1 0 (with_V0_V1 1 0))) 0xF
  = (if existsb (fun p => p =? 1) (m_ScreenData (lit 1 0 (with_V0_V1 1 0)))
     then 1 else V (lit 1 0 (with_V0_V1 1 0)) 0xF) /\
  (forall j, 0 <= j -> j <> 0xF ->
             V (DrawPixels (lit 1 0 (with_V0_V1 1 0))) j
             = V (lit 1 0 (with_V0_V1 1 0)) j) /\
  DrawPixels (lit 1 0 (with_V0_V1 1 0))
  = set_regs (m_Registers (DrawPixels (lit 1 0 (with_V0_V1 1 0))))
             (lit 1 0 (with_V0_V1 1 0)).
Proof.
  apply (DrawPixels_overwrites_VF (lit 1 0 (with_V0_V1 1 0))).
  vm_compute. reflexivity.
Defined.

(** ** Skipping on a key *)

Lemma Key_01 (s : state) (i : Z) :
  keys_01 s = true -> Key s i = 0 \/ Key s i = 1.
Proof.
  unfold keys_01, Key. intros Hall.
  destruct (m_Keyboard s !! Z.to_nat i) as [k|] eqn:E; simpl; [|auto].
  rewrite forallb_forall in Hall.
  assert (Hk : (k =? 0) || (k =? 1) = true).
  { apply Hall, list_elem_of_In. eapply list_elem_of_lookup_2. exact E. }
  apply orb_true_iff in Hk as [Hk|Hk]; apply Z.eqb_eq in Hk; auto.
Qed.

Lemma keys_01_insert (l : list Z) (i : nat) (v : Z) :
  forallb (fun k => (k =? 0) || (k =? 1)) l = true ->
  (v =? 0) || (v =? 1) = true ->
  forallb (fun k => (k =? 0) || (k =? 1)) (<[i := v]> l) = true.
Proof.
  revert i. induction l as [|a l IH]; intros i Hl Hv; [exact Hl|].
  simpl in Hl. apply andb_true_iff in Hl as [Ha Hl].
  destruct i as [|i]; simpl; apply andb_true_iff; split; auto.
Qed.

(** [CPUReset] releases every key. *)
Lemma keys_01_CPUReset (s : state) : keys_01 (CPUReset s) = true.
Proof.
  destruct (CPUReset_fields s) as (_ & _ & _ & Hk & _).
  unfold keys_01. rewrite Hk. reflexivity.
Qed.

(** The input loop of [main] stores nothing but 0 and 1 in a key. *)
Lemma keys_01_handleEvent (s : state) (exit : bool) (e : SDL_Event) :
  keys_01 s = true -> keys_01 (fst (handleEvent (s, exit) e)) = true.
Proof.
  intros Hk.
  destruct e as [|[k|]|[k|]|]; simpl; try exact Hk;
    unfold keys_01; simpl; apply keys_01_insert; solve [exact Hk|reflexivity].
Qed.

Lemma keys_01_events (events : list SDL_Event) :
  forall s exit,
    keys_01 s = true ->
    keys_01 (fst (fold_left handleEvent events (s, exit))) = true.
Proof.
  induction events as [|e events IH]; intros s exit Hk; cbn [fold_left].
  - exact Hk.
  - destruct (handleEvent (s, exit) e) as [t exit'] eqn:E.
    apply IH. pose proof (keys_01_handleEvent s exit e Hk) as H.
    rewrite E in H. exact H.
Qed.

(** The state of a key other than [i] does not enter [Key s i]. *)
Lemma Key_other (s : state) (i k v : Z) :
  0 <= i -> 0 <= k -> k <> i ->
  Key (set_keys (<[Z.to_nat k := v]> (m_Keyboard s)) s) i = Key s i.
Proof.
  intros Hi Hk Hne. unfold Key. simpl.
  rewrite list_lookup_insert_ne by lia. reflexivity.
Qed.

(** X13.  EX9E and EXA1 compare the value of VX with the state of key
    number X - the register's number, not the key that VX names.  EX9E
    skips, and EXA1 does not, exactly when VX equals the state of key X;
    the state of every other key, key VX included when VX differs from X,
    has no influence on either.  The input loop of [main] leaves every key
    at 0 or 1; with such keys a VX of 2 or more never equals the key, so
    EX9E never skips and EXA1 always skips, whether or not key VX is
    down. *)
Theorem key_skips_ignore_key_VX (opcode : Z) (s : state) :
  (V s (GetRegisterX opcode) = Key s (GetRegisterX opcode) ->
   OpcodeEX9E opcode s = skip s /\ OpcodeEXA1 opcode s = s) /\
  (V s (GetRegisterX opcode) <> Key s (GetRegisterX opcode) ->
   OpcodeEX9E opcode s = s /\ OpcodeEXA1 opcode s = skip s) /\
  (forall k v, 0 <= k -> k <> GetRegisterX opcode ->
     OpcodeEX9E opcode (set_keys (<[Z.to_nat k := v]> (m_Keyboard s)) s)
     = set_keys (<[Z.to_nat k := v]> (m_Keyboard s)) (OpcodeEX9E opcode s) /\
     OpcodeEXA1 opcode (set_keys (<[Z.to_nat k := v]> (m_Keyboard s)) s)
     = set_keys (<[Z.to_nat k := v]> (m_Keyboard s))
                (OpcodeEXA1 opcode s)) /\
  (keys_01 s = true ->
   (forall events exit,
      keys_01 (fst (fold_left handleEvent events (s, exit))) = true) /\
   (2 <= V s (GetRegisterX opcode) ->
    OpcodeEX9E opcode s = s /\ OpcodeEXA1 opcode s = skip s)).
Proof.
  pose proof (GetRegisterX_range opcode) as HX.
  split; [|split; [|split]].
  - intros E. unfold OpcodeEX9E, OpcodeEXA1.
    rewrite (proj2 (Z.eqb_eq _ _) E). split; reflexivity.
  - intros E. unfold OpcodeEX9E, OpcodeEXA1.
    rewrite (proj2 (Z.eqb_neq _ _) E). split; reflexivity.
  - intros k v Hk Hne. unfold OpcodeEX9E, OpcodeEXA1.
    rewrite Key_other by lia.
    change (V (set_keys (<[Z.to_nat k := v]> (m_Keyboard s)) s)
              (GetRegisterX opcode))
      with (V s (GetRegisterX opcode)).
    destruct (V s (GetRegisterX opcode) =? Key s (GetRegisterX opcode));
      split; reflexivity.
  - intros Hk. split.
    + intros events exit. apply keys_01_events, Hk.
    + intros Hv. unfold OpcodeEX9E, OpcodeEXA1.
      destruct (Key_01 s (GetRegisterX opcode) Hk) as [E|E]; rewrite E;
        (destruct (Z.eqb_spec (V s (GetRegisterX opcode)) 0);
         destruct (Z.eqb_spec (V s (GetRegisterX opcode)) 1);
         try lia; split; reflexivity).
Qed.

(** V0 holds 5, key 5 has just gone down and key 0 is up: E09E does not
    skip and E0A1 does.  With V1 = 0 and key 1 up, E19E skips although
    key 0, the key that V1 names, is up. *)
Lemma key_skips_ignore_key_VX_witness :
  keys_01 (fst (handleEvent (with_V0_V1 5 0, false) (SDL_KEYDOWN (Some 5))))
  = true /\
  (OpcodeEX9E 0xE09E
     (fst (handleEvent (with_V0_V1 5 0, false) (SDL_KEYDOWN (Some 5))))
   = fst (handleEvent (with_V0_V1 5 0, false) (SDL_KEYDOWN (Some 5))) /\
   OpcodeEXA1 0xE09E
     (fst (handleEvent (with_V0_V1 5 0, false) (SDL_KEYDOWN (Some 5))))
   = skip (fst (handleEvent (with_V0_V1 5 0, false)
                            (SDL_KEYDOWN (Some 5))))) /\
  (OpcodeEX9E 0xE19E
     (fst (handleEvent (with_V0_V1 5 0, false) (SDL_KEYDOWN (Some 5))))
   = skip (fst (handleEvent (with_V0_V1 5 0, false)
                            (SDL_KEYDOWN (Some 5)))) /\
   OpcodeEXA1 0xE19E
     (fst (handleEvent (with_V0_V1 5 0, false) (SDL_KEYDOWN (Some 5))))
   = fst (handleEvent (with_V0_V1 5 0, false) (SDL_KEYDOWN (Some 5)))).
Proof.
  assert (Hk : keys_01 (fst (handleEvent (with_V0_V1 5 0, false)
                                         (SDL_KEYDOWN (Some 5)))) = true)
    by (vm_compute; reflexivity).
  split; [exact Hk|]. split.
  - destruct (key_skips_ignore_key_VX 0xE09E
                (fst (handleEvent (with_V0_V1 5 0, false)
                                  (SDL_KEYDOWN (Some 5)))))
      as (_ & _ & _ & H).
    destruct (H Hk) as [_ H2]. apply H2. vm_compute. discriminate.
  - destruct (key_skips_ignore_key_VX 0xE19E
                (fst (handleEvent (with_V0_V1 5 0, false)
                                  (SDL_KEYDOWN (Some 5)))))
      as (H & _).
    apply H. vm_compute. reflexivity.
Defined.

(** ** Writing and reading the delay timer *)

Lemma regs_ok_tickTimers (s : state) :
  regs_ok (tickTimers s) = regs_ok s.
Proof.
  unfold tickTimers. cbv zeta.
  destruct (delayTimer s >? 0); simpl;
    destruct (soundTimer s >? 0); reflexivity.
Qed.

Lemma V_tickTimers (s : state) (i : Z) : V (tickTimers s) i = V s i.
Proof.
  unfold tickTimers. cbv zeta.
  destruct (delayTimer s >? 0); simpl;
    destruct (soundTimer s >? 0); reflexivity.
Qed.

(** X14.  The delay timer loses a tick in the very cycle that loads it and
    another in the cycle that reads it: after FX15 with VX = v the timer
    holds v - 1 (0 if v is 0), and an FY07 in the next cycle loads VY with
    that value and leaves the timer at v - 2 (0 if v is below 2). *)
Theorem delay_write_then_read (rnd rnd' load read : Z) (s : state) :
  regs_ok s = true -> timers_ok s = true ->
  Z.land load 0xF000 = 0xF000 -> Z.land load 0x00FF = 0x0015 ->
  Z.land read 0xF000 = 0xF000 -> Z.land read 0x00FF = 0x0007 ->
  exists s1 s2,
    DecodeOpcodeCycle rnd load s = Ok s1 /\
    DecodeOpcodeCycle rnd' read s1 = Ok s2 /\
    delayTimer s1 = Z.max 0 (V s (GetRegisterX load) - 1) /\
    V s2 (GetRegisterX read) = Z.max 0 (V s (GetRegisterX load) - 1) /\
    delayTimer s2 = Z.max 0 (V s (GetRegisterX load) - 2).
Proof.
  intros Hr Ht Hl1 Hl2 Hr1 Hr2.
  pose proof (V_range s (GetRegisterX load) Hr) as Hv.
  pose proof (GetRegisterX_range read) as Hy.
  unfold DecodeOpcodeCycle, Dispatch. rewrite Hl1, Hl2. cbv iota.
  simpl bind. eexists. eexists. split; [reflexivity|].
  rewrite Hr1, Hr2. cbv iota. simpl bind. split; [reflexivity|].
  set (s0 := OpcodeFX15 load s).
  assert (Ht0 : timers_ok s0 = true).
  { unfold timers_ok in *. simpl. apply andb_true_iff in Ht as [_ Hs].
    rewrite Hs, andb_true_r. apply is_byte_true. exact Hv. }
  destruct (tickTimers_spec s0 Ht0) as [Hd1 _].
  change (delayTimer s0) with (V s (GetRegisterX load)) in Hd1.
  set (s1 := tickTimers s0) in *.
  assert (Hr1' : regs_ok s1 = true).
  { unfold s1. rewrite regs_ok_tickTimers. exact Hr. }
  assert (Ht1 : timers_ok (OpcodeFX07 read s1) = true).
  { change (timers_ok (OpcodeFX07 read s1)) with (timers_ok s1).
    unfold timers_ok. destruct (tickTimers_spec s0 Ht0) as [Hd Hs].
    fold s1 in Hd, Hs. rewrite Hd, Hs.
    unfold timers_ok in Ht0. apply andb_true_iff in Ht0 as [H1 H2].
    apply is_byte_true in H1, H2.
    apply andb_true_iff. split; apply is_byte_true; lia. }
  destruct (tickTimers_spec (OpcodeFX07 read s1) Ht1) as [Hd2 _].
  change (delayTimer (OpcodeFX07 read s1)) with (delayTimer s1) in Hd2.
  split; [exact Hd1|]. split.
  - rewrite V_tickTimers. unfold OpcodeFX07.
    rewrite V_setV_eq by assumption. rewrite Hd1. apply BYTE_small. lia.
  - rewrite Hd2, Hd1. lia.
Qed.

Lemma delay_write_then_read_witness :
  exists s1 s2,
    DecodeOpcodeCycle 0 0xF015 (with_V0_V1 9 0) = Ok s1 /\
    DecodeOpcodeCycle 0 0xF107 s1 = Ok s2 /\
    delayTimer s1 = Z.max 0 (V (with_V0_V1 9 0) (GetRegisterX 0xF015) - 1) /\
    V s2 (GetRegisterX 0xF107)
    = Z.max 0 (V (with_V0_V1 9 0) (GetRegisterX 0xF015) - 1) /\
    delayTimer s2 = Z.max 0 (V (with_V0_V1 9 0) (GetRegisterX 0xF015) - 2).
Proof.
  apply (delay_write_then_read 0 0 0xF015 0xF107 (with_V0_V1 9 0));
    vm_compute; reflexivity.
Defined.

(** ** One turn of the application loop *)

Lemma input_only_refl (s : state) : input_only s s.
Proof. unfold input_only. repeat split; reflexivity. Qed.

Lemma handleEvent_input_only (s : state) (exit : bool) (e : SDL_Event) :
  input_only s (fst (handleEvent (s, exit) e)).
Proof.
  destruct e as [|[k|]|[k|]|]; unfold input_only; simpl;
    repeat split; reflexivity.
Qed.

Lemma events_input_only (events : list SDL_Event) :
  forall s exit, input_only s (fst (fold_left handleEvent events (s, exit))).
Proof.
  induction events as [|e events IH]; intros s exit; cbn [fold_left].
  - apply input_only_refl.
  - destruct (handleEvent (s, exit) e) as [t exit'] eqn:E.
    pose proof (handleEvent_input_only s exit e) as H1. rewrite E in H1.
    simpl in H1. specialize (IH t exit').
    unfold input_only in *.
    destruct H1 as (? & ? & ? & ? & ? & ? & ? & ?).
    destruct IH as (? & ? & ? & ? & ? & ? & ? & ?).
    repeat split; congruence.
Qed.

Lemma mok_handleEvent (s : state) (exit : bool) (e : SDL_Event) :
  machine_ok s = true -> machine_ok (fst (handleEvent (s, exit) e)) = true.
Proof.
  intros Hok.
  assert (Hkey : forall n v, is_byte v = true ->
            machine_ok (set_keys (<[n := v]> (m_Keyboard s)) s) = true).
  { intros n v Hv. revert Hok. rewrite !machine_ok_parts.
    intros (? & ? & ? & Hk & ? & ? & ? & ?). repeat split; try assumption.
    revert Hk. unfold keys_ok. simpl.
    rewrite !andb_true_iff, length_insert. intros [Hlen Hall].
    split; [exact Hlen|]. apply forallb_insert; assumption. }
  destruct e as [|[k|]|[k|]|]; simpl; auto.
Qed.

Lemma mok_events (events : list SDL_Event) :
  forall s exit,
    machine_ok s = true ->
    machine_ok (fst (fold_left handleEvent events (s, exit))) = true.
Proof.
  induction events as [|e events IH]; intros s exit Hok; cbn [fold_left].
  - exact Hok.
  - destruct (handleEvent (s, exit) e) as [t exit'] eqn:E.
    apply IH. pose proof (mok_handleEvent s exit e Hok) as H.
    rewrite E in H. exact H.
Qed.

Lemma mok_LoadCH8ROM (ROM : option (list Z)) (s : state) :
  machine_ok s = true -> machine_ok (fst (LoadCH8ROM ROM s)) = true.
Proof.
  intros Hok. unfold LoadCH8ROM. destruct ROM as [buffer|]; [|exact Hok].
  cbv zeta.
  destruct (0xFFF + 1 - 0x200 >? Z.of_nat (length buffer)); cbn [fst].
  - apply (fold_left_invariant (fun u => machine_ok u = true));
      [|exact Hok]. intros t i Ht. apply mok_pokeMem, Ht.
  - exact Hok.
Qed.

Lemma mok_DrawPixels (s : state) :
  machine_ok s = true -> machine_ok (DrawPixels s) = true.
Proof.
  intros Hok. unfold DrawPixels. rewrite DrawPixels_fold.
  destruct (existsb _ _); [apply mok_setV|]; exact Hok.
Qed.

(** ** The keys over a run *)

Lemma keys_Dispatch (rnd opcode : Z) (s s1 : state) :
  Dispatch rnd opcode s = Ok s1 -> m_Keyboard s1 = m_Keyboard s.
Proof.
  apply (Dispatch_frame m_Keyboard); try reflexivity.
  - right. split; reflexivity.
  - right. reflexivity.
Qed.

Lemma keys_tickTimers (s : state) :
  m_Keyboard (tickTimers s) = m_Keyboard s.
Proof.
  unfold tickTimers. cbv zeta.
  destruct (delayTimer s >? 0); cbn [soundTimer set_delay];
    destruct (soundTimer s >? 0); reflexivity.
Qed.

Lemma keys_LoadCH8ROM (ROM : option (list Z)) (s : state) :
  m_Keyboard (fst (LoadCH8ROM ROM s)) = m_Keyboard s.
Proof.
  unfold LoadCH8ROM. destruct ROM as [buffer|]; [|reflexivity]. cbv zeta.
  destruct (0xFFF + 1 - 0x200 >? Z.of_nat (length buffer)); cbn [fst];
    [|reflexivity].
  apply (fold_left_invariant (fun u => m_Keyboard u = m_Keyboard s));
    [|reflexivity].
  intros t i Ht. rewrite <- Ht. reflexivity.
Qed.

Lemma keys_DrawPixels (s : state) : m_Keyboard (DrawPixels s) = m_Keyboard s.
Proof.
  unfold DrawPixels. rewrite DrawPixels_fold.
  destruct (existsb _ _); reflexivity.
Qed.

(** Nothing but the input loop writes a key, so a turn of the application
    loop keeps the keys at 0 or 1. *)
Lemma keys_01_MainLoopBody
      (ROM : option (list Z)) (rnd : Z) (events : list SDL_Event)
      (s s' : state) (exit : bool) :
  keys_01 s = true ->
  MainLoopBody ROM rnd events s = Ok (s', exit) ->
  keys_01 s' = true.
Proof.
  intros Hk H. unfold MainLoopBody in H.
  destruct (GetNextOpcode s) as [[opcode s1]|] eqn:Ef; unfold bind in H;
    [|discriminate H].
  apply GetNextOpcode_Ok in Ef as (-> & _ & _).
  pose proof (keys_LoadCH8ROM ROM (set_PC (m_PC s + 2) s)) as Hk2.
  destruct (LoadCH8ROM ROM (set_PC (m_PC s + 2) s)) as [s2 isLoaded].
  cbn [fst] in Hk2. change (m_Keyboard (set_PC (m_PC s + 2) s))
                      with (m_Keyboard s) in Hk2.
  assert (Hdec : exists s3,
            m_Keyboard s3 = m_Keyboard s /\
            Ok (let (s4, exit4) := fold_left handleEvent events
                                             (s3, negb isLoaded) in
                (DrawPixels s4, exit4)) = Ok (s', exit)).
  { destruct isLoaded.
    - destruct (DecodeOpcodeCycle rnd opcode s2) as [s3|] eqn:Ed;
        [|discriminate H].
      exists s3. split.
      + unfold DecodeOpcodeCycle in Ed.
        destruct (Dispatch rnd opcode s2) as [s2'|] eqn:E2;
          unfold bind in Ed; [|discriminate Ed].
        injection Ed as <-. rewrite keys_tickTimers, <- Hk2.
        eapply keys_Dispatch. exact E2.
      + rewrite <- H. destruct (fold_left _ _ _). reflexivity.
    - exists s2. split; [exact Hk2|].
      rewrite <- H. destruct (fold_left _ _ _). reflexivity. }
  destruct Hdec as (s3 & Hk3 & Hfin).
  assert (Hk3' : keys_01 s3 = true).
  { unfold keys_01 in *. rewrite Hk3. exact Hk. }
  pose proof (keys_01_events events s3 (negb isLoaded) Hk3') as Hk4.
  destruct (fold_left handleEvent events (s3, negb isLoaded)) as [s4 exit4].
  cbn [fst] in Hk4. injection Hfin as <- _.
  unfold keys_01. rewrite keys_DrawPixels. exact Hk4.
Qed.

Lemma keys_01_MainLoop (ROM : option (list Z))
      (turns : list (Z * list SDL_Event)) :
  forall s s',
    keys_01 s = true -> MainLoop ROM turns s = Ok s' -> keys_01 s' = true.
Proof.
  induction turns as [|[rnd events] turns IH]; intros s s' Hk H;
    cbn [MainLoop] in H.
  - injection H as <-. exact Hk.
  - destruct (MainLoopBody ROM rnd events s) as [[s1 exit]|] eqn:E;
      unfold bind in H; [|discriminate H].
    pose proof (keys_01_MainLoopBody _ _ _ _ _ _ Hk E) as Hk1.
    destruct exit.
    + injection H as <-. exact Hk1.
    + eapply IH; eassumption.
Qed.

(** X26.  Every key is 0 or 1 at all times: [CPUReset] releases the
    sixteen keys, the input loop stores nothing but 1 on a key press and 0
    on a release, and nothing else in a turn of the application loop writes
    a key.  So after any number of turns from a reset machine - whatever
    the file, the events and [rand()] - each key holds 0 or 1. *)
Theorem keys_stay_0_or_1
        (ROM : option (list Z)) (turns : list (Z * list SDL_Event))
        (s s' : state) :
  MainLoop ROM turns (CPUReset s) = Ok s' ->
  keys_01 s' = true /\ forall i, Key s' i = 0 \/ Key s' i = 1.
Proof.
  intros H.
  assert (Hk : keys_01 s' = true).
  { eapply keys_01_MainLoop; [apply keys_01_CPUReset|exact H]. }
  split; [exact Hk|]. intros i. apply Key_01, Hk.
Qed.

Lemma keys_stay_0_or_1_witness :
  keys_01
    (DrawPixels
       (fst (handleEvent
               (tickTimers
                  (Opcode00E0 0
                     (fst (LoadCH8ROM (Some rom_key_wait)
                                      (set_PC 0x202 (CPUReset power_on))))),
                false)
               (SDL_KEYDOWN (Some 3)))))
  = true /\
  forall i,
    Key (DrawPixels
           (fst (handleEvent
                   (tickTimers
                      (Opcode00E0 0
                         (fst (LoadCH8ROM (Some rom_key_wait)
                                          (set_PC 0x202
                                                  (CPUReset power_on))))),
                    false)
                   (SDL_KEYDOWN (Some 3))))) i = 0 \/
    Key (DrawPixels
           (fst (handleEvent
                   (tickTimers
                      (Opcode00E0 0
                         (fst (LoadCH8ROM (Some rom_key_wait)
                                          (set_PC 0x202
                                                  (CPUReset power_on))))),
                    false)
                   (SDL_KEYDOWN (Some 3))))) i = 1.
Proof.
  apply (keys_stay_0_or_1 (Some rom_key_wait)
           [(0, [SDL_KEYDOWN (Some 3)])] power_on).
  vm_compute. reflexivity.
Defined.

(** X15.  A whole turn of the application loop - fetch, reload of the ROM
    file, decode, key events, screen refresh - keeps the machine well-typed
    whenever it completes, whatever the file (present or not), the events
    and [rand()]. *)
Theorem MainLoopBody_keeps_machine_ok
        (ROM : option (list Z)) (rnd : Z) (events : list SDL_Event)
        (s s' : state) (exit : bool) :
  machine_ok s = true ->
  MainLoopBody ROM rnd events s = Ok (s', exit) ->
  machine_ok s' = true.
Proof.
  intros Hok H. unfold MainLoopBody in H.
  destruct (GetNextOpcode s) as [[opcode s1]|] eqn:Ef; unfold bind in H;
    [|discriminate H].
  apply GetNextOpcode_Ok in Ef as (-> & Hlo & Hhi).
  unfold MEMORY_SIZE in Hhi.
  assert (Hok1 : machine_ok (set_PC (m_PC s + 2) s) = true).
  { apply mok_set_PC; [apply is_word_true; lia|exact Hok]. }
  pose proof (mok_LoadCH8ROM ROM _ Hok1) as Hok2.
  destruct (LoadCH8ROM ROM (set_PC (m_PC s + 2) s)) as [s2 isLoaded].
  cbn [fst] in Hok2.
  assert (Hdec : exists s3,
            (if isLoaded then DecodeOpcodeCycle rnd opcode s2 else Ok s2)
            = Ok s3 /\ machine_ok s3 = true /\
            Ok (let (s4, exit4) := fold_left handleEvent events
                                             (s3, negb isLoaded) in
                (DrawPixels s4, exit4)) = Ok (s', exit)).
  { destruct isLoaded.
    - destruct (DecodeOpcodeCycle rnd opcode s2) as [s3|] eqn:Ed;
        [|discriminate H].
      exists s3. split; [reflexivity|]. split.
      + unfold DecodeOpcodeCycle in Ed.
        destruct (Dispatch rnd opcode s2) as [s2'|] eqn:E2;
          unfold bind in Ed; [|discriminate Ed].
        injection Ed as <-. apply mok_tickTimers.
        eapply mok_Dispatch; eauto.
      + rewrite <- H. destruct (fold_left _ _ _). reflexivity.
    - exists s2. split; [reflexivity|]. split; [exact Hok2|].
      rewrite <- H. destruct (fold_left _ _ _). reflexivity. }
  destruct Hdec as (s3 & _ & Hok3 & Hfin).
  pose proof (mok_events events s3 (negb isLoaded) Hok3) as Hok4.
  destruct (fold_left handleEvent events (s3, negb isLoaded)) as [s4 exit4].
  cbn [fst] in Hok4. injection Hfin as <- _.
  apply mok_DrawPixels, Hok4.
Qed.

Lemma MainLoopBody_keeps_machine_ok_witness :
  machine_ok
    (DrawPixels
       (tickTimers
          (Opcode00E0 0
             (fst (LoadCH8ROM (Some rom_key_wait)
                              (set_PC 0x202 (CPUReset power_on)))))))
  = true.
Proof.
  apply (MainLoopBody_keeps_machine_ok (Some rom_key_wait) 0 []
           (CPUReset power_on) _ false);
    vm_compute; reflexivity.
Defined.

Lemma first_fetch (s : state) :
  GetNextOpcode (CPUReset s) = Ok (0, set_PC 0x202 (CPUReset s)).
Proof. destruct s. vm_compute. reflexivity. Qed.

Lemma mem_ok_CPUReset (s : state) : mem_ok (CPUReset s) = true.
Proof. unfold mem_ok. rewrite CPUReset_memory. vm_compute. reflexivity. Qed.

Lemma blank_screen_dark :
  existsb (fun p => p =? 1)
          (replicate (Z.to_nat (SCREEN_WIDTH * SCREEN_HEIGHT)) 0) = false.
Proof. vm_compute. reflexivity. Qed.

(** X16.  [main] fetches before it loads the file.  Starting from a reset
    machine, the fetch of the first turn reads the word 0x0000 from the
    still empty memory, and the turn decodes that word - a screen clear -
    and not the first word of the program: whatever a file of at most 3583
    bytes contains and whatever keys are hit, the turn completes without
    leaving the loop, the registers are still 0, the screen is blank, the
    program is in memory from 0x200 on, and the program counter is 0x202,
    past the program's first word, which this turn has not executed. *)
Theorem first_turn_skips_first_word
        (buffer : list Z) (rnd : Z) (events : list SDL_Event) (s : state) :
  (length buffer <= 3583)%nat ->
  ~ In SDL_QUIT events ->
  GetNextOpcode (CPUReset s) = Ok (0, set_PC 0x202 (CPUReset s)) /\
  exists s',
    MainLoopBody (Some buffer) rnd events (CPUReset s) = Ok (s', false) /\
    m_PC s' = 0x202 /\
    m_Registers s' = replicate 16 0 /\
    m_ScreenData s'
    = replicate (Z.to_nat (SCREEN_WIDTH * SCREEN_HEIGHT)) 0 /\
    (forall i, 0 <= i < Z.of_nat (length buffer) ->
       mem s' (0x200 + i) = BYTE (default 0 (buffer !! Z.to_nat i))).
Proof.
  intros Hlen Hquit. split; [apply first_fetch|]. unfold MainLoopBody.
  rewrite first_fetch. unfold bind at 1.
  pose proof (mem_ok_CPUReset s) as Hm0.
  destruct (CPUReset_fields s) as (_ & _ & Hregs0 & _).
  generalize dependent (CPUReset s). clear s. intros r Hm0 Hregs0.
  unfold LoadCH8ROM. cbv zeta.
  replace (0xFFF + 1 - 0x200 >? Z.of_nat (length buffer)) with true
    by (symmetry; rewrite Z.gtb_ltb; apply Z.ltb_lt; lia).
  destruct (load_loop buffer (set_PC 0x202 r) (length buffer))
    as (m & Hload & _ & Hin & _); [exact Hm0|exact Hlen|].
  rewrite Hload. clear Hload.
  set (s2 := set_mem m (set_PC 0x202 r)) in *.
  change (DecodeOpcodeCycle rnd 0 s2)
    with (Ok (tickTimers (Opcode00E0 0 s2))).
  unfold bind at 1. cbn [negb].
  set (s3 := tickTimers (Opcode00E0 0 s2)).
  pose proof (events_input_only events s3 false) as Hio.
  assert (Hexit : snd (fold_left handleEvent events (s3, false)) = false).
  { clear Hio. revert Hquit. generalize s3. clear.
    induction events as [|e events IH]; intros t Hq; [reflexivity|].
    cbn [fold_left].
    assert (He : exists t', handleEvent (t, false) e = (t', false)).
    { destruct e as [|[k|]|[k|]|]; simpl; eauto.
      exfalso. apply Hq. left. reflexivity. }
    destruct He as [t' ->]. apply IH. intros Hin. apply Hq. right. exact Hin. }
  destruct (fold_left handleEvent events (s3, false)) as [s4 exit4].
  cbn [fst snd] in *. subst exit4.
  destruct Hio as (Hmem & Hregs & _ & Hpc & _ & _ & _ & Hscr).
  assert (Hs3 : m_PC s3 = 0x202 /\ m_Registers s3 = m_Registers r /\
                m_GameMemory s3 = m /\
                m_ScreenData s3
                = replicate (Z.to_nat (SCREEN_WIDTH * SCREEN_HEIGHT)) 0).
  { unfold s3, tickTimers. cbv zeta.
    destruct (delayTimer _ >? 0); cbn [soundTimer set_delay Opcode00E0
                                       set_screen];
      destruct (soundTimer _ >? 0); repeat split; reflexivity. }
  destruct Hs3 as (Hpc3 & Hregs3 & Hmem3 & Hscr3).
  assert (Hdark : DrawPixels s4 = s4).
  { unfold DrawPixels. rewrite DrawPixels_fold, Hscr, Hscr3, blank_screen_dark.
    reflexivity. }
  rewrite Hdark. exists s4. split; [reflexivity|].
  split; [congruence|]. split; [congruence|]. split; [congruence|].
  intros i Hi. unfold mem. rewrite Hmem, Hmem3.
  replace (0x200 + i) with (i + 0x200) by lia. apply (Hin i Hi).
Qed.

Lemma first_turn_skips_first_word_witness :
  GetNextOpcode (CPUReset power_on)
  = Ok (0, set_PC 0x202 (CPUReset power_on)) /\
  exists s',
    MainLoopBody (Some rom_key_wait) 0 [SDL_KEYDOWN (Some 3)]
                 (CPUReset power_on)
    = Ok (s', false) /\
    m_PC s' = 0x202 /\
    m_Registers s' = replicate 16 0 /\
    m_ScreenData s'
    = replicate (Z.to_nat (SCREEN_WIDTH * SCREEN_HEIGHT)) 0 /\
    (forall i, 0 <= i < Z.of_nat (length rom_key_wait) ->
       mem s' (0x200 + i) = BYTE (default 0 (rom_key_wait !! Z.to_nat i))).
Proof.
  apply (first_turn_skips_first_word rom_key_wait 0 [SDL_KEYDOWN (Some 3)]
           power_on).
  - vm_compute. lia.
  - simpl. intros [H|H]; [discriminate H|exact H].
Defined.

(** ** Transfers that run past the end of memory *)

Lemma for_loop_fault (P : Z -> state -> Prop)
      (body : Z -> state -> result state) (f : fault) (k : Z) (n : nat) :
  forall lo s,
    lo <= k < lo + Z.of_nat n ->
    P lo s ->
    (forall i t, lo <= i < k -> P i t ->
                 exists t', body i t = Ok t' /\ P (i + 1) t') ->
    (forall t, P k t -> body k t = Undefined f) ->
    for_loop lo n body s = Undefined f.
Proof.
  induction n as [|n IH]; intros lo s Hk HP Hrun Hstop; [lia|].
  simpl. destruct (Z.eq_dec lo k) as [->|Hne].
  - rewrite Hstop by exact HP. reflexivity.
  - destruct (Hrun lo s) as (t & Ht & HPt); [lia|exact HP|].
    rewrite Ht. simpl. apply (IH (lo + 1) t); [lia|exact HPt| |exact Hstop].
    intros i u Hi. apply Hrun. lia.
Qed.

Lemma wrMem_outside (a v : Z) (s : state) :
  MEMORY_SIZE <= a -> wrMem a v s = Undefined MemoryOutOfBounds.
Proof.
  intros Ha. unfold wrMem.
  replace (a <? MEMORY_SIZE) with false by (symmetry; apply Z.ltb_ge; lia).
  rewrite andb_false_r. reflexivity.
Qed.

(** X17.  FX55 and FX65 check no address.  When the block I .. I + X
    reaches past the last cell of the memory, both index [m_GameMemory]
    outside its bounds (after transferring the part of the block that
    fits). *)
Theorem block_transfer_past_memory (opcode : Z) (s : state) :
  mem_ok s = true ->
  0 <= m_AddressI s ->
  MEMORY_SIZE <= m_AddressI s + GetRegisterX opcode ->
  OpcodeFX55 opcode s = Undefined MemoryOutOfBounds /\
  OpcodeFX65 opcode s = Undefined MemoryOutOfBounds.
Proof.
  intros Hm HI0 HIx. unfold MEMORY_SIZE in HIx.
  pose proof (GetRegisterX_range opcode) as Hx.
  set (x := GetRegisterX opcode) in *. set (I := m_AddressI s) in *.
  split.
  - unfold OpcodeFX55. cbv zeta. fold x.
    rewrite (for_loop_fault
               (fun i t => exists m, t = set_mem m s)
               (fun i t => wrMem (m_AddressI t + i) (V t i) t)
               MemoryOutOfBounds (Z.max 0 (MEMORY_SIZE - I))
               (Z.to_nat (x + 1)) 0 s); [reflexivity| | | |].
    + unfold MEMORY_SIZE. lia.
    + exists (m_GameMemory s). destruct s; reflexivity.
    + intros i t Hi [m ->]. change (m_AddressI (set_mem m s)) with I.
      rewrite wrMem_inside by (unfold MEMORY_SIZE in *; lia).
      eexists. split; [reflexivity|]. eexists. reflexivity.
    + intros t [m ->]. change (m_AddressI (set_mem m s)) with I.
      apply wrMem_outside. unfold MEMORY_SIZE. lia.
  - unfold OpcodeFX65. cbv zeta. fold x.
    rewrite (for_loop_fault
               (fun i t => exists r, t = set_regs r s)
               (fun i t => let* b := rdMem t (m_AddressI t + i) in
                           Ok (setV i b t))
               MemoryOutOfBounds (Z.max 0 (MEMORY_SIZE - I))
               (Z.to_nat (x + 1)) 0 s); [reflexivity| | | |].
    + unfold MEMORY_SIZE. lia.
    + exists (m_Registers s). destruct s; reflexivity.
    + intros i t Hi [r ->]. change (m_AddressI (set_regs r s)) with I.
      change (rdMem (set_regs r s) (I + i)) with (rdMem s (I + i)).
      rewrite rdMem_inside by (try exact Hm; unfold MEMORY_SIZE in *; lia).
      simpl bind. eexists. split; [reflexivity|]. eexists. reflexivity.
    + intros t [r ->]. change (m_AddressI (set_regs r s)) with I.
      change (rdMem (set_regs r s) (I + Z.max 0 (MEMORY_SIZE - I)))
        with (rdMem s (I + Z.max 0 (MEMORY_SIZE - I))).
      rewrite rdMem_outside by (unfold MEMORY_SIZE; lia). reflexivity.
Qed.

Lemma block_transfer_past_memory_witness :
  OpcodeFX55 0xF555 (set_I 4090 (with_V0_V1 1 2))
  = Undefined MemoryOutOfBounds /\
  OpcodeFX65 0xF555 (set_I 4090 (with_V0_V1 1 2))
  = Undefined MemoryOutOfBounds.
Proof.
  apply (block_transfer_past_memory 0xF555 (set_I 4090 (with_V0_V1 1 2)));
    solve [vm_compute; reflexivity | vm_compute; discriminate].
Defined.

(** ** A file that does not fit *)

Lemma events_keep_exit (events : list SDL_Event) :
  forall s, snd (fold_left handleEvent events (s, true)) = true.
Proof.
  induction events as [|e events IH]; intros s; [reflexivity|].
  cbn [fold_left].
  assert (He : exists t, handleEvent (s, true) e = (t, true))
    by (destruct e as [|[k|]|[k|]|]; simpl; eauto).
  destruct He as [t ->]. apply IH.
Qed.

(** X18.  When the ROM file has 3584 bytes or more, a turn of the
    application loop decodes nothing and ends the loop: the turn completes
    with [exit] set, memory, timers, stack and screen are untouched and no
    register but VF (which the screen refresh may set) changes.  The fetch
    that precedes the load has nevertheless moved the program counter by
    2. *)
Theorem oversized_rom_ends_the_loop
        (buffer : list Z) (rnd : Z) (events : list SDL_Event)
        (s s1 : state) (opcode : Z) :
  (3584 <= length buffer)%nat ->
  GetNextOpcode s = Ok (opcode, s1) ->
  exists s',
    MainLoopBody (Some buffer) rnd events s = Ok (s', true) /\
    m_PC s' = m_PC s + 2 /\
    m_GameMemory s' = m_GameMemory s /\
    timers s' = timers s /\
    m_Stack s' = m_Stack s /\
    m_ScreenData s' = m_ScreenData s /\
    (forall j, 0 <= j -> j <> 0xF -> V s' j = V s j).
Proof.
  intros Hlen Hfetch. unfold MainLoopBody. rewrite Hfetch. unfold bind at 1.
  apply GetNextOpcode_Ok in Hfetch as (-> & _ & _).
  unfold LoadCH8ROM. cbv zeta.
  replace (0xFFF + 1 - 0x200 >? Z.of_nat (length buffer)) with false
    by (symmetry; rewrite Z.gtb_ltb; apply Z.ltb_ge; lia).
  unfold bind at 1. cbn [negb].
  set (s2 := printf _ (set_PC (m_PC s + 2) s)).
  pose proof (events_input_only events s2 true) as Hio.
  pose proof (events_keep_exit events s2) as Hexit.
  destruct (fold_left handleEvent events (s2, true)) as [s4 exit4].
  cbn [fst snd] in *. subst exit4.
  destruct Hio as (Hmem & Hregs & _ & Hpc & Hst & Hd & Hsd & Hscr).
  eexists. split; [reflexivity|].
  unfold DrawPixels. rewrite DrawPixels_fold.
  assert (Hfin : forall u, u = s4 \/ u = setV 0xF 1 s4 ->
            m_PC u = m_PC s + 2 /\ m_GameMemory u = m_GameMemory s /\
            timers u = timers s /\ m_Stack u = m_Stack s /\
            m_ScreenData u = m_ScreenData s /\
            (forall j, 0 <= j -> j <> 0xF -> V u j = V s j)).
  { intros u [->| ->]; unfold timers; simpl;
      rewrite ?Hpc, ?Hmem, ?Hst, ?Hd, ?Hsd, ?Hscr;
      (repeat split; try reflexivity);
      intros j Hj Hne; rewrite ?V_setV_ne by lia;
      unfold V; rewrite Hregs; reflexivity. }
  destruct (existsb _ _); apply Hfin; auto.
Qed.

Lemma oversized_rom_ends_the_loop_witness :
  exists s',
    MainLoopBody (Some (replicate 3584 0)) 0 [] (with_word 0x60 0x07)
    = Ok (s', true) /\
    m_PC s' = m_PC (with_word 0x60 0x07) + 2 /\
    m_GameMemory s' = m_GameMemory (with_word 0x60 0x07) /\
    timers s' = timers (with_word 0x60 0x07) /\
    m_Stack s' = m_Stack (with_word 0x60 0x07) /\
    m_ScreenData s' = m_ScreenData (with_word 0x60 0x07) /\
    (forall j, 0 <= j -> j <> 0xF -> V s' j = V (with_word 0x60 0x07) j).
Proof.
  apply (oversized_rom_ends_the_loop (replicate 3584 0) 0 []
           (with_word 0x60 0x07) (set_PC 0x202 (with_word 0x60 0x07)) 0x6007).
  - vm_compute. lia.
  - vm_compute. reflexivity.
Defined.

(** ** Instances of the general statements above *)

Lemma Opcode8XY4_spec_witness :
  V (Opcode8XY4 0x8014 (with_V0_V1 200 100)) (GetRegisterX 0x8014)
  = (V (with_V0_V1 200 100) (GetRegisterX 0x8014)
     + V (with_V0_V1 200 100) (GetRegisterY 0x8014)) mod 256 /\
  V (Opcode8XY4 0x8014 (with_V0_V1 200 100)) 0xF
  = (if V (with_V0_V1 200 100) (GetRegisterY 0x8014)
        >? V (with_V0_V1 200 100) (GetRegisterX 0x8014)
     then 1 else 0).
Proof.
  apply (Opcode8XY4_spec 0x8014 (with_V0_V1 200 100));
    solve [vm_compute; reflexivity | vm_compute; discriminate].
Defined.

Lemma Opcode8XY5_spec_witness :
  V (Opcode8XY5 0x8015 (with_V0_V1 5 10)) (GetRegisterX 0x8015)
  = (V (with_V0_V1 5 10) (GetRegisterX 0x8015)
     - V (with_V0_V1 5 10) (GetRegisterY 0x8015)) mod 256 /\
  V (Opcode8XY5 0x8015 (with_V0_V1 5 10)) 0xF
  = (if V (with_V0_V1 5 10) (GetRegisterX 0x8015)
        <? V (with_V0_V1 5 10) (GetRegisterY 0x8015)
     then 0 else 1).
Proof.
  apply (Opcode8XY5_spec 0x8015 (with_V0_V1 5 10));
    solve [vm_compute; reflexivity | vm_compute; discriminate].
Defined.

Lemma Opcode8XY7_spec_witness :
  V (Opcode8XY7 0x8017 (with_V0_V1 5 10)) (GetRegisterX 0x8017)
  = (V (with_V0_V1 5 10) (GetRegisterX 0x8017)
     - V (with_V0_V1 5 10) (GetRegisterY 0x8017)) mod 256 /\
  V (Opcode8XY7 0x8017 (with_V0_V1 5 10)) 0xF
  = (if V (with_V0_V1 5 10) (GetRegisterX 0x8017)
        <? V (with_V0_V1 5 10) (GetRegisterY 0x8017)
     then 0 else 1).
Proof.
  apply (Opcode8XY7_spec 0x8017 (with_V0_V1 5 10));
    solve [vm_compute; reflexivity | vm_compute; discriminate].
Defined.

Lemma Opcode8XY6_spec_witness :
  V (Opcode8XY6 0x8016 (with_V0_V1 0 5)) 0xF
  = Z.land (V (with_V0_V1 0 5) (GetRegisterY 0x8016)) 1 /\
  V (Opcode8XY6 0x8016 (with_V0_V1 0 5)) (GetRegisterX 0x8016)
  = Z.shiftr (V (with_V0_V1 0 5) (GetRegisterY 0x8016)) 1.
Proof.
  apply (Opcode8XY6_spec 0x8016 (with_V0_V1 0 5));
    solve [vm_compute; reflexivity | vm_compute; discriminate].
Defined.

Lemma Opcode8XYE_spec_witness :
  V (Opcode8XYE 0x801E (with_V0_V1 0x81 7)) 0xF
  = Z.shiftr (V (with_V0_V1 0x81 7) (GetRegisterX 0x801E)) 7 /\
  V (Opcode8XYE 0x801E (with_V0_V1 0x81 7)) (GetRegisterX 0x801E)
  = (2 * V (with_V0_V1 0x81 7) (GetRegisterX 0x801E)) mod 256 /\
  (GetRegisterX 0x801E <> GetRegisterY 0x801E ->
   V (Opcode8XYE 0x801E (with_V0_V1 0x81 7)) (GetRegisterY 0x801E)
   = V (with_V0_V1 0x81 7) (GetRegisterY 0x801E)).
Proof.
  apply (Opcode8XYE_spec 0x801E (with_V0_V1 0x81 7));
    solve [vm_compute; reflexivity | vm_compute; discriminate].
Defined.

Lemma OpcodeFX0A_spec_witness :
  V (OpcodeFX0A 0xF00A
       (set_keys (<[9%nat := 1]> (<[3%nat := 1]> (replicate 16 0)))
                 (CPUReset power_on)))
    (GetRegisterX 0xF00A)
  = match last (pressedKeys
                  (set_keys (<[9%nat := 1]> (<[3%nat := 1]> (replicate 16 0)))
                            (CPUReset power_on))) with
    | Some k => k
    | None => V (set_keys (<[9%nat := 1]> (<[3%nat := 1]> (replicate 16 0)))
                          (CPUReset power_on))
                (GetRegisterX 0xF00A)
    end.
Proof.
  apply (OpcodeFX0A_spec 0xF00A
           (set_keys (<[9%nat := 1]> (<[3%nat := 1]> (replicate 16 0)))
                     (CPUReset power_on))).
  vm_compute. reflexivity.
Defined.

Lemma Dispatch_silent_witness :
  console (Opcode8XY4 0x8014 (with_V0_V1 250 10))
  = console (with_V0_V1 250 10).
Proof.
  apply (Dispatch_silent 0 0x8014 (with_V0_V1 250 10)
           (Opcode8XY4 0x8014 (with_V0_V1 250 10))).
  vm_compute. reflexivity.
Defined.
